(** * QuizMaker: grading of exam submissions and manual score override

    A shallow embedding of the response controller
    (backend/src/controllers/responseController.js), of the validation chains
    of backend/src/routes/responses.js and backend/src/routes/exams.js, and of
    the tables of the Prisma migration they read and write.

    Conventions of the embedding.
    - A JavaScript string is a [string] (a sequence of 8-bit code units);
      [===] on strings is [String.eqb].
    - The INTEGER columns [points], [order], [score], [totalPoints] are [Z].
      The sums the grading loop forms are sums of JavaScript numbers; they are
      exact as long as they stay below 2^53 (at 100 points a question at most,
      some 9 * 10^13 questions), so they are computed in [Z].
    - The percentage is computed in binary64 arithmetic, as the source does:
      [PrimFloat] is IEEE 754 binary64 with round-to-nearest-even.
    - A nullable column or an optional body field is an [option].  A body
      field that the application fills with values of more than one type
      ([studentEmail] once sanitized, the [options] of a question) has an
      inductive type with one constructor for each.
    - A handler is a function from the request and the store to the HTTP
      response and the new store; an exception caught by the handler's
      try/catch is the 500 response.
    - Objects sent back to the client are [json] values, so that the presence
      or absence of a field can be stated. *)

From stdpp Require Import base list strings sorting gmap pretty.
From Stdlib Require Import ZArith Lia.
From Stdlib Require Import Floats.PrimFloat Floats.FloatOps Floats.SpecFloat.
From Stdlib Require Import Uint63.

Local Open Scope string_scope.
Local Open Scope list_scope.
Local Open Scope Z_scope.

(** ** Strings as the validators see them *)

(** The ASCII part of the JavaScript regular-expression class [\s]
    (tab, line feed, vertical tab, form feed, carriage return, space) and the
    Latin-1 no-break space. *)
Definition is_space (c : Ascii.ascii) : bool :=
  let n := Ascii.N_of_ascii c in
  ((9 <=? n) && (n <=? 13) || (n =? 32) || (n =? 160))%N.

(** validator.js [ltrim(str)]: [str.replace(/^\s+/g, '')]. *)
Fixpoint ltrim (s : string) : string :=
  match s with
  | EmptyString => EmptyString
  | String c s' => if is_space c then ltrim s' else s
  end.

(** validator.js [rtrim(str)]: walks back from the last character while it
    is white space and keeps the prefix. *)
Fixpoint rtrim (s : string) : string :=
  match s with
  | EmptyString => EmptyString
  | String c s' =>
      match rtrim s' with
      | EmptyString => if is_space c then EmptyString else String c EmptyString
      | r => String c r
      end
  end.

(** validator.js [trim(str)] is [rtrim(ltrim(str))]; express-validator's
    [.trim()] writes the result back into the request body. *)
Definition trim (s : string) : string := rtrim (ltrim s).

(** [isLength({min, max})] on a string. *)
Definition isLength (min : nat) (max : option nat) (s : string) : bool :=
  (min <=? String.length s)%nat &&
  match max with
  | Some m => (String.length s <=? m)%nat
  | None => true
  end.

(** ** Tables (prisma/migrations/..._add_email_verification/migration.sql) *)

Record Exam := {
  e_id : string;
  e_title : string;
  e_description : option string;
  e_timeLimit : option Z;
  e_shareLink : string;
  e_isActive : bool;
  e_authorId : string
}.

Record Question := {
  q_id : string;
  q_type : string;
  q_question : string;
  q_options : option string;
  q_correctAnswer : option string;
  q_points : Z;
  q_order : Z;
  q_examId : string
}.

(** A row of [responses]; its primary key is the key of the map it lives in. *)
Record Response := {
  r_studentName : option string;
  r_studentEmail : option string;
  r_score : option Z;
  r_totalPoints : Z;
  r_submittedAt : string;
  r_examId : string
}.

(** A row of [answers]: the table has these four columns and no other. *)
Record Answer := {
  a_id : string;
  a_answer : string;
  a_questionId : string;
  a_responseId : string
}.

(** The store. [db_nextId] is the supply of the ORM's generated primary keys
    and [db_now] the database's CURRENT_TIMESTAMP. *)
Record DB := {
  db_exams : list Exam;
  db_questions : list Question;
  db_responses : gmap string Response;
  db_answers : list Answer;
  db_nextId : N;
  db_now : string
}.

Definition fresh_id (n : N) : string := "c" +:+ pretty n.

(** ** The grading loop of submitResponse (lines 38-68) *)

(** One element of [req.body.answers]. *)
Record SubmittedAnswer := {
  questionId : string;
  answer : string
}.

(** One element of [processedAnswers]. *)
Record ProcessedAnswer := {
  p_questionId : string;
  p_answer : string;
  isCorrect : bool
}.

(** The three variables the loop updates. *)
Record GradeState := {
  score : Z;
  totalPoints : Z;
  processedAnswers : list ProcessedAnswer
}.

Definition grade_init : GradeState :=
  {| score := 0; totalPoints := 0; processedAnswers := [] |}.

(** [answers.find(a => a.questionId === question.id)] *)
Definition find_answer (answers : list SubmittedAnswer) (qid : string)
  : option SubmittedAnswer :=
  List.find (fun a => String.eqb (questionId a) qid) answers.

(** Truthiness of a nullable string: [null] and [''] are falsy. *)
Definition truthy (s : option string) : bool :=
  match s with
  | Some s => negb (String.eqb s "")
  | None => false
  end.

(** [studentAnswer.answer === question.correctAnswer] *)
Definition strict_eq (s : string) (o : option string) : bool :=
  match o with
  | Some c => String.eqb s c
  | None => false
  end.

Definition is_objective (question : Question) : bool :=
  String.eqb (q_type question) "MULTIPLE_CHOICE" ||
  String.eqb (q_type question) "TRUE_FALSE".

Definition is_subjective (question : Question) : bool :=
  String.eqb (q_type question) "SHORT_ANSWER" ||
  String.eqb (q_type question) "ESSAY".

(** The body of [for (const question of exam.questions)]. *)
Definition grade_step (answers : list SubmittedAnswer)
  (st : GradeState) (question : Question) : GradeState :=
  let totalPoints' := totalPoints st + q_points question in
  match find_answer answers (q_id question) with
  | Some studentAnswer =>
      let graded :=
        if is_objective question then
          if truthy (q_correctAnswer question) &&
             strict_eq (answer studentAnswer) (q_correctAnswer question)
          then (true, score st + q_points question)
          else (false, score st)
        else if is_subjective question then
          (false, score st)
        else (false, score st) in
      {| score := snd graded;
         totalPoints := totalPoints';
         processedAnswers :=
           processedAnswers st ++
           [{| p_questionId := q_id question;
               p_answer := answer studentAnswer;
               isCorrect := fst graded |}] |}
  | None =>
      {| score := score st;
         totalPoints := totalPoints';
         processedAnswers := processedAnswers st |}
  end.

Definition grade_loop (answers : list SubmittedAnswer)
  (questions : list Question) (st : GradeState) : GradeState :=
  fold_left (grade_step answers) questions st.

Definition grade (questions : list Question) (answers : list SubmittedAnswer)
  : GradeState :=
  grade_loop answers questions grade_init.

(** ** The percentage (line 125), in binary64 *)

(** A JavaScript number holding an integer. *)
Definition Z2float (z : Z) : float :=
  if z <? 0 then PrimFloat.opp (PrimFloat.of_uint63 (Uint63.of_Z (- z)))
  else PrimFloat.of_uint63 (Uint63.of_Z z).

(** [Math.round]: the integer closest to [x], a tie going towards +infinity;
    NaN, the infinities and the numbers that are already integers are
    returned as they are, and a result of zero keeps the sign of [x]. *)
Definition Math_round (x : float) : float :=
  match Prim2SF x with
  | S754_finite s m e =>
      if e <? 0 then
        let n := if s then Z.neg m else Z.pos m in
        let r := (2 * n + 2 ^ (- e)) `div` 2 ^ (1 - e) in
        if (r =? 0) && s then PrimFloat.neg_zero else Z2float r
      else x
  | _ => x
  end.

(** [totalPoints > 0 ? Math.round((score / totalPoints) * 100) : 0] *)
Definition percentage (score totalPoints : Z) : float :=
  if 0 <? totalPoints then
    Math_round
      (PrimFloat.mul (PrimFloat.div (Z2float score) (Z2float totalPoints))
         (Z2float 100))
  else Z2float 0.

(** ** Objects on the wire *)

#[local] Unset Elimination Schemes.
Inductive json :=
  | JNull
  | JBool (b : bool)
  | JNum (x : float)
  | JStr (s : string)
  | JArr (items : list json)
  | JObj (fields : list (string * json)).
#[local] Set Elimination Schemes.

Definition JInt (z : Z) : json := JNum (Z2float z).

Definition JOptStr (o : option string) : json :=
  match o with Some s => JStr s | None => JNull end.

Definition JOptInt (o : option Z) : json :=
  match o with Some z => JInt z | None => JNull end.

(** [obj.key]; [None] stands for [undefined]. *)
Definition get_field (key : string) (obj : json) : option json :=
  match obj with
  | JObj fields =>
      snd <$> List.find (fun kv => String.eqb (fst kv) key) fields
  | _ => None
  end.

Definition has_field (key : string) (obj : json) : bool :=
  match get_field key obj with Some _ => true | None => false end.

Definition items_of (j : json) : list json :=
  match j with JArr items => items | _ => [] end.

Record HttpResponse := {
  status : Z;
  body : json
}.

(** The error classes of the service, read off the status line. *)
Inductive ErrorKind := Validation | Authorization | NotFound | Internal.

Definition error_kind (res : HttpResponse) : option ErrorKind :=
  if status res =? 400 then Some Validation
  else if (status res =? 401) || (status res =? 403) then Some Authorization
  else if status res =? 404 then Some NotFound
  else if status res =? 500 then Some Internal
  else None.

Definition failure (code : Z) (message : string) : HttpResponse :=
  {| status := code;
     body := JObj [("success", JBool false); ("message", JStr message)] |}.

(** ** Queries *)

(** [prisma.exam.findUnique({ where: { shareLink, isActive: true } })] *)
Definition find_exam_by_shareLink (db : DB) (shareLink : string)
  : option Exam :=
  List.find (fun e => String.eqb (e_shareLink e) shareLink && e_isActive e)
    (db_exams db).

Definition find_exam_by_id (db : DB) (id : string) : option Exam :=
  List.find (fun e => String.eqb (e_id e) id) (db_exams db).

Definition find_question_by_id (db : DB) (id : string) : option Question :=
  List.find (fun q => String.eqb (q_id q) id) (db_questions db).

Definition order_le (a b : Question) : Prop := q_order a <= q_order b.

#[global] Instance order_le_dec : RelDecision order_le.
Proof. intros a b. unfold order_le. apply _. Defined.

(** The rows of [questions] that belong to the exam, as the table holds
    them. *)
Definition questions_of (db : DB) (exam : Exam) : list Question :=
  List.filter (fun q => String.eqb (q_examId q) (e_id exam)) (db_questions db).

(** [include: { questions: { orderBy: { order: 'asc' } } }] *)
Definition exam_questions (db : DB) (exam : Exam) : list Question :=
  merge_sort order_le (questions_of db exam).

(** [select: { id, question, type, correctAnswer, points }]; the score
    update leaves [correctAnswer] out of the selection. *)
Definition question_json (withCorrect : bool) (q : Question) : json :=
  JObj ([("id", JStr (q_id q));
         ("question", JStr (q_question q));
         ("type", JStr (q_type q))]
        ++ (if withCorrect
            then [("correctAnswer", JOptStr (q_correctAnswer q))] else [])
        ++ [("points", JInt (q_points q))]).

(** An [answers] row with [include: { question: ... }]. *)
Definition answer_json (withCorrect : bool) (db : DB) (a : Answer) : json :=
  JObj [("id", JStr (a_id a));
        ("answer", JStr (a_answer a));
        ("questionId", JStr (a_questionId a));
        ("responseId", JStr (a_responseId a));
        ("question",
          match find_question_by_id db (a_questionId a) with
          | Some q => question_json withCorrect q
          | None => JNull
          end)].

Definition answers_of (db : DB) (responseId : string) : list Answer :=
  List.filter (fun a => String.eqb (a_responseId a) responseId) (db_answers db).

(** A [responses] row with [include: { answers: ... }]. *)
Definition response_json (withCorrect : bool) (db : DB)
  (id : string) (r : Response) : json :=
  JObj [("id", JStr id);
        ("studentName", JOptStr (r_studentName r));
        ("studentEmail", JOptStr (r_studentEmail r));
        ("score", JOptInt (r_score r));
        ("totalPoints", JInt (r_totalPoints r));
        ("submittedAt", JStr (r_submittedAt r));
        ("examId", JStr (r_examId r));
        ("answers",
          JArr (map (answer_json withCorrect db) (answers_of db id)))].

(** ** Validation chains *)

(** The e-mail checks of validator.js, which this development does not open.
    [normalizeEmail] returns the normalised address, or [false] ([None]) for
    an address whose local part it leaves empty. *)
Class EmailValidator := {
  isEmail : string -> bool;
  normalizeEmail : string -> option string
}.

(** [req.body.studentEmail] when the field is there: a text, or the [false]
    that the sanitizer leaves in the place of an address it cannot
    normalise. *)
Inductive EmailField :=
  | EmailText (text : string)
  | EmailFalse.

(** The string that a validator or a standard sanitizer is handed. *)
Definition toString (field : EmailField) : string :=
  match field with
  | EmailText text => text
  | EmailFalse => "false"
  end.

(** [body('studentEmail').normalizeEmail()]: the result is written back
    into [req.body]. *)
Definition sanitize_email `{EmailValidator} (field : EmailField)
  : EmailField :=
  match normalizeEmail (toString field) with
  | Some text => EmailText text
  | None => EmailFalse
  end.

(** The value that [tx.response.create] gives the nullable TEXT column
    [studentEmail]: null for an absent field; [false] is no value of the
    column, and the call throws ([None]). *)
Definition email_column (field : option EmailField)
  : option (option string) :=
  match field with
  | None => Some None
  | Some (EmailText text) => Some (Some text)
  | Some EmailFalse => None
  end.

(** A validator pushes its message when the check fails. *)
Definition check (ok : bool) (message : string) : list string :=
  if ok then [] else [message].

(** The request of POST /submit/:shareLink as the middlewares pass it on:
    [sr_errors] is what [validationResult(req)] will find. *)
Record SubmitRequest := {
  sr_shareLink : string;
  sr_studentName : option string;
  sr_studentEmail : option EmailField;
  sr_answers : list SubmittedAnswer;
  sr_errors : list string
}.

Definition shareLinkValidation (req : SubmitRequest) : SubmitRequest :=
  {| sr_shareLink := sr_shareLink req;
     sr_studentName := sr_studentName req;
     sr_studentEmail := sr_studentEmail req;
     sr_answers := sr_answers req;
     sr_errors :=
       sr_errors req ++
       check (isLength 1 None (sr_shareLink req))
         "Valid share link is required" |}.

(** [body('answers.*.answer').trim()] *)
Definition sanitize_answer (a : SubmittedAnswer) : SubmittedAnswer :=
  {| questionId := questionId a; answer := trim (answer a) |}.

Definition submitResponseValidation `{EmailValidator}
  (req : SubmitRequest) : SubmitRequest :=
  let studentName := trim <$> sr_studentName req in
  let studentEmail := sanitize_email <$> sr_studentEmail req in
  let answers := map sanitize_answer (sr_answers req) in
  {| sr_shareLink := sr_shareLink req;
     sr_studentName := studentName;
     sr_studentEmail := studentEmail;
     sr_answers := answers;
     sr_errors :=
       sr_errors req
       ++ from_option
            (fun n => check (isLength 1 (Some 100%nat) n)
                        "Student name must be less than 100 characters")
            [] studentName
       ++ from_option
            (fun e => check (isEmail (toString e))
                        "Please provide a valid email")
            [] (sr_studentEmail req)
       ++ check (1 <=? length answers)%nat
            "Answers are required and must be an array"
       ++ flat_map
            (fun a => check (isLength 1 None (questionId a))
                        "Question ID is required for each answer")
            answers
       ++ flat_map
            (fun a => check (isLength 1 None (answer a)) "Answer is required")
            answers |}.

(** The request of PUT /:responseId/score after [authenticateToken] has put
    the acting user in [req.user]. *)
Record ScoreRequest := {
  ur_responseId : string;
  ur_score : Z;
  ur_userId : string;
  ur_errors : list string
}.

Definition responseIdValidation (req : ScoreRequest) : ScoreRequest :=
  {| ur_responseId := ur_responseId req;
     ur_score := ur_score req;
     ur_userId := ur_userId req;
     ur_errors :=
       ur_errors req ++
       check (isLength 1 None (ur_responseId req))
         "Valid response ID is required" |}.

(** [body('score').isInt({ min: 0 })] *)
Definition updateScoreValidation (req : ScoreRequest) : ScoreRequest :=
  {| ur_responseId := ur_responseId req;
     ur_score := ur_score req;
     ur_userId := ur_userId req;
     ur_errors :=
       ur_errors req ++
       check (0 <=? ur_score req) "Score must be a non-negative integer" |}.

(** ** Handlers *)

(** [processedAnswers.map(a => ({ questionId, answer, responseId }))] *)
Record AnswerData := {
  ad_questionId : string;
  ad_answer : string;
  ad_responseId : string
}.

Definition answersData (responseId : string)
  (processed : list ProcessedAnswer) : list AnswerData :=
  map (fun a => {| ad_questionId := p_questionId a;
                   ad_answer := p_answer a;
                   ad_responseId := responseId |}) processed.

(** [tx.answer.createMany({ data })]: one row per element, keys drawn from
    the supply in turn. *)
Definition createMany (first : N) (data : list AnswerData) : list Answer :=
  imap (fun i d => {| a_id := fresh_id (first + N.of_nat i);
                      a_answer := ad_answer d;
                      a_questionId := ad_questionId d;
                      a_responseId := ad_responseId d |}) data.

(** The handler.  The response and its answers are written in one
    transaction: when [tx.response.create] throws nothing is kept, and the
    [catch] sends the 500 reply. *)
Definition submitResponse (req : SubmitRequest) (db : DB)
  : HttpResponse * DB :=
  match sr_errors req with
  | _ :: _ =>
      ({| status := 400;
          body := JObj [("success", JBool false);
                        ("message", JStr "Validation failed");
                        ("errors", JArr (map JStr (sr_errors req)))] |}, db)
  | [] =>
      match find_exam_by_shareLink db (sr_shareLink req) with
      | None => (failure 404 "Exam not found or inactive", db)
      | Some exam =>
          let g := grade (exam_questions db exam) (sr_answers req) in
          match email_column (sr_studentEmail req) with
          | None => (failure 500 "Internal server error", db)
          | Some studentEmail =>
              let id := fresh_id (db_nextId db) in
              let newResponse :=
                {| r_studentName := sr_studentName req;
                   r_studentEmail := studentEmail;
                   r_score := Some (score g);
                   r_totalPoints := totalPoints g;
                   r_submittedAt := db_now db;
                   r_examId := e_id exam |} in
              let rows :=
                if (0 <? length (processedAnswers g))%nat
                then createMany (db_nextId db + 1)
                       (answersData id (processedAnswers g))
                else [] in
              let db' :=
                {| db_exams := db_exams db;
                   db_questions := db_questions db;
                   db_responses := <[id := newResponse]> (db_responses db);
                   db_answers := db_answers db ++ rows;
                   db_nextId := db_nextId db + 1 + N.of_nat (length rows);
                   db_now := db_now db |} in
              let completeResponse :=
                match db_responses db' !! id with
                | Some r => response_json true db' id r
                | None => JNull
                end in
              ({| status := 201;
                  body :=
                    JObj [("success", JBool true);
                          ("message", JStr "Response submitted successfully");
                          ("data",
                            JObj [("response", completeResponse);
                                  ("score", JInt (score g));
                                  ("totalPoints", JInt (totalPoints g));
                                  ("percentage",
                                    JNum (percentage (score g)
                                            (totalPoints g)))])] |},
               db')
          end
      end
  end.

(** POST /submit/:shareLink *)
Definition post_submit `{EmailValidator} (req : SubmitRequest) (db : DB)
  : HttpResponse * DB :=
  submitResponse (submitResponseValidation (shareLinkValidation req)) db.

Definition set_score (r : Response) (score : Z) : Response :=
  {| r_studentName := r_studentName r;
     r_studentEmail := r_studentEmail r;
     r_score := Some score;
     r_totalPoints := r_totalPoints r;
     r_submittedAt := r_submittedAt r;
     r_examId := r_examId r |}.

(** The handler never calls [validationResult]: [ur_errors] is not read. *)
Definition updateResponseScore (req : ScoreRequest) (db : DB)
  : HttpResponse * DB :=
  match db_responses db !! ur_responseId req with
  | None => (failure 404 "Response not found", db)
  | Some response =>
      match find_exam_by_id db (r_examId response) with
      | None => (failure 500 "Internal server error", db)
      | Some exam =>
          if negb (String.eqb (e_authorId exam) (ur_userId req))
          then (failure 404 "Response not found", db)
          else
            let updatedResponse := set_score response (ur_score req) in
            let db' :=
              {| db_exams := db_exams db;
                 db_questions := db_questions db;
                 db_responses :=
                   <[ur_responseId req := updatedResponse]> (db_responses db);
                 db_answers := db_answers db;
                 db_nextId := db_nextId db;
                 db_now := db_now db |} in
            ({| status := 200;
                body :=
                  JObj [("success", JBool true);
                        ("message",
                          JStr "Response score updated successfully");
                        ("data",
                          JObj [("response",
                                  response_json false db'
                                    (ur_responseId req) updatedResponse)])] |},
             db')
      end
  end.

(** PUT /:responseId/score *)
Definition put_score (req : ScoreRequest) (db : DB) : HttpResponse * DB :=
  updateResponseScore (updateScoreValidation (responseIdValidation req)) db.

(** ** Where question rows come from: createExam (examController.js) *)

(** [q.options] when the field is there: a text, or the array of strings
    that the create-exam page posts for a multiple-choice question. *)
Inductive OptionsInput :=
  | OptionsText (text : string)
  | OptionsList (items : list string).

(** One element of [req.body.questions]. *)
Record QuestionInput := {
  qi_type : option string;
  qi_question : option string;
  qi_options : option OptionsInput;
  qi_correctAnswer : option string;
  qi_points : option Z
}.

(** The request of POST /exams after [authenticateToken]. *)
Record ExamRequest := {
  xr_title : string;
  xr_description : option string;
  xr_timeLimit : option Z;
  xr_questions : option (list QuestionInput);
  xr_userId : string;
  xr_errors : list string
}.

(** [isIn(values)] *)
Definition isIn (values : list string) (s : string) : bool :=
  existsb (String.eqb s) values.

(** [isInt({ min, max })] on a number that is an integer. *)
Definition isInt (min max : Z) (z : Z) : bool := (min <=? z) && (z <=? max).

(** [.optional()]: an absent field passes. *)
Definition optional {A} (ok : A -> bool) (field : option A) : bool :=
  from_option ok true field.

(** [body('questions.*.points').optional().isInt({ min: 1, max: 100 })] *)
Definition points_valid (points : option Z) : bool :=
  optional (isInt 1 100) points.

(** [body('questions.*.question').trim()] *)
Definition sanitize_question (q : QuestionInput) : QuestionInput :=
  {| qi_type := qi_type q;
     qi_question := trim <$> qi_question q;
     qi_options := qi_options q;
     qi_correctAnswer := qi_correctAnswer q;
     qi_points := qi_points q |}.

(** [examValidation] of routes/exams.js. *)
Definition examValidation (req : ExamRequest) : ExamRequest :=
  let title := trim (xr_title req) in
  let description := trim <$> xr_description req in
  let questions := map sanitize_question <$> xr_questions req in
  {| xr_title := title;
     xr_description := description;
     xr_timeLimit := xr_timeLimit req;
     xr_questions := questions;
     xr_userId := xr_userId req;
     xr_errors :=
       xr_errors req
       ++ check (isLength 1 (Some 200%nat) title)
            "Title is required and must be less than 200 characters"
       ++ check (optional (isLength 0 (Some 1000%nat)) description)
            "Description must be less than 1000 characters"
       ++ check (optional (isInt 1 480) (xr_timeLimit req))
            "Time limit must be between 1 and 480 minutes"
       ++ flat_map
            (fun q =>
               check (optional (isIn ["MULTIPLE_CHOICE"; "TRUE_FALSE";
                                      "SHORT_ANSWER"; "ESSAY"]) (qi_type q))
                 "Invalid question type")
            (default [] questions)
       ++ flat_map
            (fun q =>
               check (optional (isLength 1 (Some 1000%nat)) (qi_question q))
                 "Question text is required and must be less than 1000 characters")
            (default [] questions)
       ++ flat_map
            (fun q => check (points_valid (qi_points q))
                        "Points must be between 1 and 100")
            (default [] questions) |}.

(** [q.correctAnswer || null]: the empty string becomes null. *)
Definition or_null (s : option string) : option string :=
  if truthy s then s else None.

(** [q.options || null] as a value of the nullable TEXT column [options]:
    null for an absent field and for the empty string; an array, which is
    truthy even when empty, is no value of the column, and createMany throws
    ([None]). *)
Definition stored_options (options : option OptionsInput)
  : option (option string) :=
  match options with
  | None => Some None
  | Some (OptionsText text) => Some (or_null (Some text))
  | Some (OptionsList _) => None
  end.

(** [q.points || 1] *)
Definition stored_points (points : option Z) : Z :=
  match points with
  | Some p => if p =? 0 then 1 else p
  | None => 1
  end.

(** One element of [questionsData] as a row: [type] and [question] are
    NOT NULL columns, so that an element without them makes createMany
    throw ([None]), as does an element whose [options] are an array. *)
Definition question_row (examId : string) (first : N) (index : nat)
  (q : QuestionInput) : option Question :=
  type ← qi_type q;
  question ← qi_question q;
  options ← stored_options (qi_options q);
  Some {| q_id := fresh_id (first + N.of_nat index);
          q_type := type;
          q_question := question;
          q_options := options;
          q_correctAnswer := or_null (qi_correctAnswer q);
          q_points := stored_points (qi_points q);
          q_order := Z.of_nat index + 1;
          q_examId := examId |}.

(** The effect of createExam on the store, with the status of its reply.
    The exam and its questions are written in one transaction: when
    createMany throws nothing is kept and the reply is the 500 one. *)
Definition createExam (req : ExamRequest) (db : DB) : Z * DB :=
  match xr_errors req with
  | _ :: _ => (400, db)
  | [] =>
      let examId := fresh_id (db_nextId db) in
      let newExam :=
        {| e_id := examId;
           e_title := xr_title req;
           e_description := xr_description req;
           e_timeLimit := xr_timeLimit req;
           e_shareLink := "s" +:+ pretty (db_nextId db);
           e_isActive := true;
           e_authorId := xr_userId req |} in
      match mapM (fun row => row)
              (imap (question_row (e_id newExam) (db_nextId db + 1))
                       (default [] (xr_questions req))) with
      | None => (500, db)
      | Some rows =>
          (201,
           {| db_exams := db_exams db ++ [newExam];
              db_questions := db_questions db ++ rows;
              db_responses := db_responses db;
              db_answers := db_answers db;
              db_nextId := db_nextId db + 1 + N.of_nat (length rows);
              db_now := db_now db |})
      end
  end.

(** POST /exams *)
Definition post_exam (req : ExamRequest) (db : DB) : Z * DB :=
  createExam (examValidation req) db.

(** The range that [examValidation] and createExam give the [points]
    column. *)
Definition points_in_range (db : DB) : Prop :=
  Forall (fun q => 1 <= q_points q <= 100) (db_questions db).

(** ** The other handlers of the exam controller *)

(** [prisma.exam.findFirst({ where: { id, authorId } })] *)
Definition find_exam_of_author (db : DB) (id authorId : string)
  : option Exam :=
  List.find
    (fun e => String.eqb (e_id e) id && String.eqb (e_authorId e) authorId)
    (db_exams db).

(** One element of the [questions] array that getPublicExam sends:
    [select: { id, type, question, options, points, order }]. *)
Definition public_question_json (q : Question) : json :=
  JObj [("id", JStr (q_id q));
        ("type", JStr (q_type q));
        ("question", JStr (q_question q));
        ("options", JOptStr (q_options q));
        ("points", JInt (q_points q));
        ("order", JInt (q_order q))].

(** The reply of getPublicExam as far as the questions go: its status and the
    [questions] array of [data.exam] (empty when the reply is the 404 one).
    The exam object also carries the exam's own columns and the name of its
    author. *)
Record PublicExam := {
  pe_status : Z;
  pe_questions : list json
}.

Definition getPublicExam (shareLink : string) (db : DB) : PublicExam :=
  match find_exam_by_shareLink db shareLink with
  | None => {| pe_status := 404; pe_questions := [] |}
  | Some exam =>
      {| pe_status := 200;
         pe_questions := map public_question_json (exam_questions db exam) |}
  end.

(** The request of PUT /exams/:id after [authenticateToken]. *)
Record UpdateExamRequest := {
  ux_id : string;
  ux_title : option string;
  ux_description : option string;
  ux_timeLimit : option Z;
  ux_isActive : option bool;
  ux_userId : string;
  ux_errors : list string
}.

(** [param('id').isLength({ min: 1 })] *)
Definition id_errors (id : string) : list string :=
  check (isLength 1 None id) "Valid exam ID is required".

(** [idValidation] followed by [updateExamValidation]; [isActive] is a
    boolean, which [isBoolean] lets through. *)
Definition updateExamValidation (req : UpdateExamRequest)
  : UpdateExamRequest :=
  let title := trim <$> ux_title req in
  let description := trim <$> ux_description req in
  {| ux_id := ux_id req;
     ux_title := title;
     ux_description := description;
     ux_timeLimit := ux_timeLimit req;
     ux_isActive := ux_isActive req;
     ux_userId := ux_userId req;
     ux_errors :=
       ux_errors req
       ++ id_errors (ux_id req)
       ++ check (optional (isLength 1 (Some 200%nat)) title)
            "Title must be less than 200 characters"
       ++ check (optional (isLength 0 (Some 1000%nat)) description)
            "Description must be less than 1000 characters"
       ++ check (optional (isInt 1 480) (ux_timeLimit req))
            "Time limit must be between 1 and 480 minutes"
       ++ check (optional (fun _ : bool => true) (ux_isActive req))
            "isActive must be a boolean" |}.

(** [data: { title, description, timeLimit, isActive }]: a field that is
    undefined is left as it is. *)
Definition update_exam_row (req : UpdateExamRequest) (e : Exam) : Exam :=
  {| e_id := e_id e;
     e_title := default (e_title e) (ux_title req);
     e_description :=
       match ux_description req with
       | Some d => Some d
       | None => e_description e
       end;
     e_timeLimit :=
       match ux_timeLimit req with
       | Some t => Some t
       | None => e_timeLimit e
       end;
     e_shareLink := e_shareLink e;
     e_isActive := default (e_isActive e) (ux_isActive req);
     e_authorId := e_authorId e |}.

(** The effect of updateExam on the store, with the status of its reply. *)
Definition updateExam (req : UpdateExamRequest) (db : DB) : Z * DB :=
  match ux_errors req with
  | _ :: _ => (400, db)
  | [] =>
      match find_exam_of_author db (ux_id req) (ux_userId req) with
      | None => (404, db)
      | Some existingExam =>
          (200,
           {| db_exams :=
                map (fun e => if String.eqb (e_id e) (ux_id req)
                              then update_exam_row req e else e)
                  (db_exams db);
              db_questions := db_questions db;
              db_responses := db_responses db;
              db_answers := db_answers db;
              db_nextId := db_nextId db;
              db_now := db_now db |})
      end
  end.

(** PUT /exams/:id *)
Definition put_exam (req : UpdateExamRequest) (db : DB) : Z * DB :=
  updateExam (updateExamValidation req) db.

(** The request of DELETE /exams/:id after [authenticateToken]; the handler
    does not read the outcome of [idValidation]. *)
Record DeleteExamRequest := {
  dx_id : string;
  dx_userId : string
}.

(** An answer row goes with its question or with its response
    (ON DELETE CASCADE on both foreign keys of [answers]). *)
Definition answer_survives (db : DB) (examId : string) (a : Answer) : bool :=
  negb (existsb
          (fun q => String.eqb (q_id q) (a_questionId a) &&
                    String.eqb (q_examId q) examId)
          (db_questions db)) &&
  match db_responses db !! a_responseId a with
  | Some r => negb (String.eqb (r_examId r) examId)
  | None => true
  end.

(** The effect of deleteExam on the store, with the status of its reply:
    [prisma.exam.delete] removes the exam and, by the cascades of the
    migration, its questions, its responses and their answers. *)
Definition deleteExam (req : DeleteExamRequest) (db : DB) : Z * DB :=
  match find_exam_of_author db (dx_id req) (dx_userId req) with
  | None => (404, db)
  | Some existingExam =>
      (200,
       {| db_exams :=
            List.filter (fun e => negb (String.eqb (e_id e) (dx_id req)))
              (db_exams db);
          db_questions :=
            List.filter (fun q => negb (String.eqb (q_examId q) (dx_id req)))
              (db_questions db);
          db_responses :=
            filter (fun kr => r_examId (snd kr) <> dx_id req)
              (db_responses db);
          db_answers :=
            List.filter (answer_survives db (dx_id req)) (db_answers db);
          db_nextId := db_nextId db;
          db_now := db_now db |})
  end.

(** ** The exam page (frontend/src/app/exam/[shareLink]/page.tsx) *)

(** [question.id] read from an element of the questions array. *)
Definition json_string (j : option json) : string :=
  match j with
  | Some (JStr s) => s
  | _ => ""
  end.

(** The body that [submitExam] posts: one answer for each question of the
    exam as fetched, with the text typed for it or the empty string
    ([answers[question.id] || '']); the name and the e-mail address are read
    from the same object. *)
Definition submitExam (shareLink : string) (questions : list json)
  (answers : gmap string string) : SubmitRequest :=
  let examAnswers :=
    map (fun question =>
           {| questionId := json_string (get_field "id" question);
              answer :=
                default ""
                  (answers !! json_string (get_field "id" question)) |})
      questions in
  {| sr_shareLink := shareLink;
     sr_studentName := answers !! "studentName";
     sr_studentEmail := EmailText <$> answers !! "studentEmail";
     sr_answers := examAnswers;
     sr_errors := [] |}.

(** ** Listing the responses of an exam (getExamResponses) *)

(** The value of a digit in the radix, if it is one. *)
Definition digit_value (radix : Z) (c : Ascii.ascii) : option Z :=
  let n := Z.of_N (Ascii.N_of_ascii c) in
  let v :=
    if (48 <=? n) && (n <=? 57) then Some (n - 48)
    else if (97 <=? n) && (n <=? 122) then Some (n - 87)
    else if (65 <=? n) && (n <=? 90) then Some (n - 55)
    else None in
  match v with
  | Some d => if d <? radix then Some d else None
  | None => None
  end.

(** The value of the longest prefix made of digits; [None] when it is
    empty. *)
Fixpoint parse_digits (radix : Z) (acc : option Z) (s : string) : option Z :=
  match s with
  | EmptyString => acc
  | String c s' =>
      match digit_value radix c with
      | Some d => parse_digits radix (Some (default 0 acc * radix + d)) s'
      | None => acc
      end
  end.

(** The character with the given code. *)
Definition char_is (code : N) (c : Ascii.ascii) : bool :=
  (Ascii.N_of_ascii c =? code)%N.

(** [parseInt(s)] without a radix: leading white space is skipped, a sign
    ([-] is 45, [+] is 43) is read, [0x] or [0X] (48, then 120 or 88)
    announces base 16, and the digits are read as far as they go.  [None] is
    NaN.  The integer is exact; JavaScript rounds it to a binary64 number
    beyond 2^53. *)
Definition parseInt (s : string) : option Z :=
  let s1 := ltrim s in
  let signed :=
    match s1 with
    | String c rest =>
        if char_is 45 c then (true, rest)
        else if char_is 43 c then (false, rest)
        else (false, s1)
    | EmptyString => (false, s1)
    end in
  let based :=
    match snd signed with
    | String c (String x rest) =>
        if char_is 48 c && (char_is 120 x || char_is 88 x)
        then (16, rest)
        else (10, snd signed)
    | _ => (10, snd signed)
    end in
  match parse_digits (fst based) None (snd based) with
  | Some n => Some (if fst signed then - n else n)
  | None => None
  end.

(** [Math.ceil] *)
Definition Math_ceil (x : float) : float :=
  match Prim2SF x with
  | S754_finite s m e =>
      if e <? 0 then
        let n := if s then Z.neg m else Z.pos m in
        let r := - ((- n) `div` 2 ^ (- e)) in
        if (r =? 0) && s then PrimFloat.neg_zero else Z2float r
      else x
  | _ => x
  end.

(** [orderBy: { submittedAt: 'desc' }]: time stamps are compared as strings,
    which for time stamps of one format and one length is the order of
    time. *)
Definition newer_first (a b : string * Response) : Prop :=
  String.leb (r_submittedAt (snd b)) (r_submittedAt (snd a)) = true.

#[global] Instance newer_first_dec : RelDecision newer_first.
Proof. intros a b. unfold newer_first. apply _. Defined.

(** The responses of an exam, newest first. *)
Definition responses_of (db : DB) (examId : string)
  : list (string * Response) :=
  merge_sort newer_first
    (List.filter (fun kr => String.eqb (r_examId (snd kr)) examId)
       (map_to_list (db_responses db))).

(** [findMany({ skip, take })] on a list in the order asked for: a negative
    [skip] is refused ([None]); a negative [take] counts from the end of the
    list. *)
Definition paginate {A} (skip take : Z) (l : list A) : option (list A) :=
  if skip <? 0 then None
  else if 0 <=? take
       then Some (firstn (Z.to_nat take) (skipn (Z.to_nat skip) l))
       else Some (rev (firstn (Z.to_nat (- take))
                         (skipn (Z.to_nat skip) (rev l)))).

(** The request of GET /responses/exam/:examId after [authenticateToken];
    [page] and [limit] are the strings of the query, if given.  The handler
    does not read the outcome of [examIdValidation]. *)
Record ResponsesRequest := {
  gr_examId : string;
  gr_page : option string;
  gr_limit : option string;
  gr_userId : string
}.

(** [const { page = 1, limit = 10 } = req.query] and [parseInt] *)
Definition query_number (value : option string) (fallback : Z) : option Z :=
  match value with
  | Some s => parseInt s
  | None => Some fallback
  end.

Definition getExamResponses (req : ResponsesRequest) (db : DB)
  : HttpResponse :=
  match find_exam_of_author db (gr_examId req) (gr_userId req) with
  | None => failure 404 "Exam not found"
  | Some exam =>
      match query_number (gr_page req) 1, query_number (gr_limit req) 10 with
      | Some page, Some limit =>
          let all := responses_of db (gr_examId req) in
          let total := Z.of_nat (length all) in
          match paginate ((page - 1) * limit) limit all with
          | None => failure 500 "Internal server error"
          | Some responses =>
              {| status := 200;
                 body :=
                   JObj [("success", JBool true);
                         ("data",
                           JObj [("responses",
                                   JArr (map (fun kr =>
                                                response_json true db
                                                  (fst kr) (snd kr))
                                           responses));
                                 ("pagination",
                                   JObj [("page", JInt page);
                                         ("limit", JInt limit);
                                         ("total", JInt total);
                                         ("pages",
                                           JNum (Math_ceil
                                                   (PrimFloat.div
                                                      (Z2float total)
                                                      (Z2float limit))))])])]
              |}
          end
      | _, _ => failure 500 "Internal server error"
      end
  end.

(** ** Signing in with Google (backend/src/config/passport.js) *)

(** A row of [users]: the columns of the migration and the three that the
    Google sign-in added ([googleId], [avatar], [provider]; the password became
    optional).  The two time stamps of the table are left out. *)
Record User := {
  u_id : string;
  u_email : string;
  u_name : string;
  u_password : option string;
  u_role : string;
  u_isEmailVerified : bool;
  u_emailVerificationToken : option string;
  u_emailVerificationExpires : option string;
  u_googleId : option string;
  u_avatar : option string;
  u_provider : option string
}.

Record UserStore := {
  us_users : list User;
  us_nextId : N
}.

(** The profile that the strategy receives: [emails] and [photos] are arrays
    of objects with a [value], or are absent. *)
Record Profile := {
  pf_id : string;
  pf_displayName : string;
  pf_emails : option (list string);
  pf_photos : option (list string)
}.

(** [prisma.user.findUnique({ where: { googleId } })] *)
Definition find_user_by_googleId (st : UserStore) (googleId : string)
  : option User :=
  List.find
    (fun u => match u_googleId u with
              | Some g => String.eqb g googleId
              | None => false
              end)
    (us_users st).

(** [prisma.user.findUnique({ where: { email } })] *)
Definition find_user_by_email (st : UserStore) (email : string)
  : option User :=
  List.find (fun u => String.eqb (u_email u) email) (us_users st).

(** [prisma.user.findUnique({ where: { id } })] *)
Definition find_user_by_id (st : UserStore) (id : string) : option User :=
  List.find (fun u => String.eqb (u_id u) id) (us_users st).

(** [data: { googleId, avatar, provider: 'google', isEmailVerified: true }]
    on an existing row; an [avatar] that is undefined leaves the column as it
    is. *)
Definition link_google (googleId : string) (avatar : option string)
  (u : User) : User :=
  {| u_id := u_id u;
     u_email := u_email u;
     u_name := u_name u;
     u_password := u_password u;
     u_role := u_role u;
     u_isEmailVerified := true;
     u_emailVerificationToken := u_emailVerificationToken u;
     u_emailVerificationExpires := u_emailVerificationExpires u;
     u_googleId := Some googleId;
     u_avatar := match avatar with Some a => Some a | None => u_avatar u end;
     u_provider := Some "google" |}.

(** The verify callback of the Google strategy: the user handed to [done]
    ([None] when the callback ends in [done(error, null)]) and the new
    store.  [profile.emails[0].value] throws when there is no first e-mail
    address, [profile.photos[0]] when [photos] is absent. *)
Definition googleVerify (profile : Profile) (st : UserStore)
  : option User * UserStore :=
  match find_user_by_googleId st (pf_id profile) with
  | Some user => (Some user, st)
  | None =>
      match pf_emails profile with
      | Some (email :: _) =>
          match find_user_by_email st email with
          | Some existingUser =>
              match pf_photos profile with
              | Some photos =>
                  (Some (link_google (pf_id profile) (head photos)
                           existingUser),
                   {| us_users :=
                        map (fun u =>
                               if String.eqb (u_id u) (u_id existingUser)
                               then link_google (pf_id profile) (head photos) u
                               else u)
                          (us_users st);
                      us_nextId := us_nextId st |})
              | None => (None, st)
              end
          | None =>
              match pf_photos profile with
              | Some photos =>
                  let user :=
                    {| u_id := fresh_id (us_nextId st);
                       u_email := email;
                       u_name := pf_displayName profile;
                       u_password := None;
                       u_role := "STUDENT";
                       u_isEmailVerified := true;
                       u_emailVerificationToken := None;
                       u_emailVerificationExpires := None;
                       u_googleId := Some (pf_id profile);
                       u_avatar := head photos;
                       u_provider := Some "google" |} in
                  (Some user,
                   {| us_users := us_users st ++ [user];
                      us_nextId := us_nextId st + 1 |})
              | None => (None, st)
              end
          end
      | _ => (None, st)
      end
  end.

(** [passport.serializeUser]: the session keeps the key of the user. *)
Definition serializeUser (user : User) : string := u_id user.

(** [passport.deserializeUser]: the user of the session, with
    [select: { id, name, email, role, avatar, provider, isEmailVerified }];
    null when the key is unknown. *)
Definition deserializeUser (id : string) (st : UserStore) : json :=
  match find_user_by_id st id with
  | Some u =>
      JObj [("id", JStr (u_id u));
            ("name", JStr (u_name u));
            ("email", JStr (u_email u));
            ("role", JStr (u_role u));
            ("avatar", JOptStr (u_avatar u));
            ("provider", JOptStr (u_provider u));
            ("isEmailVerified", JBool (u_isEmailVerified u))]
  | None => JNull
  end.

(** ** Vocabulary of the statements *)

(** The sum of the [points] column over a list of questions. *)
Fixpoint sum_points (questions : list Question) : Z :=
  match questions with
  | [] => 0
  | q :: rest => q_points q + sum_points rest
  end.

(** Some submitted answer bears the id of the question. *)
Definition answered (answers : list SubmittedAnswer) (q : Question) : bool :=
  existsb (fun a => String.eqb (questionId a) (q_id q)) answers.

(** A string made of white space only. *)
Fixpoint all_space (s : string) : bool :=
  match s with
  | EmptyString => true
  | String c s' => is_space c && all_space s'
  end.

Definition starts_with_space (s : string) : bool :=
  match s with
  | EmptyString => false
  | String c _ => is_space c
  end.

Fixpoint ends_with_space (s : string) : bool :=
  match s with
  | EmptyString => false
  | String c EmptyString => is_space c
  | String _ s' => ends_with_space s'
  end.

(** Navigation in the body of a reply: [body.data.key]. *)
Definition data_field (key : string) (res : HttpResponse) : option json :=
  get_field "data" (body res) ≫= get_field key.

(** The [answers] array of [body.data.response]. *)
Definition returned_answers (res : HttpResponse) : list json :=
  from_option items_of []
    (data_field "response" res ≫= get_field "answers").

(** The names of the fields of an object, in order. *)
Definition field_names (obj : json) : list string :=
  match obj with JObj fields => map fst fields | _ => [] end.

(** A stand-in for the e-mail checks, used where a statement is evaluated on
    a request that carries no e-mail address. *)
Definition lax_email : EmailValidator :=
  {| isEmail := fun _ => true; normalizeEmail := fun s => Some s |}.

(** The exam of the scenarios: a multiple-choice question worth 10 points
    whose correct answer is B, and an essay question worth 5 points. *)
Definition demo_q1 : Question :=
  {| q_id := "q1"; q_type := "MULTIPLE_CHOICE"; q_question := "Pick one";
     q_options := Some "A,B,C,D"; q_correctAnswer := Some "B";
     q_points := 10; q_order := 1; q_examId := "e1" |}.

Definition demo_q2 : Question :=
  {| q_id := "q2"; q_type := "ESSAY"; q_question := "Explain";
     q_options := None; q_correctAnswer := None;
     q_points := 5; q_order := 2; q_examId := "e1" |}.

Definition demo_exam : Exam :=
  {| e_id := "e1"; e_title := "Demo"; e_description := None;
     e_timeLimit := None; e_shareLink := "s1"; e_isActive := true;
     e_authorId := "u1" |}.

Definition demo_db : DB :=
  {| db_exams := [demo_exam]; db_questions := [demo_q2; demo_q1];
     db_responses := ∅; db_answers := []; db_nextId := 0; db_now := "t0" |}.

Definition demo_request (answers : list SubmittedAnswer) : SubmitRequest :=
  {| sr_shareLink := "s1"; sr_studentName := None; sr_studentEmail := None;
     sr_answers := answers; sr_errors := [] |}.

(** A stored response of the demo exam with totalPoints 15. *)
Definition demo_response : Response :=
  {| r_studentName := None; r_studentEmail := None; r_score := Some 10;
     r_totalPoints := 15; r_submittedAt := "t0"; r_examId := "e1" |}.

Definition demo_db_graded : DB :=
  {| db_exams := [demo_exam]; db_questions := [demo_q2; demo_q1];
     db_responses := {[ "r1" := demo_response ]};
     db_answers := [{| a_id := "a1"; a_answer := "B"; a_questionId := "q1";
                       a_responseId := "r1" |}];
     db_nextId := 0; db_now := "t1" |}.

(** Scenario A: both questions answered, the first one correctly. *)
Definition scenario_A_request : SubmitRequest :=
  demo_request [{| questionId := "q1"; answer := "B" |};
                {| questionId := "q2"; answer := "free text" |}].

(** Scenario C: one answer names a question that the exam does not have. *)
Definition scenario_C_request : SubmitRequest :=
  demo_request [{| questionId := "q1"; answer := "B" |};
                {| questionId := "zz"; answer := "x" |}].

(** The correct answer with a space on either side. *)
Definition padded_request : SubmitRequest :=
  demo_request [{| questionId := "q1"; answer := " B " |}].

(** Scenario D: score 20 on a response whose totalPoints is 15. *)
Definition scenario_D_request : ScoreRequest :=
  {| ur_responseId := "r1"; ur_score := 20; ur_userId := "u1";
     ur_errors := [] |}.

(** The same override asked by a user who is not the author. *)
Definition stranger_request : ScoreRequest :=
  {| ur_responseId := "r1"; ur_score := 12; ur_userId := "u2";
     ur_errors := [] |}.

(** The request with other answers in its body. *)
Definition with_answers (req : SubmitRequest)
  (answers : list SubmittedAnswer) : SubmitRequest :=
  {| sr_shareLink := sr_shareLink req;
     sr_studentName := sr_studentName req;
     sr_studentEmail := sr_studentEmail req;
     sr_answers := answers;
     sr_errors := sr_errors req |}.

(** [b] is the answer [a] with white space added around its text. *)
Definition padded (a b : SubmittedAnswer) : Prop :=
  questionId b = questionId a /\
  exists l r,
    answer b = l +:+ answer a +:+ r /\
    all_space l = true /\ all_space r = true.

(** What one question adds to the score, seen from a zero score. *)
Definition earned (answers : list SubmittedAnswer) (q : Question) : Z :=
  score (grade_step answers grade_init q).

(** The record, if any, that one question emits. *)
Definition emitted (answers : list SubmittedAnswer) (q : Question)
  : list ProcessedAnswer :=
  processedAnswers (grade_step answers grade_init q).

Fixpoint sum_earned (answers : list SubmittedAnswer)
  (questions : list Question) : Z :=
  match questions with
  | [] => 0
  | q :: rest => earned answers q + sum_earned answers rest
  end.

(** How an element of [req.body.questions] and the row made of it relate. *)
Definition row_of (examId : string) (q : QuestionInput) (row : Question)
  : Prop :=
  qi_type q = Some (q_type row) /\
  qi_question q = Some (q_question row) /\
  stored_options (qi_options q) = Some (q_options row) /\
  q_correctAnswer row = or_null (qi_correctAnswer q) /\
  q_points row = stored_points (qi_points q) /\
  q_examId row = examId.

(** What makes createMany throw: an element without its type or its text,
    or with an array for its options. *)
Definition unstorable (q : QuestionInput) : Prop :=
  qi_type q = None \/ qi_question q = None \/
  exists items, qi_options q = Some (OptionsList items).

(** A first exam with two questions, on an empty store. *)
Definition first_exam_request : ExamRequest :=
  {| xr_title := " Quiz "; xr_description := None; xr_timeLimit := Some 30;
     xr_questions :=
       Some [{| qi_type := Some "MULTIPLE_CHOICE"; qi_question := Some "Pick";
                qi_options := Some (OptionsText "A,B");
                qi_correctAnswer := Some "B";
                qi_points := Some 10 |};
             {| qi_type := Some "ESSAY"; qi_question := Some "Explain";
                qi_options := None; qi_correctAnswer := None;
                qi_points := None |}];
     xr_userId := "u1"; xr_errors := [] |}.

Definition empty_db : DB :=
  {| db_exams := []; db_questions := []; db_responses := ∅; db_answers := [];
     db_nextId := 0; db_now := "t0" |}.

(** The percentage as the specification words it,
    [round(score / totalPoints * 100)], over the rationals: the integer
    nearest to 100 * score / totalPoints, a tie going up as Math.round takes
    it, and 0 when totalPoints is 0. *)
Definition percentage_spec (score totalPoints : Z) : Z :=
  if 0 <? totalPoints
  then (200 * score + totalPoints) `div` (2 * totalPoints)
  else 0.

(** An exam of 40 points: a multiple-choice question worth 23 and a
    true/false question worth 17; and a submission that has the first
    question right and the second one wrong. *)
Definition tie_exam_request : ExamRequest :=
  {| xr_title := "Tie"; xr_description := None; xr_timeLimit := None;
     xr_questions :=
       Some [{| qi_type := Some "MULTIPLE_CHOICE"; qi_question := Some "Pick";
                qi_options := None; qi_correctAnswer := Some "B";
                qi_points := Some 23 |};
             {| qi_type := Some "TRUE_FALSE"; qi_question := Some "Is it?";
                qi_options := None; qi_correctAnswer := Some "true";
                qi_points := Some 17 |}];
     xr_userId := "u1"; xr_errors := [] |}.

Definition tie_db : DB := snd (post_exam tie_exam_request empty_db).

Definition tie_submission : SubmitRequest :=
  {| sr_shareLink := "s0"; sr_studentName := None; sr_studentEmail := None;
     sr_answers := [{| questionId := "c1"; answer := "B" |};
                    {| questionId := "c2"; answer := "false" |}];
     sr_errors := [] |}.

(** A validator for the examples that, like validator.js for a Gmail
    address, answers false when an address starts with a plus sign. *)
Definition plus_rule : EmailValidator :=
  {| isEmail := fun _ => true;
     normalizeEmail :=
       fun s => if String.prefix "+" s then None else Some s |}.

(** Scenario A, signed with a name and an address. *)
Definition signed_request : SubmitRequest :=
  {| sr_shareLink := "s1"; sr_studentName := Some " Ann ";
     sr_studentEmail := Some (EmailText "ann@example.org");
     sr_answers := sr_answers scenario_A_request; sr_errors := [] |}.

(** The body that the create-exam page posts for one multiple-choice
    question: the options go as an array. *)
Definition page_exam_request : ExamRequest :=
  {| xr_title := "Quiz"; xr_description := None; xr_timeLimit := Some 60;
     xr_questions :=
       Some [{| qi_type := Some "MULTIPLE_CHOICE"; qi_question := Some "Pick";
                qi_options := Some (OptionsList ["A"; "B"]);
                qi_correctAnswer := Some "B"; qi_points := Some 1 |}];
     xr_userId := "u1"; xr_errors := [] |}.

(** Vocabulary of the further properties *)

Definition close_demo_exam : UpdateExamRequest :=
  {| ux_id := "e1"; ux_title := None; ux_description := None;
     ux_timeLimit := None; ux_isActive := Some false; ux_userId := "u1";
     ux_errors := [] |}.

Definition has_exam (db : DB) (id : string) : Prop :=
  exists e, In e (db_exams db) /\ e_id e = id.

Definition has_question (db : DB) (id : string) : Prop :=
  exists q, In q (db_questions db) /\ q_id q = id.

(** What the foreign keys of the migration ask: every question and every
    response points to an exam of the store, every answer to a question and
    to a response of the store. *)
Definition references_ok (db : DB) : Prop :=
  (forall q, In q (db_questions db) -> has_exam db (q_examId q)) /\
  (forall k r, db_responses db !! k = Some r -> has_exam db (r_examId r)) /\
  (forall a, In a (db_answers db) ->
             has_question db (a_questionId a) /\
             is_Some (db_responses db !! a_responseId a)).

(** The [responses] array of [body.data]. *)
Definition returned_responses (res : HttpResponse) : list json :=
  from_option items_of [] (data_field "responses" res).

(** The demo exam with three stored responses. *)
Definition demo_stored (n : Z) (time : string) : Response :=
  {| r_studentName := None; r_studentEmail := None; r_score := Some n;
     r_totalPoints := 15; r_submittedAt := time; r_examId := "e1" |}.

Definition demo_db_three : DB :=
  {| db_exams := [demo_exam]; db_questions := [demo_q2; demo_q1];
     db_responses :=
       {[ "a" := demo_stored 1 "2024-01-01";
          "b" := demo_stored 2 "2024-01-03";
          "c" := demo_stored 3 "2024-01-02" ]};
     db_answers := []; db_nextId := 0; db_now := "2024-01-04" |}.

Definition second_page_request : ResponsesRequest :=
  {| gr_examId := "e1"; gr_page := Some "2"; gr_limit := Some "2";
     gr_userId := "u1" |}.

(** What a sign-in may change in an account: it may link it to Google, and
    nothing else. *)
Definition same_account (old new : User) : Prop :=
  u_id new = u_id old /\ u_email new = u_email old /\
  u_name new = u_name old /\ u_password new = u_password old /\
  u_role new = u_role old /\
  u_emailVerificationToken new = u_emailVerificationToken old /\
  u_emailVerificationExpires new = u_emailVerificationExpires old.

(** A tutor registered with a password, not yet verified. *)
Definition demo_tutor : User :=
  {| u_id := "u1"; u_email := "ann@example.org"; u_name := "Ann";
     u_password := Some "hash"; u_role := "TUTOR";
     u_isEmailVerified := false; u_emailVerificationToken := Some "tok";
     u_emailVerificationExpires := Some "2024-01-02";
     u_googleId := None; u_avatar := None; u_provider := None |}.

Definition demo_users : UserStore :=
  {| us_users := [demo_tutor]; us_nextId := 7 |}.

Definition demo_profile : Profile :=
  {| pf_id := "g-1"; pf_displayName := "Ann G";
     pf_emails := Some ["ann@example.org"]; pf_photos := Some [] |}.

(** ** The grading loop *)

Section grading.
Context (answers : list SubmittedAnswer).

Lemma grade_loop_app l1 l2 st :
  grade_loop answers (l1 ++ l2) st
  = grade_loop answers l2 (grade_loop answers l1 st).
Proof. apply fold_left_app. Qed.

Lemma grade_loop_cons q l st :
  grade_loop answers (q :: l) st
  = grade_loop answers l (grade_step answers st q).
Proof. reflexivity. Qed.

Lemma grade_split pre question post :
  grade (pre ++ question :: post) answers
  = grade_loop answers post
      (grade_step answers (grade_loop answers pre grade_init) question).
Proof. unfold grade. now rewrite grade_loop_app, grade_loop_cons. Qed.

Lemma grade_step_totalPoints st q :
  totalPoints (grade_step answers st q) = totalPoints st + q_points q.
Proof. unfold grade_step. now destruct (find_answer answers (q_id q)). Qed.

Lemma grade_loop_totalPoints questions : forall st,
  totalPoints (grade_loop answers questions st)
  = totalPoints st + sum_points questions.
Proof.
  induction questions as [|q rest IH]; intros st; cbn [sum_points].
  - cbn. lia.
  - rewrite grade_loop_cons, IH, grade_step_totalPoints. lia.
Qed.

(** What one iteration does to [score]: nothing, or the question's
    points. *)
Lemma grade_step_score st q :
  score (grade_step answers st q) = score st \/
  score (grade_step answers st q) = score st + q_points q.
Proof.
  unfold grade_step.
  destruct (find_answer answers (q_id q)); cbn; [|now left].
  destruct (is_objective q); [|destruct (is_subjective q); now left].
  destruct (truthy _ && strict_eq _ _); cbn; [now right | now left].
Qed.

Lemma grade_step_unanswered st q :
  find_answer answers (q_id q) = None ->
  grade_step answers st q
  = {| score := score st;
       totalPoints := totalPoints st + q_points q;
       processedAnswers := processedAnswers st |}.
Proof. intros Hf. unfold grade_step. now rewrite Hf. Qed.

Lemma find_answer_answered q :
  answered answers q = true <-> is_Some (find_answer answers (q_id q)).
Proof.
  unfold answered, find_answer.
  induction answers as [|a l IH]; cbn.
  - split; [discriminate | intros [x Hx]; discriminate].
  - destruct (String.eqb (questionId a) (q_id q)); cbn; [|exact IH].
    split; eauto.
Qed.

Lemma find_answer_unanswered q :
  answered answers q = false <-> find_answer answers (q_id q) = None.
Proof.
  rewrite <- not_true_iff_false, find_answer_answered.
  rewrite <- eq_None_not_Some. reflexivity.
Qed.

(** When the submission names each question at most once, the answer that
    the loop locates is the one answer bearing the id. *)
Lemma find_answer_unique a id :
  NoDup (map questionId answers) ->
  In a answers -> questionId a = id ->
  find_answer answers id = Some a.
Proof.
  unfold find_answer. intros Hnd Hin <-.
  induction answers as [|b l IH]; [contradiction|].
  cbn in Hnd. apply NoDup_cons in Hnd as [Hfresh Hnd].
  cbn. destruct Hin as [->|Hin]; [now rewrite String.eqb_refl|].
  destruct (String.eqb (questionId b) (questionId a)) eqn:E.
  - apply String.eqb_eq in E. exfalso. apply Hfresh.
    rewrite E. apply list_elem_of_In. now apply in_map.
  - now apply IH.
Qed.

(** The ids of the emitted records are the ids of the answered questions,
    in the order in which the loop meets them. *)
Lemma grade_loop_processed_ids questions : forall st,
  map p_questionId (processedAnswers (grade_loop answers questions st))
  = map p_questionId (processedAnswers st)
    ++ map q_id (List.filter (answered answers) questions).
Proof.
  induction questions as [|q rest IH]; intros st.
  - cbn. now rewrite app_nil_r.
  - rewrite grade_loop_cons, IH. cbn [List.filter].
    destruct (answered answers q) eqn:Ha.
    + apply find_answer_answered in Ha as [a Hfind].
      unfold grade_step at 1. rewrite Hfind. cbn [processedAnswers].
      rewrite map_app. cbn. now rewrite <- app_assoc.
    + apply find_answer_unanswered in Ha.
      now rewrite grade_step_unanswered.
Qed.

Lemma grade_loop_bounds questions : forall st,
  Forall (fun q => 0 <= q_points q) questions ->
  score st <= score (grade_loop answers questions st) /\
  score (grade_loop answers questions st) - score st
  <= sum_points questions.
Proof.
  induction questions as [|q rest IH]; intros st Hq.
  - cbn. lia.
  - inversion Hq as [|? ? Hpos Hrest]; subst.
    rewrite grade_loop_cons. cbn [sum_points].
    specialize (IH (grade_step answers st q) Hrest).
    destruct (grade_step_score st q) as [E|E]; rewrite E in IH; lia.
Qed.

Lemma grade_within_total questions :
  Forall (fun q => 0 <= q_points q) questions ->
  0 <= score (grade questions answers) <= totalPoints (grade questions answers).
Proof.
  intros Hpos. unfold grade.
  pose proof (grade_loop_bounds questions grade_init Hpos) as [Hlo Hhi].
  rewrite grade_loop_totalPoints. cbn in *. lia.
Qed.

Lemma grade_loop_all_unanswered questions : forall st,
  Forall (fun q => find_answer answers (q_id q) = None) questions ->
  score (grade_loop answers questions st) = score st /\
  processedAnswers (grade_loop answers questions st) = processedAnswers st.
Proof.
  induction questions as [|q rest IH]; intros st Hq; [now cbn|].
  inversion Hq as [|? ? Hnone Hrest]; subst.
  rewrite grade_loop_cons.
  destruct (IH (grade_step answers st q) Hrest) as [-> ->].
  now rewrite grade_step_unanswered.
Qed.
End grading.

Lemma sum_points_Permutation l1 l2 :
  l1 ≡ₚ l2 -> sum_points l1 = sum_points l2.
Proof. induction 1; cbn; lia. Qed.

#[global] Instance order_le_total : Total order_le.
Proof. intros a b. unfold order_le. lia. Qed.

Lemma exam_questions_Permutation db exam :
  exam_questions db exam ≡ₚ questions_of db exam.
Proof. apply merge_sort_Permutation. Qed.

Lemma exam_questions_Sorted db exam :
  Sorted order_le (exam_questions db exam).
Proof. apply (Sorted_merge_sort order_le). Qed.

Lemma is_subjective_not_objective q :
  is_subjective q = true -> is_objective q = false.
Proof.
  unfold is_subjective, is_objective. intros H.
  apply orb_true_iff in H as [H|H]; apply String.eqb_eq in H;
    now rewrite H.
Qed.

Lemma truthy_Some_iff c : truthy (Some c) = true <-> c <> "".
Proof.
  cbn. rewrite negb_true_iff. split.
  - intros H ->. discriminate.
  - intros H. now apply String.eqb_neq.
Qed.

(** createExam stores [q.points || 1] only after [examValidation] has let
    the request through: the [points] column holds values from 1 to 100. *)
Lemma stored_points_range points :
  points_valid points = true -> 1 <= stored_points points <= 100.
Proof.
  destruct points as [p|]; cbn; [|lia].
  unfold isInt. intros H. apply andb_true_iff in H as [H1 H2].
  apply Z.leb_le in H1, H2. destruct (p =? 0) eqn:E; lia.
Qed.

(** ** What the validators leave of a string *)

Lemma ltrim_prefix s :
  exists l, s = l +:+ ltrim s /\ all_space l = true.
Proof.
  induction s as [|c s' [l [Hl Hsp]]]; cbn.
  - now exists "".
  - destruct (is_space c) eqn:Hc.
    + exists (String c l). split.
      * change (String c l +:+ ltrim s') with (String c (l +:+ ltrim s')).
        now f_equal.
      * cbn. now rewrite Hc.
    + now exists "".
Qed.

Lemma rtrim_suffix s :
  exists r, s = rtrim s +:+ r /\ all_space r = true.
Proof.
  induction s as [|c s' [r [Hr Hsp]]]; cbn.
  - now exists "".
  - destruct (rtrim s') as [|c' t] eqn:Ht.
    + cbn in Hr. subst s'. destruct (is_space c) eqn:Hc.
      * exists (String c r). cbn. now rewrite Hc.
      * exists r. now cbn.
    + exists r. split; [|exact Hsp].
      change (String c (String c' t) +:+ r)
        with (String c (String c' t +:+ r)).
      now f_equal.
Qed.

(** [trim] removes white space at both ends and nothing else. *)
Lemma trim_decompose s :
  exists l r,
    s = l +:+ trim s +:+ r /\ all_space l = true /\ all_space r = true.
Proof.
  destruct (ltrim_prefix s) as [l [Hl Hlsp]].
  destruct (rtrim_suffix (ltrim s)) as [r [Hr Hrsp]].
  exists l, r. unfold trim. split; [|now split].
  rewrite Hl at 1. now rewrite Hr at 1.
Qed.

Lemma ltrim_start s : starts_with_space (ltrim s) = false.
Proof.
  induction s as [|c s' IH]; cbn; [reflexivity|].
  destruct (is_space c) eqn:Hc; [exact IH | cbn; exact Hc].
Qed.

Lemma rtrim_start s :
  starts_with_space s = false -> starts_with_space (rtrim s) = false.
Proof.
  destruct s as [|c s']; cbn; [reflexivity|]. intros Hc.
  destruct (rtrim s'); [rewrite Hc|]; cbn; exact Hc.
Qed.

Lemma rtrim_end s : ends_with_space (rtrim s) = false.
Proof.
  induction s as [|c s' IH]; cbn; [reflexivity|].
  destruct (rtrim s') as [|c' t].
  - destruct (is_space c) eqn:Hc; cbn; [reflexivity | exact Hc].
  - exact IH.
Qed.

(** What [trim] returns neither starts nor ends with white space. *)
Lemma trim_ends s :
  starts_with_space (trim s) = false /\ ends_with_space (trim s) = false.
Proof.
  unfold trim. split; [apply rtrim_start, ltrim_start | apply rtrim_end].
Qed.

Lemma check_nil ok message : check ok message = [] -> ok = true.
Proof. destruct ok; [reflexivity | discriminate]. Qed.

Lemma flat_map_check_nil {A} (ok : A -> bool) message (l : list A) :
  flat_map (fun a => check (ok a) message) l = [] ->
  Forall (fun a => ok a = true) l.
Proof.
  induction l as [|a l IH]; cbn; intros H; constructor.
  - apply app_eq_nil in H as [H _]. now apply check_nil in H.
  - apply IH. now apply app_eq_nil in H as [_ H].
Qed.

Lemma isLength_min_1 s : isLength 1 None s = true -> s <> "".
Proof. intros H ->. discriminate. Qed.

(** ** The points column *)

Lemma question_row_points examId first index q row :
  question_row examId first index q = Some row ->
  q_points row = stored_points (qi_points q).
Proof.
  unfold question_row.
  destruct (qi_type q); [|discriminate].
  destruct (qi_question q); [|discriminate].
  destruct (stored_options (qi_options q)); [|discriminate].
  cbn. now intros [= <-].
Qed.

Lemma created_rows_in_range (inputs : list QuestionInput) :
  forall (f : nat -> QuestionInput -> option Question) rows,
    (forall i q row,
        f i q = Some row -> q_points row = stored_points (qi_points q)) ->
    mapM (fun row => row) (imap f inputs) = Some rows ->
    Forall (fun q => points_valid (qi_points q) = true) inputs ->
    Forall (fun q => 1 <= q_points q <= 100) rows.
Proof.
  induction inputs as [|q rest IH]; intros f rows Hf Hrows Hvalid.
  - cbn in Hrows. injection Hrows as <-. constructor.
  - inversion Hvalid as [|? ? Hq Hrest]; subst.
    cbn in Hrows.
    destruct (f 0%nat q) as [row|] eqn:Hrow; [|discriminate].
    cbn in Hrows.
    destruct (mapM (fun row => row) (imap (f ∘ S) rest)) as [rows'|] eqn:Hrows';
      [|discriminate].
    cbn in Hrows. injection Hrows as <-.
    constructor.
    + rewrite (Hf _ _ _ Hrow). now apply stored_points_range.
    + apply (IH (f ∘ S) rows'); [|exact Hrows'|exact Hrest].
      intros i q' row'. apply Hf.
Qed.

Lemma examValidation_points req :
  xr_errors (examValidation req) = [] ->
  Forall (fun q => points_valid (qi_points q) = true)
    (default [] (xr_questions (examValidation req))).
Proof.
  cbn [examValidation xr_errors xr_questions]. intros Herr.
  repeat (apply app_eq_nil in Herr as [_ Herr]).
  now apply flat_map_check_nil in Herr.
Qed.

(** The only handler that inserts question rows keeps the column in
    range. *)
Lemma post_exam_points_in_range req db :
  points_in_range db -> points_in_range (snd (post_exam req db)).
Proof.
  unfold post_exam, createExam, points_in_range. intros Hdb.
  destruct (xr_errors (examValidation req)) eqn:Herr; [|exact Hdb].
  destruct (mapM _ _) as [rows|] eqn:Hrows; [|exact Hdb].
  cbn [snd db_questions]. apply Forall_app. split; [exact Hdb|].
  eapply created_rows_in_range; [|exact Hrows|].
  - intros i q row. apply question_row_points.
  - now apply examValidation_points.
Qed.

Lemma submitResponse_questions req db :
  db_questions (snd (submitResponse req db)) = db_questions db.
Proof.
  unfold submitResponse.
  destruct (sr_errors req); [|reflexivity].
  destruct (find_exam_by_shareLink db (sr_shareLink req)); [|reflexivity].
  now destruct (email_column (sr_studentEmail req)).
Qed.

Lemma updateResponseScore_questions req db :
  db_questions (snd (updateResponseScore req db)) = db_questions db.
Proof.
  unfold updateResponseScore.
  destruct (db_responses db !! ur_responseId req) as [response|];
    [|reflexivity].
  destruct (find_exam_by_id db (r_examId response)) as [exam|];
    [|reflexivity].
  now destruct (negb _).
Qed.

Lemma exam_questions_in_range db exam :
  points_in_range db ->
  Forall (fun q => 0 <= q_points q) (exam_questions db exam).
Proof.
  unfold points_in_range. intros Hdb.
  rewrite exam_questions_Permutation. unfold questions_of.
  apply Forall_forall. intros q Hq. apply list_elem_of_In in Hq.
  apply filter_In in Hq as [Hq _]. apply list_elem_of_In in Hq.
  rewrite Forall_forall in Hdb. specialize (Hdb q Hq). lia.
Qed.

(** On a store whose points column is in range, every submission is graded
    within the total, and the handlers keep the column in range. *)
Lemma stored_exam_graded_within_total db exam answers :
  points_in_range db ->
  0 <= score (grade (exam_questions db exam) answers)
    <= totalPoints (grade (exam_questions db exam) answers).
Proof.
  intros Hdb. now apply grade_within_total, exam_questions_in_range.
Qed.

Lemma handlers_keep_points_in_range `{EmailValidator} db :
  points_in_range db ->
  (forall req, points_in_range (snd (post_exam req db))) /\
  (forall req, points_in_range (snd (post_submit req db))) /\
  (forall req, points_in_range (snd (put_score req db))).
Proof.
  intros Hdb. split; [|split]; intros req.
  - now apply post_exam_points_in_range.
  - unfold points_in_range, post_submit.
    now rewrite submitResponse_questions.
  - unfold points_in_range, put_score.
    now rewrite updateResponseScore_questions.
Qed.

(** ** Objective and subjective questions *)

(** C1: an objective question (MULTIPLE_CHOICE or TRUE_FALSE) for which the
    loop finds a submitted answer (the first one bearing its id) is graded by
    exact, case-sensitive string equality with the stored correct answer,
    provided one is configured (neither null nor empty): on equality the
    emitted record has isCorrect = true and the question's points are added to
    score; on any difference, or when no correct answer is configured, the
    record has isCorrect = false and score is left as it was.  The question
    may stand anywhere in the exam: [before] and [after] are the loop's
    variables around its iteration. *)
Theorem objective_question_exact_match
  (answers : list SubmittedAnswer) (pre post : list Question)
  (question : Question) (studentAnswer : SubmittedAnswer) :
  is_objective question = true ->
  find_answer answers (q_id question) = Some studentAnswer ->
  let before := grade_loop answers pre grade_init in
  let after := grade_step answers before question in
  let record flag :=
    {| p_questionId := q_id question;
       p_answer := answer studentAnswer;
       isCorrect := flag |} in
  grade (pre ++ question :: post) answers = grade_loop answers post after /\
  (forall correct,
      q_correctAnswer question = Some correct -> correct <> "" ->
      (answer studentAnswer = correct ->
       score after = score before + q_points question /\
       processedAnswers after = processedAnswers before ++ [record true]) /\
      (answer studentAnswer <> correct ->
       score after = score before /\
       processedAnswers after = processedAnswers before ++ [record false])) /\
  (q_correctAnswer question = None \/ q_correctAnswer question = Some "" ->
   score after = score before /\
   processedAnswers after = processedAnswers before ++ [record false]).
Proof.
  intros Hobj Hfind before after record.
  split; [apply grade_split|].
  subst after. unfold grade_step. rewrite Hfind, Hobj.
  split.
  - intros correct Hc Hne. rewrite Hc.
    apply truthy_Some_iff in Hne. rewrite Hne. cbn [andb strict_eq].
    split; intros Heq.
    + apply String.eqb_eq in Heq. rewrite Heq. now cbn.
    + apply String.eqb_neq in Heq. rewrite Heq. now cbn.
  - intros [Hc|Hc]; rewrite Hc; now cbn.
Qed.

Lemma objective_question_exact_match_witness :
  is_objective demo_q1 = true /\
  find_answer [{| questionId := "q1"; answer := "B" |}] (q_id demo_q1)
  = Some {| questionId := "q1"; answer := "B" |} /\
  score (grade_step [{| questionId := "q1"; answer := "B" |}]
           (grade_loop [{| questionId := "q1"; answer := "B" |}] []
              grade_init) demo_q1)
  = 0 + 10.
Proof.
  split; [reflexivity|]. split; [reflexivity|].
  pose proof (objective_question_exact_match
                [{| questionId := "q1"; answer := "B" |}] [] [demo_q2]
                demo_q1 {| questionId := "q1"; answer := "B" |}
                eq_refl eq_refl) as [_ [H _]].
  destruct (H "B" eq_refl) as [Hyes _]; [discriminate|].
  destruct (Hyes eq_refl) as [Hscore _]. exact Hscore.
Defined.

(** A difference of case is a difference: "b" does not earn the points of a
    question whose correct answer is "B". *)
Example case_difference_is_a_mismatch :
  grade [demo_q1] [{| questionId := "q1"; answer := "b" |}]
  = {| score := 0; totalPoints := 10;
       processedAnswers :=
         [{| p_questionId := "q1"; p_answer := "b"; isCorrect := false |}] |}.
Proof. reflexivity. Qed.

(** C4: a subjective question (SHORT_ANSWER or ESSAY) for which the loop
    finds a submitted answer emits that answer with isCorrect = false and
    leaves score as it was, whatever the submitted text and whatever the
    correct-answer column holds. *)
Theorem subjective_question_not_scored
  (answers : list SubmittedAnswer) (pre post : list Question)
  (question : Question) (studentAnswer : SubmittedAnswer) :
  is_subjective question = true ->
  find_answer answers (q_id question) = Some studentAnswer ->
  let before := grade_loop answers pre grade_init in
  let after := grade_step answers before question in
  grade (pre ++ question :: post) answers = grade_loop answers post after /\
  score after = score before /\
  processedAnswers after
  = processedAnswers before ++
    [{| p_questionId := q_id question;
        p_answer := answer studentAnswer;
        isCorrect := false |}].
Proof.
  intros Hsub Hfind before after.
  split; [apply grade_split|].
  subst after. unfold grade_step.
  rewrite Hfind, (is_subjective_not_objective _ Hsub), Hsub. now cbn.
Qed.

Lemma subjective_question_not_scored_witness :
  is_subjective demo_q2 = true /\
  find_answer [{| questionId := "q2"; answer := "free text" |}] (q_id demo_q2)
  = Some {| questionId := "q2"; answer := "free text" |} /\
  score (grade_step [{| questionId := "q2"; answer := "free text" |}]
           (grade_loop [{| questionId := "q2"; answer := "free text" |}]
              [demo_q1] grade_init) demo_q2)
  = score (grade_loop [{| questionId := "q2"; answer := "free text" |}]
             [demo_q1] grade_init).
Proof.
  split; [reflexivity|]. split; [reflexivity|].
  exact (proj1 (proj2 (subjective_question_not_scored
                         [{| questionId := "q2"; answer := "free text" |}]
                         [demo_q1] [] demo_q2
                         {| questionId := "q2"; answer := "free text" |}
                         eq_refl eq_refl))).
Defined.

(** ** Totals *)

(** C2: totalPoints as computed by grading is the sum of the points column
    over all the questions of the exam, whatever was submitted; when no
    submitted answer bears the id of a question of the exam, score is 0, no
    record is emitted and totalPoints is still the full total. *)
Theorem totalPoints_counts_every_question
  (db : DB) (exam : Exam) (answers : list SubmittedAnswer) :
  let questions := exam_questions db exam in
  let g := grade questions answers in
  totalPoints g = sum_points (questions_of db exam) /\
  (Forall (fun q => answered answers q = false) questions ->
   score g = 0 /\ processedAnswers g = [] /\
   totalPoints g = sum_points (questions_of db exam)).
Proof.
  intros questions g.
  assert (Htotal : totalPoints g = sum_points (questions_of db exam)).
  { subst g. unfold grade. rewrite grade_loop_totalPoints. cbn.
    apply sum_points_Permutation, exam_questions_Permutation. }
  split; [exact Htotal|].
  intros Hnone.
  destruct (grade_loop_all_unanswered answers questions grade_init) as [Hs Hp].
  { eapply Forall_impl; [exact Hnone|].
    intros q Hq. now apply find_answer_unanswered. }
  auto.
Qed.

Lemma totalPoints_counts_every_question_witness :
  Forall (fun q => answered [{| questionId := "zz"; answer := "x" |}] q = false)
    (exam_questions demo_db demo_exam) /\
  score (grade (exam_questions demo_db demo_exam)
           [{| questionId := "zz"; answer := "x" |}]) = 0 /\
  totalPoints (grade (exam_questions demo_db demo_exam)
                 [{| questionId := "zz"; answer := "x" |}]) = 15.
Proof.
  assert (H : Forall
                (fun q => answered [{| questionId := "zz"; answer := "x" |}] q
                          = false)
                (exam_questions demo_db demo_exam)).
  { vm_compute. repeat constructor. }
  split; [exact H|].
  destruct (totalPoints_counts_every_question demo_db demo_exam
              [{| questionId := "zz"; answer := "x" |}]) as [_ Hzero].
  destruct (Hzero H) as (Hs & _ & Ht).
  split; [exact Hs|]. rewrite Ht. reflexivity.
Defined.

(** C10: the score computed by grading lies between 0 and totalPoints.  The
    score starts at zero, and an iteration adds the question's points to
    totalPoints and either nothing or the same points to score; so the bound
    holds as soon as no question carries a negative number of points, which
    is the case of every stored exam: createExam, the only handler that
    inserts question rows, keeps the points column between 1 and 100. *)
Theorem auto_score_within_totalPoints
  (questions : list Question) (answers : list SubmittedAnswer) :
  Forall (fun q => 0 <= q_points q) questions ->
  let g := grade questions answers in
  score grade_init = 0 /\
  (forall st q,
      totalPoints (grade_step answers st q) = totalPoints st + q_points q /\
      (score (grade_step answers st q) = score st \/
       score (grade_step answers st q) = score st + q_points q)) /\
  0 <= score g <= totalPoints g.
Proof.
  intros Hpos g. split; [reflexivity|]. split.
  - intros st q. split; [apply grade_step_totalPoints|apply grade_step_score].
  - now apply grade_within_total.
Qed.

Lemma auto_score_within_totalPoints_witness :
  Forall (fun q => 0 <= q_points q) [demo_q1; demo_q2] /\
  0 <= score (grade [demo_q1; demo_q2]
                [{| questionId := "q1"; answer := "B" |}])
    <= totalPoints (grade [demo_q1; demo_q2]
                      [{| questionId := "q1"; answer := "B" |}]).
Proof.
  assert (H : Forall (fun q => 0 <= q_points q) [demo_q1; demo_q2]).
  { repeat constructor; cbn; lia. }
  split; [exact H|].
  exact (proj2 (proj2 (auto_score_within_totalPoints [demo_q1; demo_q2]
                         [{| questionId := "q1"; answer := "B" |}] H))).
Defined.

(** ** The submission handler *)

Lemma imap_map {A B C} (h : B -> C) (g : A -> C) (l : list A) :
  forall f : nat -> A -> B,
    (forall i x, h (f i x) = g x) -> map h (imap f l) = map g l.
Proof.
  induction l as [|x l IH]; intros f Hf; cbn; [reflexivity|].
  rewrite Hf. f_equal. apply IH. intros i y. apply Hf.
Qed.

Lemma createMany_questionId first data :
  map a_questionId (createMany first data) = map ad_questionId data.
Proof. apply imap_map. reflexivity. Qed.

Lemma createMany_answer first data :
  map a_answer (createMany first data) = map ad_answer data.
Proof. apply imap_map. reflexivity. Qed.

Lemma createMany_responseId first data :
  map a_responseId (createMany first data) = map ad_responseId data.
Proof. apply imap_map. reflexivity. Qed.

Section submission.
Context (req : SubmitRequest) (db : DB).

(** A 201 reply means that validation left no error and that the share
    link names an active exam. *)
Lemma submitResponse_created_inv :
  status (fst (submitResponse req db)) = 201 ->
  sr_errors req = [] /\
  (exists exam, find_exam_by_shareLink db (sr_shareLink req) = Some exam) /\
  exists studentEmail,
    email_column (sr_studentEmail req) = Some studentEmail.
Proof.
  unfold submitResponse.
  destruct (sr_errors req); [|discriminate].
  destruct (find_exam_by_shareLink db (sr_shareLink req)) as [exam|];
    [|discriminate].
  destruct (email_column (sr_studentEmail req)) as [studentEmail|];
    [|discriminate].
  eauto.
Qed.

Context (exam : Exam) (studentEmail : option string).
Hypothesis Hvalid : sr_errors req = [].
Hypothesis Hexam :
  find_exam_by_shareLink db (sr_shareLink req) = Some exam.
Hypothesis Hemail : email_column (sr_studentEmail req) = Some studentEmail.

Lemma submitResponse_status : status (fst (submitResponse req db)) = 201.
Proof. unfold submitResponse. now rewrite Hvalid, Hexam, Hemail. Qed.

Lemma submitResponse_data :
  data_field "score" (fst (submitResponse req db))
  = Some (JInt (score (grade (exam_questions db exam) (sr_answers req)))) /\
  data_field "totalPoints" (fst (submitResponse req db))
  = Some (JInt (totalPoints
                  (grade (exam_questions db exam) (sr_answers req)))) /\
  data_field "percentage" (fst (submitResponse req db))
  = Some (JNum (percentage
                  (score (grade (exam_questions db exam) (sr_answers req)))
                  (totalPoints
                     (grade (exam_questions db exam) (sr_answers req))))).
Proof. unfold submitResponse. rewrite Hvalid, Hexam, Hemail. now cbn. Qed.

Lemma submitResponse_rows :
  db_answers (snd (submitResponse req db))
  = db_answers db ++
    createMany (db_nextId db + 1)
      (answersData (fresh_id (db_nextId db))
         (processedAnswers
            (grade (exam_questions db exam) (sr_answers req)))).
Proof.
  unfold submitResponse. rewrite Hvalid, Hexam, Hemail. cbn [snd db_answers].
  destruct (processedAnswers _); reflexivity.
Qed.

Lemma submitResponse_stored :
  db_responses (snd (submitResponse req db)) !! fresh_id (db_nextId db)
  = Some {| r_studentName := sr_studentName req;
            r_studentEmail := studentEmail;
            r_score :=
              Some (score (grade (exam_questions db exam) (sr_answers req)));
            r_totalPoints :=
              totalPoints (grade (exam_questions db exam) (sr_answers req));
            r_submittedAt := db_now db;
            r_examId := e_id exam |}.
Proof.
  unfold submitResponse. rewrite Hvalid, Hexam, Hemail.
  cbn [snd db_responses]. apply lookup_insert_eq.
Qed.

Lemma submitResponse_returned_answers :
  returned_answers (fst (submitResponse req db))
  = map (answer_json true (snd (submitResponse req db)))
      (answers_of (snd (submitResponse req db)) (fresh_id (db_nextId db))).
Proof.
  unfold submitResponse. rewrite Hvalid, Hexam, Hemail.
  cbn [fst snd db_responses]. rewrite lookup_insert_eq. reflexivity.
Qed.
End submission.

Lemma answer_json_fields withCorrect db a :
  field_names (answer_json withCorrect db a)
  = ["id"; "answer"; "questionId"; "responseId"; "question"] /\
  get_field "isCorrect" (answer_json withCorrect db a) = None.
Proof. split; reflexivity. Qed.

(** ** Answers that match no question *)

Lemma find_answer_drop l1 x l2 id :
  questionId x <> id ->
  find_answer (l1 ++ x :: l2) id = find_answer (l1 ++ l2) id.
Proof.
  intros Hne. unfold find_answer.
  induction l1 as [|a l1 IH]; cbn.
  - apply String.eqb_neq in Hne. now rewrite Hne.
  - now rewrite IH.
Qed.

Lemma grade_step_ext answers1 answers2 st q :
  find_answer answers1 (q_id q) = find_answer answers2 (q_id q) ->
  grade_step answers1 st q = grade_step answers2 st q.
Proof. intros H. unfold grade_step. now rewrite H. Qed.

Lemma grade_loop_ext answers1 answers2 questions : forall st,
  Forall (fun q => find_answer answers1 (q_id q) = find_answer answers2 (q_id q))
    questions ->
  grade_loop answers1 questions st = grade_loop answers2 questions st.
Proof.
  induction questions as [|q rest IH]; intros st Hq; [reflexivity|].
  inversion Hq as [|? ? Hhead Hrest]; subst.
  rewrite !grade_loop_cons, (grade_step_ext _ _ _ _ Hhead). now apply IH.
Qed.

(** C3: for a request that passed validation and names an active exam, the
    questions are taken in ascending order of their order column; the
    emitted records are, in that order, one per question whose id is the
    questionId of some submitted answer; a question without such an answer
    adds no record and no points; the rows written to the answers table by
    an accepted submission are these records and nothing else, and a
    submission that is not accepted leaves the store as it was; and a
    submitted answer whose questionId is the id of no question of the exam
    can be removed from the submission without changing anything that
    grading computes. *)
Theorem records_follow_answered_questions
  (req : SubmitRequest) (db : DB) (exam : Exam) :
  sr_errors req = [] ->
  find_exam_by_shareLink db (sr_shareLink req) = Some exam ->
  let questions := exam_questions db exam in
  let g := grade questions (sr_answers req) in
  let db' := snd (submitResponse req db) in
  Sorted order_le questions /\
  questions ≡ₚ questions_of db exam /\
  map p_questionId (processedAnswers g)
  = map q_id (List.filter (answered (sr_answers req)) questions) /\
  (forall st q,
      answered (sr_answers req) q = false ->
      score (grade_step (sr_answers req) st q) = score st /\
      processedAnswers (grade_step (sr_answers req) st q)
      = processedAnswers st) /\
  (status (fst (submitResponse req db)) = 201 ->
   exists rows,
     db_answers db' = db_answers db ++ rows /\
     map a_questionId rows = map p_questionId (processedAnswers g) /\
     map a_answer rows = map p_answer (processedAnswers g)) /\
  (status (fst (submitResponse req db)) <> 201 -> db' = db) /\
  (forall l1 x l2,
      sr_answers req = l1 ++ x :: l2 ->
      Forall (fun q => q_id q <> questionId x) questions ->
      grade questions (l1 ++ l2) = g).
Proof.
  intros Hvalid Hexam questions g db'.
  split; [apply exam_questions_Sorted|].
  split; [apply exam_questions_Permutation|].
  split; [apply (grade_loop_processed_ids _ questions grade_init)|].
  split.
  { intros st q Hq. apply find_answer_unanswered in Hq.
    now rewrite grade_step_unanswered. }
  split.
  { intros Hcreated.
    destruct (submitResponse_created_inv req db Hcreated)
      as (_ & _ & [mail Hmail]).
    eexists.
    split; [apply (submitResponse_rows req db exam mail Hvalid Hexam Hmail)|].
    rewrite createMany_questionId, createMany_answer.
    unfold answersData. rewrite !map_map. now cbn. }
  split.
  { subst db'. unfold submitResponse. rewrite Hvalid, Hexam.
    destruct (email_column (sr_studentEmail req)); [|reflexivity].
    intros Hne. now destruct Hne. }
  intros l1 x l2 Hsplit Hforeign. subst g. unfold grade.
  apply grade_loop_ext. rewrite Hsplit.
  eapply Forall_impl; [exact Hforeign|].
  intros q Hq. cbn in Hq. symmetry. apply find_answer_drop. congruence.
Qed.

Lemma records_follow_answered_questions_witness :
  sr_errors scenario_C_request = [] /\
  find_exam_by_shareLink demo_db (sr_shareLink scenario_C_request)
  = Some demo_exam /\
  map p_questionId
    (processedAnswers
       (grade (exam_questions demo_db demo_exam)
          (sr_answers scenario_C_request)))
  = map q_id
      (List.filter (answered (sr_answers scenario_C_request))
         (exam_questions demo_db demo_exam)).
Proof.
  split; [reflexivity|]. split; [reflexivity|].
  exact (proj1 (proj2 (proj2 (records_follow_answered_questions
                                scenario_C_request demo_db demo_exam
                                eq_refl eq_refl)))).
Defined.

(** Scenario C: the answer to the unknown question zz leaves no trace. *)
Example scenario_C :
  grade (exam_questions demo_db demo_exam) (sr_answers scenario_C_request)
  = {| score := 10; totalPoints := 15;
       processedAnswers :=
         [{| p_questionId := "q1"; p_answer := "B"; isCorrect := true |}] |}
  /\ db_answers (snd (submitResponse scenario_C_request demo_db))
     = [{| a_id := "c1"; a_answer := "B"; a_questionId := "q1";
           a_responseId := "c0" |}].
Proof. split; vm_compute; reflexivity. Qed.

(** ** The percentage *)

(** C5 fails on the code at a tie.  On the exam of 40 points, created
    through the endpoint and answered with the first question right, the
    reply reports score 23, totalPoints 40 and percentage 57, where
    round(23 / 40 * 100) is 58: the quotient 23 / 40 is not a binary64
    number, and its product with 100 falls just below 57.5.  The same
    operations with the product taken first give 58.  When totalPoints is 0
    the percentage is 0, as the claim has it. *)
Theorem percentage_rounds_a_tie_down :
  let reply := fst (@post_submit lax_email tie_submission tie_db) in
  fst (post_exam tie_exam_request empty_db) = 201 /\
  status reply = 201 /\
  data_field "score" reply = Some (JInt 23) /\
  data_field "totalPoints" reply = Some (JInt 40) /\
  data_field "percentage" reply = Some (JInt 57) /\
  percentage_spec 23 40 = 58 /\
  JInt 57 <> JInt (percentage_spec 23 40) /\
  Math_round (PrimFloat.div (PrimFloat.mul (Z2float 23) (Z2float 100))
                (Z2float 40))
  = Z2float (percentage_spec 23 40) /\
  forall score, percentage score 0 = Z2float (percentage_spec score 0).
Proof.
  cbv zeta.
  split; [reflexivity|]. split; [reflexivity|].
  split; [vm_compute; reflexivity|]. split; [vm_compute; reflexivity|].
  split; [vm_compute; reflexivity|]. split; [reflexivity|].
  split.
  { intros Heq.
    apply (f_equal (fun j => match j with
                             | JNum x => Prim2SF x
                             | _ => S754_nan
                             end)) in Heq.
    vm_compute in Heq. discriminate. }
  split; [vm_compute; reflexivity|].
  intros score. reflexivity.
Qed.

(** Scenario A: score 10 of 15 is reported as 67 percent.
    Scenario B: score 0 of 15 is reported as 0 percent. *)
Example scenario_A_B_percentage :
  data_field "percentage" (fst (submitResponse scenario_A_request demo_db))
  = Some (JInt 67) /\
  data_field "percentage"
    (fst (submitResponse
            (demo_request [{| questionId := "q1"; answer := "C" |}]) demo_db))
  = Some (JInt 0) /\
  percentage 5 0 = Z2float 0.
Proof. repeat split; vm_compute; reflexivity. Qed.

(** The operations are those of binary64: 57 of 200 is 28.5 percent in exact
    arithmetic, 28.499999999999996 as a JavaScript number, and is reported
    as 28. *)
Example percentage_is_computed_in_binary64 :
  percentage 57 200 = Z2float 28.
Proof. vm_compute. reflexivity. Qed.

(** ** From the request to the comparison *)

Section validation.
Context `{EmailValidator}.

Lemma validated_answers req :
  sr_answers (submitResponseValidation (shareLinkValidation req))
  = map sanitize_answer (sr_answers req).
Proof. reflexivity. Qed.

Lemma validated_shareLink req :
  sr_shareLink (submitResponseValidation (shareLinkValidation req))
  = sr_shareLink req.
Proof. reflexivity. Qed.

(** The address that is stored is the normalised one. *)
Lemma validated_email req studentEmail :
  email_column
    (sr_studentEmail (submitResponseValidation (shareLinkValidation req)))
  = Some studentEmail ->
  studentEmail
  = sr_studentEmail req ≫= (fun e => normalizeEmail (toString e)).
Proof.
  cbn [submitResponseValidation shareLinkValidation sr_studentEmail].
  destruct (sr_studentEmail req) as [e|]; cbn; [|congruence].
  unfold sanitize_email.
  destruct (normalizeEmail (toString e)); cbn; congruence.
Qed.

(** A request that leaves the chain without an error has a non-empty text,
    once trimmed, in each of its answers. *)
Lemma validated_answers_nonempty req :
  sr_errors (submitResponseValidation (shareLinkValidation req)) = [] ->
  Forall (fun a => trim (answer a) <> "") (sr_answers req).
Proof.
  cbn [submitResponseValidation sr_errors]. intros Herr.
  repeat (apply app_eq_nil in Herr as [_ Herr]).
  apply flat_map_check_nil in Herr.
  cbn [shareLinkValidation sr_answers] in Herr.
  rewrite Forall_map in Herr.
  eapply Forall_impl; [exact Herr|].
  intros a Ha. now apply isLength_min_1 in Ha.
Qed.
End validation.

(** C6 (as amended): for a submission that the endpoint accepts, the text
    that grading compares with a question's stored correct answer is the
    client's text with the white space at its two ends removed by the
    validation chain's trim(), and is not empty; nothing else is changed (no
    case folding, no change inside the text), and the questionId is passed on
    as it came. *)
Theorem compared_text_is_trimmed `{EmailValidator}
  (req : SubmitRequest) (db : DB) :
  status (fst (post_submit req db)) = 201 ->
  exists exam,
    find_exam_by_shareLink db (sr_shareLink req) = Some exam /\
    let g :=
      grade (exam_questions db exam) (map sanitize_answer (sr_answers req)) in
    data_field "score" (fst (post_submit req db)) = Some (JInt (score g)) /\
    db_responses (snd (post_submit req db)) !! fresh_id (db_nextId db)
    = Some {| r_studentName := trim <$> sr_studentName req;
              r_studentEmail :=
                sr_studentEmail req
                ≫= (fun e => normalizeEmail (toString e));
              r_score := Some (score g);
              r_totalPoints := totalPoints g;
              r_submittedAt := db_now db;
              r_examId := e_id exam |} /\
    Forall
      (fun a =>
         questionId (sanitize_answer a) = questionId a /\
         answer (sanitize_answer a) = trim (answer a) /\
         trim (answer a) <> "" /\
         starts_with_space (trim (answer a)) = false /\
         ends_with_space (trim (answer a)) = false /\
         exists l r,
           answer a = l +:+ trim (answer a) +:+ r /\
           all_space l = true /\ all_space r = true)
      (sr_answers req).
Proof.
  unfold post_submit. intros Hcreated.
  destruct (submitResponse_created_inv _ db Hcreated)
    as (Hvalid & [exam Hexam] & [mail Hmail]).
  exists exam. rewrite validated_shareLink in Hexam.
  split; [exact Hexam|]. cbv zeta.
  rewrite <- validated_shareLink in Hexam.
  destruct (submitResponse_data _ db exam mail Hvalid Hexam Hmail)
    as (Hs & _ & _).
  rewrite validated_answers in Hs. split; [exact Hs|].
  split.
  { rewrite (submitResponse_stored _ db exam mail Hvalid Hexam Hmail).
    now rewrite validated_answers, (validated_email req mail Hmail). }
  pose proof (validated_answers_nonempty req Hvalid) as Hne.
  eapply Forall_impl; [exact Hne|].
  intros a Ha. destruct (trim_ends (answer a)) as [Hstart Hend].
  repeat split; [exact Ha | exact Hstart | exact Hend | apply trim_decompose].
Qed.

Lemma compared_text_is_trimmed_witness :
  status (fst (@post_submit lax_email padded_request demo_db)) = 201 /\
  exists exam,
    find_exam_by_shareLink demo_db "s1" = Some exam /\
    data_field "score" (fst (@post_submit lax_email padded_request demo_db))
    = Some (JInt (score (grade (exam_questions demo_db exam)
                           (map sanitize_answer
                              (sr_answers padded_request))))).
Proof.
  split; [reflexivity|].
  destruct (@compared_text_is_trimmed lax_email padded_request demo_db eq_refl)
    as [exam [Hexam [Hs _]]].
  exists exam. split; [exact Hexam | exact Hs].
Defined.

(** C6 (as stated) fails: the client sends " B " for a question whose correct
    answer is "B".  The endpoint accepts the submission, compares "B", and
    awards the 10 points; the text as submitted would have earned none. *)
Lemma padded_answer_is_compared_trimmed :
  status (fst (@post_submit lax_email padded_request demo_db)) = 201 /\
  sr_answers
    (@submitResponseValidation lax_email (shareLinkValidation padded_request))
  <> sr_answers padded_request /\
  data_field "score" (fst (@post_submit lax_email padded_request demo_db))
  = Some (JInt 10) /\
  map (get_field "answer")
    (returned_answers (fst (@post_submit lax_email padded_request demo_db)))
  = [Some (JStr "B")] /\
  score (grade (exam_questions demo_db demo_exam) (sr_answers padded_request))
  = 0.
Proof.
  split; [reflexivity|]. split; [discriminate|].
  split; [reflexivity|]. split; reflexivity.
Qed.

(** ** The correctness flag *)

(** C7 (as amended): for a successful submission, the correctness flags
    computed at submission time only decide the stored score.  The rows
    written to the answers table hold the questionId and the text of the
    emitted records under the key of the new response, and each element of
    the answers array of the returned response object has exactly the fields
    id, answer, questionId, responseId and question: no isCorrect field is
    stored or returned. *)
Theorem correctness_flag_is_not_returned (req : SubmitRequest) (db : DB) :
  status (fst (submitResponse req db)) = 201 ->
  exists exam,
    find_exam_by_shareLink db (sr_shareLink req) = Some exam /\
    let g := grade (exam_questions db exam) (sr_answers req) in
    let res := fst (submitResponse req db) in
    let db' := snd (submitResponse req db) in
    (exists response,
        db_responses db' !! fresh_id (db_nextId db) = Some response /\
        r_score response = Some (score g)) /\
    (exists rows,
        db_answers db' = db_answers db ++ rows /\
        map a_questionId rows = map p_questionId (processedAnswers g) /\
        map a_answer rows = map p_answer (processedAnswers g) /\
        Forall (fun a => a_responseId a = fresh_id (db_nextId db)) rows) /\
    Forall
      (fun element =>
         field_names element
         = ["id"; "answer"; "questionId"; "responseId"; "question"] /\
         get_field "isCorrect" element = None)
      (returned_answers res).
Proof.
  intros Hcreated.
  destruct (submitResponse_created_inv req db Hcreated)
    as (Hvalid & [exam Hexam] & [mail Hmail]).
  exists exam. split; [exact Hexam|]. cbv zeta.
  split.
  { eexists.
    split; [apply (submitResponse_stored req db exam mail Hvalid Hexam Hmail)|].
    reflexivity. }
  split.
  { eexists.
    split; [apply (submitResponse_rows req db exam mail Hvalid Hexam Hmail)|].
    rewrite createMany_questionId, createMany_answer.
    unfold answersData. rewrite !map_map. cbn.
    split; [reflexivity|]. split; [reflexivity|].
    apply Forall_forall. intros a Ha. apply list_elem_of_In in Ha.
    apply (in_map a_responseId) in Ha.
    rewrite createMany_responseId, map_map in Ha. cbn in Ha.
    apply in_map_iff in Ha as [p [Hp _]]. now symmetry. }
  rewrite (submitResponse_returned_answers req db exam mail Hvalid Hexam Hmail).
  apply Forall_forall. intros element Hin. apply list_elem_of_In in Hin.
  apply in_map_iff in Hin as [a [<- _]]. apply answer_json_fields.
Qed.

Lemma correctness_flag_is_not_returned_witness :
  status (fst (submitResponse scenario_A_request demo_db)) = 201 /\
  Forall (fun element => get_field "isCorrect" element = None)
    (returned_answers (fst (submitResponse scenario_A_request demo_db))).
Proof.
  split; [reflexivity|].
  destruct (correctness_flag_is_not_returned scenario_A_request demo_db eq_refl)
    as [exam [_ [_ [_ Hfields]]]].
  eapply Forall_impl; [exact Hfields|].
  intros element [_ Hnone]. exact Hnone.
Defined.

(** C7 (as stated) fails: in scenario A the loop computes the flags true and
    false, the reply is a success, and neither element of its answers array
    has an isCorrect field. *)
Lemma returned_answers_carry_no_flag :
  status (fst (submitResponse scenario_A_request demo_db)) = 201 /\
  map isCorrect
    (processedAnswers
       (grade (exam_questions demo_db demo_exam)
          (sr_answers scenario_A_request)))
  = [true; false] /\
  map (get_field "isCorrect")
    (returned_answers (fst (submitResponse scenario_A_request demo_db)))
  = [None; None] /\
  map (has_field "answer")
    (returned_answers (fst (submitResponse scenario_A_request demo_db)))
  = [true; true].
Proof. repeat split; vm_compute; reflexivity. Qed.

(** ** Manual score override *)

Lemma put_score_unfold req db :
  put_score req db
  = updateResponseScore
      {| ur_responseId := ur_responseId req;
         ur_score := ur_score req;
         ur_userId := ur_userId req;
         ur_errors :=
           (ur_errors req ++
            check (isLength 1 None (ur_responseId req))
              "Valid response ID is required") ++
           check (0 <=? ur_score req)
             "Score must be a non-negative integer" |} db.
Proof. reflexivity. Qed.

(** C8: when the acting user is the author of the exam of an existing
    response, an override with any integer newScore >= 0 succeeds, whatever
    the response's totalPoints, and changes the score field of that response
    and nothing else: its other fields, the other responses, the answers and
    the rest of the store are as before. *)
Theorem override_changes_score_only
  (req : ScoreRequest) (db : DB) (response : Response) (exam : Exam) :
  0 <= ur_score req ->
  db_responses db !! ur_responseId req = Some response ->
  find_exam_by_id db (r_examId response) = Some exam ->
  e_authorId exam = ur_userId req ->
  let res := fst (put_score req db) in
  let db' := snd (put_score req db) in
  status res = 200 /\
  (exists updated,
      db_responses db' !! ur_responseId req = Some updated /\
      r_score updated = Some (ur_score req) /\
      r_totalPoints updated = r_totalPoints response /\
      r_studentName updated = r_studentName response /\
      r_studentEmail updated = r_studentEmail response /\
      r_submittedAt updated = r_submittedAt response /\
      r_examId updated = r_examId response) /\
  (forall id,
      id <> ur_responseId req ->
      db_responses db' !! id = db_responses db !! id) /\
  db_answers db' = db_answers db /\
  db_questions db' = db_questions db /\
  db_exams db' = db_exams db /\
  db_nextId db' = db_nextId db /\
  db_now db' = db_now db.
Proof.
  intros _ Hlookup Hexam Hauthor res db'. subst res db'.
  rewrite put_score_unfold. unfold updateResponseScore.
  cbn [ur_responseId ur_score ur_userId].
  rewrite Hlookup, Hexam, Hauthor, String.eqb_refl.
  cbn [negb fst snd status db_responses db_answers db_questions db_exams
       db_nextId db_now].
  split; [reflexivity|]. split.
  { eexists. split; [apply lookup_insert_eq|]. now cbn. }
  split.
  { intros id Hne. now apply lookup_insert_ne. }
  now repeat split.
Qed.

Lemma override_changes_score_only_witness :
  0 <= ur_score scenario_D_request /\
  db_responses demo_db_graded !! "r1" = Some demo_response /\
  find_exam_by_id demo_db_graded (r_examId demo_response) = Some demo_exam /\
  e_authorId demo_exam = ur_userId scenario_D_request /\
  status (fst (put_score scenario_D_request demo_db_graded)) = 200 /\
  exists updated,
    db_responses (snd (put_score scenario_D_request demo_db_graded)) !! "r1"
    = Some updated /\
    r_score updated = Some 20 /\ r_totalPoints updated = 15.
Proof.
  assert (H0 : 0 <= ur_score scenario_D_request) by (cbn; lia).
  assert (H1 : db_responses demo_db_graded !! ur_responseId scenario_D_request
               = Some demo_response) by reflexivity.
  destruct (override_changes_score_only scenario_D_request demo_db_graded
              demo_response demo_exam H0 H1 eq_refl eq_refl)
    as [Hok [[updated (Hl & Hs & Ht & _)] _]].
  split; [exact H0|]. split; [exact H1|].
  split; [reflexivity|]. split; [reflexivity|]. split; [exact Hok|].
  exists updated. split; [exact Hl|]. split; [exact Hs | exact Ht].
Defined.

(** C9 (as amended): the override is refused with the NotFound reply (status
    404, message "Response not found") both when the response does not exist
    and when the acting user is not the author of the response's exam; in
    both cases the store is left as it was. *)
Theorem override_refused_as_not_found (req : ScoreRequest) (db : DB) :
  (db_responses db !! ur_responseId req = None \/
   exists response exam,
     db_responses db !! ur_responseId req = Some response /\
     find_exam_by_id db (r_examId response) = Some exam /\
     e_authorId exam <> ur_userId req) ->
  put_score req db = (failure 404 "Response not found", db) /\
  error_kind (fst (put_score req db)) = Some NotFound.
Proof.
  intros Hcase.
  assert (Hres : put_score req db = (failure 404 "Response not found", db)).
  { rewrite put_score_unfold. unfold updateResponseScore.
    cbn [ur_responseId ur_score ur_userId].
    destruct Hcase as [Hnone | (response & exam & Hlookup & Hexam & Hauthor)].
    - now rewrite Hnone.
    - rewrite Hlookup, Hexam. apply String.eqb_neq in Hauthor.
      now rewrite Hauthor. }
  split; [exact Hres|]. now rewrite Hres.
Qed.

Lemma override_refused_as_not_found_witness :
  (exists response exam,
      db_responses demo_db_graded !! "r1" = Some response /\
      find_exam_by_id demo_db_graded (r_examId response) = Some exam /\
      e_authorId exam <> "u2") /\
  put_score stranger_request demo_db_graded
  = (failure 404 "Response not found", demo_db_graded).
Proof.
  assert (H : exists response exam,
             db_responses demo_db_graded !! "r1" = Some response /\
             find_exam_by_id demo_db_graded (r_examId response) = Some exam /\
             e_authorId exam <> "u2").
  { exists demo_response, demo_exam.
    split; [reflexivity|]. split; [reflexivity | discriminate]. }
  split; [exact H|].
  exact (proj1 (override_refused_as_not_found stranger_request demo_db_graded
                  (or_intror H))).
Defined.

(** C9 (as stated) fails: user u2, who is not the author of the exam of
    response r1, is answered with the NotFound reply, not with an
    Authorization error. *)
Lemma stranger_is_told_not_found :
  db_responses demo_db_graded !! ur_responseId stranger_request
  = Some demo_response /\
  find_exam_by_id demo_db_graded (r_examId demo_response) = Some demo_exam /\
  e_authorId demo_exam <> ur_userId stranger_request /\
  status (fst (put_score stranger_request demo_db_graded)) = 404 /\
  error_kind (fst (put_score stranger_request demo_db_graded))
  = Some NotFound /\
  error_kind (fst (put_score stranger_request demo_db_graded))
  <> Some Authorization.
Proof.
  split; [reflexivity|]. split; [reflexivity|]. split; [discriminate|].
  split; [reflexivity|]. split; [reflexivity | discriminate].
Qed.

(** The handler does not read the outcome of [updateScoreValidation]: a
    negative score is stored as well. *)
Example negative_score_is_stored :
  r_score <$>
    db_responses
      (snd (put_score
              {| ur_responseId := "r1"; ur_score := -3; ur_userId := "u1";
                 ur_errors := [] |} demo_db_graded)) !! "r1"
  = Some (Some (-3)).
Proof. reflexivity. Qed.

(** * Further properties of the handlers *)

(** ** Submission: outcomes and store *)

Lemma submitResponse_outcome req db :
  (status (fst (submitResponse req db)) = 400 /\
   sr_errors req <> [] /\ snd (submitResponse req db) = db) \/
  (status (fst (submitResponse req db)) = 404 /\
   sr_errors req = [] /\
   find_exam_by_shareLink db (sr_shareLink req) = None /\
   snd (submitResponse req db) = db) \/
  (status (fst (submitResponse req db)) = 500 /\
   sr_errors req = [] /\
   is_Some (find_exam_by_shareLink db (sr_shareLink req)) /\
   sr_studentEmail req = Some EmailFalse /\
   snd (submitResponse req db) = db) \/
  (status (fst (submitResponse req db)) = 201 /\
   sr_errors req = [] /\
   is_Some (find_exam_by_shareLink db (sr_shareLink req)) /\
   sr_studentEmail req <> Some EmailFalse).
Proof.
  unfold submitResponse.
  destruct (sr_errors req) as [|e errors]; [|left; now cbn].
  destruct (find_exam_by_shareLink db (sr_shareLink req)) as [exam|];
    [|right; left; now cbn].
  destruct (sr_studentEmail req) as [[text|]|]; cbn.
  - right; right; right. eauto.
  - right; right; left. eauto.
  - right; right; right. eauto.
Qed.

Lemma email_column_Some field :
  field <> Some EmailFalse -> is_Some (email_column field).
Proof. destruct field as [[text|]|]; cbn; eauto. now intros []. Qed.

Lemma sanitize_email_False `{EmailValidator} (field : option EmailField) :
  sanitize_email <$> field = Some EmailFalse <->
  exists e, field = Some e /\ normalizeEmail (toString e) = None.
Proof.
  destruct field as [e|]; cbn; unfold sanitize_email.
  - destruct (normalizeEmail (toString e)) eqn:He; split.
    + discriminate.
    + intros (e' & [= <-] & He'). congruence.
    + eauto.
    + reflexivity.
  - split; [discriminate | now intros (e & He & _)].
Qed.

Lemma submitResponse_frame req db :
  db_exams (snd (submitResponse req db)) = db_exams db /\
  db_questions (snd (submitResponse req db)) = db_questions db /\
  (exists rows,
      db_answers (snd (submitResponse req db)) = db_answers db ++ rows /\
      Forall (fun a => a_responseId a = fresh_id (db_nextId db)) rows) /\
  (forall id,
      id <> fresh_id (db_nextId db) ->
      db_responses (snd (submitResponse req db)) !! id
      = db_responses db !! id).
Proof.
  assert (Hsame :
            db_exams db = db_exams db /\ db_questions db = db_questions db /\
            (exists rows,
                db_answers db = db_answers db ++ rows /\
                Forall (fun a => a_responseId a = fresh_id (db_nextId db))
                  rows) /\
            (forall id,
                id <> fresh_id (db_nextId db) ->
                db_responses db !! id = db_responses db !! id)).
  { repeat split. exists []. split; [now rewrite app_nil_r | constructor]. }
  unfold submitResponse.
  destruct (sr_errors req) eqn:Hvalid; [|exact Hsame].
  destruct (find_exam_by_shareLink db (sr_shareLink req)) as [exam|] eqn:Hexam;
    [|exact Hsame].
  destruct (email_column (sr_studentEmail req)) as [studentEmail|];
    [|exact Hsame].
  cbn [snd db_exams db_questions db_answers db_responses].
  split; [reflexivity|]. split; [reflexivity|]. split.
  - eexists. split; [reflexivity|].
    destruct (0 <? length _)%nat; [|constructor].
    apply Forall_forall. intros a Ha. apply list_elem_of_In in Ha.
    apply (in_map a_responseId) in Ha.
    rewrite createMany_responseId in Ha. unfold answersData in Ha.
    rewrite map_map in Ha. cbn in Ha.
    apply in_map_iff in Ha as [p [Hp _]]. now symmetry.
  - intros id Hne. now apply lookup_insert_ne.
Qed.

(** X1: a submission is answered 400, 404, 500 or 201.  It is answered 500
    exactly when it passes validation, its share link names an active exam,
    and the e-mail address it gives is one that normalizeEmail answers with
    false.  On 400, 404 and 500 the store is left as it was.  In every case
    the exams and the questions are untouched, the stored answer rows are
    kept and only rows of the new response are appended, and no response
    other than the new one is written. *)
Theorem submission_only_adds `{EmailValidator}
  (req : SubmitRequest) (db : DB) :
  let res := fst (post_submit req db) in
  let db' := snd (post_submit req db) in
  (status res = 400 \/ status res = 404 \/ status res = 500 \/
   status res = 201) /\
  (status res = 500 <->
   sr_errors (submitResponseValidation (shareLinkValidation req)) = [] /\
   is_Some (find_exam_by_shareLink db (sr_shareLink req)) /\
   exists e,
     sr_studentEmail req = Some e /\ normalizeEmail (toString e) = None) /\
  (status res <> 201 -> db' = db) /\
  db_exams db' = db_exams db /\
  db_questions db' = db_questions db /\
  (exists rows,
      db_answers db' = db_answers db ++ rows /\
      Forall (fun a => a_responseId a = fresh_id (db_nextId db)) rows) /\
  (forall id,
      id <> fresh_id (db_nextId db) ->
      db_responses db' !! id = db_responses db !! id).
Proof.
  unfold post_submit. cbv zeta.
  set (req' := submitResponseValidation (shareLinkValidation req)).
  assert (Hmail : sr_studentEmail req' = Some EmailFalse <->
                  exists e, sr_studentEmail req = Some e /\
                            normalizeEmail (toString e) = None)
    by apply sanitize_email_False.
  change (sr_shareLink req) with (sr_shareLink req').
  rewrite <- Hmail.
  split; [|split; [|split; [|apply submitResponse_frame]]].
  - destruct (submitResponse_outcome req' db)
      as [[Hc _]|[[Hc _]|[[Hc _]|[Hc _]]]]; auto.
  - destruct (submitResponse_outcome req' db)
      as [(Hc & Hbad & _)|[(Hc & _ & Hnone & _)|
          [(Hc & Hvalid & Hexam & Hfalse & _)|(Hc & _ & _ & Hmail')]]];
      rewrite Hc.
    + split; [discriminate|]. intros (Hvalid & _). contradiction.
    + split; [discriminate|]. intros (_ & Hexam & _).
      rewrite Hnone in Hexam. now destruct Hexam.
    + tauto.
    + split; [discriminate|]. intros (_ & _ & Hfalse). contradiction.
  - intros Hfail.
    destruct (submitResponse_outcome req' db)
      as [(_ & _ & Hdb)|[(_ & _ & _ & Hdb)|
          [(_ & _ & _ & _ & Hdb)|[Hc _]]]];
      [exact Hdb | exact Hdb | exact Hdb | contradiction].
Qed.

(** An address that [isEmail] accepts and [normalizeEmail] answers with
    false: the handler finds false in the place of studentEmail, the create
    throws, and the reply is the 500 one with nothing stored. *)
Example unnormalised_address_is_answered_500 :
  let req :=
    {| sr_shareLink := "s1"; sr_studentName := None;
       sr_studentEmail := Some (EmailText "+foo@gmail.com");
       sr_answers := [{| questionId := "q1"; answer := "B" |}];
       sr_errors := [] |} in
  sr_studentEmail
    (@submitResponseValidation plus_rule (shareLinkValidation req))
  = Some EmailFalse /\
  status (fst (@post_submit plus_rule req demo_db)) = 500 /\
  snd (@post_submit plus_rule req demo_db) = demo_db.
Proof. repeat split. Qed.

Lemma check_nil_iff ok message : check ok message = [] <-> ok = true.
Proof. destruct ok; cbn; split; congruence. Qed.

Lemma flat_map_check_nil_iff {A} (ok : A -> bool) message (l : list A) :
  flat_map (fun a => check (ok a) message) l = [] <->
  Forall (fun a => ok a = true) l.
Proof.
  split; [apply flat_map_check_nil|].
  induction 1 as [|a l Ha _ IH]; cbn; [reflexivity|].
  now rewrite Ha, IH.
Qed.

Lemma app_nil_iff {A} (l1 l2 : list A) : l1 ++ l2 = [] <-> l1 = [] /\ l2 = [].
Proof.
  split; [apply app_eq_nil|]. now intros [-> ->].
Qed.

Lemma isLength_min_1_iff s : isLength 1 None s = true <-> s <> "".
Proof.
  split; [apply isLength_min_1|]. now destruct s.
Qed.

Lemma isLength_range_iff (lo hi : nat) s :
  isLength lo (Some hi) s = true
  <-> (lo <= String.length s)%nat /\ (String.length s <= hi)%nat.
Proof.
  unfold isLength. rewrite andb_true_iff, !Nat.leb_le. reflexivity.
Qed.

(** What the validation chain of the submission route asks of a request. *)
Lemma validation_passes_iff `{EmailValidator} (req : SubmitRequest) :
  sr_errors req = [] ->
  sr_errors (submitResponseValidation (shareLinkValidation req)) = [] <->
  (sr_shareLink req <> "" /\
   (forall n, sr_studentName req = Some n ->
              (1 <= String.length (trim n))%nat /\
              (String.length (trim n) <= 100)%nat) /\
   (forall e, sr_studentEmail req = Some e -> isEmail (toString e) = true) /\
   sr_answers req <> [] /\
   Forall (fun a => questionId a <> "" /\ trim (answer a) <> "")
     (sr_answers req)).
Proof.
  intros Hfresh.
  cbn [submitResponseValidation shareLinkValidation sr_errors sr_answers
       sr_studentName sr_studentEmail sr_shareLink].
  rewrite Hfresh. cbn [app].
  rewrite !app_nil_iff, !check_nil_iff, !flat_map_check_nil_iff.
  rewrite isLength_min_1_iff, !Forall_map, Nat.leb_le, length_map.
  cbn [sanitize_answer questionId answer].
  assert (Hname :
            from_option
              (fun n => check (isLength 1 (Some 100%nat) n)
                          "Student name must be less than 100 characters")
              [] (trim <$> sr_studentName req) = [] <->
            (forall n, sr_studentName req = Some n ->
                       (1 <= String.length (trim n))%nat /\
                       (String.length (trim n) <= 100)%nat)).
  { destruct (sr_studentName req) as [n|]; cbn.
    - rewrite check_nil_iff, isLength_range_iff. split.
      + now intros Hn ? [= <-].
      + intros Hn. now apply Hn.
    - split; [discriminate | reflexivity]. }
  assert (Hmail :
            from_option
              (fun e => check (isEmail (toString e))
                          "Please provide a valid email")
              [] (sr_studentEmail req) = [] <->
            (forall e, sr_studentEmail req = Some e ->
                       isEmail (toString e) = true)).
  { destruct (sr_studentEmail req) as [e|]; cbn.
    - rewrite check_nil_iff. split.
      + now intros He ? [= <-].
      + intros He. now apply He.
    - split; [discriminate | reflexivity]. }
  rewrite Hname, Hmail.
  assert (Hlen : (1 <= length (sr_answers req))%nat <-> sr_answers req <> []).
  { destruct (sr_answers req); cbn; split; intros; try lia; congruence. }
  rewrite Hlen.
  assert (Hall :
            Forall (fun a => isLength 1 None (questionId a) = true)
              (sr_answers req) /\
            Forall (fun a => isLength 1 None (trim (answer a)) = true)
              (sr_answers req) <->
            Forall (fun a => questionId a <> "" /\ trim (answer a) <> "")
              (sr_answers req)).
  { rewrite <- Forall_and. apply Forall_iff. intros a.
    now rewrite !isLength_min_1_iff. }
  rewrite <- Hall. tauto.
Qed.

(** X2: a request that reaches the route without a recorded error is
    accepted (201) exactly when the share link is not empty and names an
    active exam, the name, if given, has 1 to 100 characters once trimmed,
    the e-mail address, if given, passes isEmail and is not one that
    normalizeEmail answers with false, there is at least one answer, and
    every answer has a questionId and a text that is not empty once
    trimmed. *)
Theorem submission_accepted_iff `{EmailValidator}
  (req : SubmitRequest) (db : DB) :
  sr_errors req = [] ->
  status (fst (post_submit req db)) = 201 <->
  (sr_shareLink req <> "" /\
   (forall n, sr_studentName req = Some n ->
              (1 <= String.length (trim n))%nat /\
              (String.length (trim n) <= 100)%nat) /\
   (forall e, sr_studentEmail req = Some e ->
              isEmail (toString e) = true /\
              is_Some (normalizeEmail (toString e))) /\
   sr_answers req <> [] /\
   Forall (fun a => questionId a <> "" /\ trim (answer a) <> "")
     (sr_answers req) /\
   is_Some (find_exam_by_shareLink db (sr_shareLink req))).
Proof.
  intros Hfresh. unfold post_submit.
  pose proof (validation_passes_iff req Hfresh) as Herr.
  set (req' := submitResponseValidation (shareLinkValidation req)) in *.
  assert (Hlink : sr_shareLink req' = sr_shareLink req) by reflexivity.
  assert (Hfalse : sr_studentEmail req' = Some EmailFalse <->
                   exists e, sr_studentEmail req = Some e /\
                             normalizeEmail (toString e) = None)
    by apply sanitize_email_False.
  split.
  - intros Hcreated.
    destruct (submitResponse_outcome req' db)
      as [(Hc & _)|[(Hc & _)|[(Hc & _)|(_ & Hvalid & Hexam & Hmail)]]];
      [congruence | congruence | congruence |].
    rewrite Hlink in Hexam. apply Herr in Hvalid.
    destruct Hvalid as (H1 & H2 & H3 & H4 & H5).
    split; [exact H1|]. split; [exact H2|].
    split; [|split; [exact H4|split; [exact H5 | exact Hexam]]].
    intros e He. split; [now apply H3|].
    destruct (normalizeEmail (toString e)) eqn:Hn; [eauto|].
    destruct Hmail. apply Hfalse. eauto.
  - intros (H1 & H2 & H3 & H4 & H5 & [exam Hexam]).
    assert (Hmail : is_Some (email_column (sr_studentEmail req'))).
    { apply email_column_Some. intros Hf.
      apply Hfalse in Hf as (e & He & Hn).
      destruct (H3 e He) as [_ [t Ht]]. congruence. }
    destruct Hmail as [mail Hmail].
    apply (submitResponse_status req' db exam mail).
    + apply Herr. split; [exact H1|]. split; [exact H2|].
      split; [|now split]. intros e He. now apply H3.
    + now rewrite Hlink.
    + exact Hmail.
Qed.

Lemma submission_accepted_iff_witness :
  sr_errors signed_request = [] /\
  status (fst (@post_submit plus_rule signed_request demo_db)) = 201.
Proof.
  split; [reflexivity|].
  apply (@submission_accepted_iff plus_rule signed_request demo_db eq_refl).
  split; [discriminate|]. split.
  { intros n [= <-]. vm_compute. lia. }
  split.
  { intros e [= <-]. split; [reflexivity | now exists "ann@example.org"]. }
  split; [discriminate|]. split.
  - repeat constructor; discriminate.
  - now exists demo_exam.
Defined.

Lemma fresh_id_inj n m : fresh_id n = fresh_id m -> n = m.
Proof.
  unfold fresh_id. cbn. intros [= Heq]. now apply (inj pretty).
Qed.

Lemma submitResponse_nextId req db :
  status (fst (submitResponse req db)) = 201 ->
  (db_nextId db < db_nextId (snd (submitResponse req db)))%N.
Proof.
  unfold submitResponse.
  destruct (sr_errors req); [|discriminate].
  destruct (find_exam_by_shareLink db (sr_shareLink req)); [|discriminate].
  destruct (email_column (sr_studentEmail req)); [|discriminate].
  intros _. cbn [snd db_nextId]. lia.
Qed.

(** X3: submitting the same request a second time is accepted again and is
    graded as the first time (same score, totalPoints and percentage in the
    reply): grading does not depend on the responses already stored.  The two
    submissions are stored under two different keys, and both rows are in the
    store afterwards with the same score and totalPoints. *)
Theorem resubmission_same_grade `{EmailValidator}
  (req : SubmitRequest) (db : DB) :
  status (fst (post_submit req db)) = 201 ->
  let first := post_submit req db in
  let second := post_submit req (snd first) in
  status (fst second) = 201 /\
  data_field "score" (fst second) = data_field "score" (fst first) /\
  data_field "totalPoints" (fst second)
  = data_field "totalPoints" (fst first) /\
  data_field "percentage" (fst second)
  = data_field "percentage" (fst first) /\
  fresh_id (db_nextId (snd first)) <> fresh_id (db_nextId db) /\
  exists r1 r2,
    db_responses (snd second) !! fresh_id (db_nextId db) = Some r1 /\
    db_responses (snd second) !! fresh_id (db_nextId (snd first)) = Some r2 /\
    r_score r2 = r_score r1 /\
    r_totalPoints r2 = r_totalPoints r1.
Proof.
  intros Hcreated. cbv zeta. unfold post_submit in *.
  set (req' := submitResponseValidation (shareLinkValidation req)) in *.
  set (first := submitResponse req' db) in *.
  set (second := submitResponse req' (snd first)).
  destruct (submitResponse_created_inv req' db Hcreated)
    as (Hvalid & [exam Hexam] & [mail Hmail]).
  destruct (submitResponse_frame req' db) as (Hexams & Hquestions & _ & _).
  assert (Hexam' : find_exam_by_shareLink (snd first) (sr_shareLink req')
                   = Some exam).
  { unfold find_exam_by_shareLink. subst first. now rewrite Hexams. }
  assert (Hsameq : exam_questions (snd first) exam = exam_questions db exam).
  { unfold exam_questions, questions_of. subst first. now rewrite Hquestions. }
  destruct (submitResponse_data req' db exam mail Hvalid Hexam Hmail)
    as (Hs1 & Ht1 & Hp1).
  destruct (submitResponse_data req' (snd first) exam mail Hvalid Hexam' Hmail)
    as (Hs2 & Ht2 & Hp2).
  rewrite Hsameq in Hs2, Ht2, Hp2.
  assert (Hne : fresh_id (db_nextId (snd first)) <> fresh_id (db_nextId db)).
  { intros Heq. apply fresh_id_inj in Heq.
    pose proof (submitResponse_nextId req' db Hcreated) as Hlt.
    subst first. lia. }
  split.
  { apply (submitResponse_status req' (snd first) exam mail Hvalid Hexam'
             Hmail). }
  subst second first.
  split; [now rewrite Hs2, Hs1|]. split; [now rewrite Ht2, Ht1|].
  split; [now rewrite Hp2, Hp1|]. split; [exact Hne|].
  do 2 eexists.
  split.
  { destruct (submitResponse_frame req' (snd (submitResponse req' db)))
      as (_ & _ & _ & Hother).
    rewrite Hother by (intros Heq; apply Hne; now symmetry).
    apply (submitResponse_stored req' db exam mail Hvalid Hexam Hmail). }
  split; [apply (submitResponse_stored req' _ exam mail Hvalid Hexam' Hmail)|].
  cbn [r_score r_totalPoints]. now rewrite Hsameq.
Qed.

Lemma resubmission_same_grade_witness :
  status (fst (@post_submit lax_email scenario_A_request demo_db)) = 201 /\
  status
    (fst (@post_submit lax_email scenario_A_request
            (snd (@post_submit lax_email scenario_A_request demo_db)))) = 201.
Proof.
  split; [reflexivity|].
  exact (proj1 (@resubmission_same_grade lax_email scenario_A_request demo_db
                  eq_refl)).
Defined.

(** ** White space around an answer *)

Lemma append_cons c (s t : string) : String c s +:+ t = String c (s +:+ t).
Proof. reflexivity. Qed.

Lemma append_empty (t : string) : "" +:+ t = t.
Proof. reflexivity. Qed.

Lemma ltrim_all_space l s : all_space l = true -> ltrim (l +:+ s) = ltrim s.
Proof.
  induction l as [|c l IH]; [reflexivity|].
  cbn [all_space]. intros H. apply andb_true_iff in H as [Hc Hl].
  rewrite append_cons. cbn [ltrim]. rewrite Hc. now apply IH.
Qed.

Lemma ltrim_only_space r : all_space r = true -> ltrim r = "".
Proof.
  induction r as [|c r IH]; [reflexivity|].
  cbn [all_space ltrim]. intros H. apply andb_true_iff in H as [Hc Hr].
  rewrite Hc. now apply IH.
Qed.

Lemma rtrim_all_space r : all_space r = true -> rtrim r = "".
Proof.
  induction r as [|c r IH]; [reflexivity|].
  cbn [all_space rtrim]. intros H. apply andb_true_iff in H as [Hc Hr].
  now rewrite (IH Hr), Hc.
Qed.

Lemma rtrim_app_space s r :
  all_space r = true -> rtrim (s +:+ r) = rtrim s.
Proof.
  intros Hr. induction s as [|c s IH].
  - rewrite append_empty. now apply rtrim_all_space.
  - rewrite append_cons. cbn [rtrim]. now rewrite IH.
Qed.

Lemma trim_app_space s r : all_space r = true -> trim (s +:+ r) = trim s.
Proof.
  intros Hr. unfold trim. induction s as [|c s IH].
  - rewrite append_empty, (ltrim_only_space r Hr). reflexivity.
  - rewrite append_cons. cbn [ltrim]. destruct (is_space c); [exact IH|].
    rewrite <- append_cons. now apply rtrim_app_space.
Qed.

(** White space added at either end of a text is not seen after [trim]. *)
Lemma trim_padding l s r :
  all_space l = true -> all_space r = true -> trim (l +:+ s +:+ r) = trim s.
Proof.
  intros Hl Hr. unfold trim at 1. rewrite ltrim_all_space by exact Hl.
  now apply trim_app_space.
Qed.

Lemma sanitize_padded a b : padded a b -> sanitize_answer b = sanitize_answer a.
Proof.
  intros [Hid (l & r & Htext & Hl & Hr)]. unfold sanitize_answer.
  now rewrite Hid, Htext, trim_padding.
Qed.

(** X4: white space around the text of an answer makes no difference to the
    endpoint: a request whose answers are those of another request with
    white space added before or after their texts gets the same reply and
    leaves the same store. *)
Theorem surrounding_space_is_ignored `{EmailValidator}
  (req : SubmitRequest) (answers' : list SubmittedAnswer) (db : DB) :
  Forall2 padded (sr_answers req) answers' ->
  post_submit (with_answers req answers') db = post_submit req db.
Proof.
  intros Hpad. unfold post_submit. f_equal.
  unfold submitResponseValidation, shareLinkValidation, with_answers.
  cbn [sr_shareLink sr_studentName sr_studentEmail sr_answers sr_errors].
  assert (Hsame : map sanitize_answer answers'
                  = map sanitize_answer (sr_answers req)).
  { induction Hpad as [|a b l l' Hab _ IH]; cbn; [reflexivity|].
    now rewrite (sanitize_padded a b Hab), IH. }
  now rewrite Hsame.
Qed.

Lemma surrounding_space_is_ignored_witness :
  Forall2 padded
    (sr_answers (demo_request [{| questionId := "q1"; answer := "B" |}]))
    (sr_answers padded_request) /\
  @post_submit lax_email padded_request demo_db
  = @post_submit lax_email
      (demo_request [{| questionId := "q1"; answer := "B" |}]) demo_db.
Proof.
  assert (H : Forall2 padded
                (sr_answers
                   (demo_request [{| questionId := "q1"; answer := "B" |}]))
                (sr_answers padded_request)).
  { constructor; [|constructor].
    split; [reflexivity|]. exists " ", " ". now repeat split. }
  split; [exact H|].
  exact (@surrounding_space_is_ignored lax_email
           (demo_request [{| questionId := "q1"; answer := "B" |}])
           (sr_answers padded_request) demo_db H).
Defined.

(** ** Overrides in sequence *)

Lemma set_score_twice r s1 s2 : set_score (set_score r s1) s2 = set_score r s2.
Proof. reflexivity. Qed.

(** X5: of two overrides of the same response by the exam's author, the last
    one wins: the reply to the second and the store it leaves are those the
    second override alone would have given. *)
Theorem last_override_wins
  (req1 req2 : ScoreRequest) (db : DB) (response : Response) (exam : Exam) :
  ur_responseId req2 = ur_responseId req1 ->
  ur_userId req2 = ur_userId req1 ->
  db_responses db !! ur_responseId req1 = Some response ->
  find_exam_by_id db (r_examId response) = Some exam ->
  e_authorId exam = ur_userId req1 ->
  put_score req2 (snd (put_score req1 db)) = put_score req2 db.
Proof.
  intros Hid Huser Hlookup Hexam Hauthor.
  rewrite (put_score_unfold req1 db), (put_score_unfold req2 db),
    (put_score_unfold req2 _).
  unfold updateResponseScore.
  cbn [ur_responseId ur_score ur_userId]. rewrite Hid, Huser.
  rewrite Hlookup, Hexam, Hauthor, String.eqb_refl.
  cbn [negb snd db_responses db_exams db_questions db_answers db_nextId db_now].
  rewrite lookup_insert_eq. cbn [r_examId set_score].
  unfold find_exam_by_id in *. cbn [db_exams]. rewrite Hexam.
  rewrite Hauthor, String.eqb_refl. cbn [negb].
  rewrite insert_insert_eq. reflexivity.
Qed.

Lemma last_override_wins_witness :
  db_responses demo_db_graded !! "r1" = Some demo_response /\
  put_score scenario_D_request
    (snd (put_score
            {| ur_responseId := "r1"; ur_score := 3; ur_userId := "u1";
               ur_errors := [] |} demo_db_graded))
  = put_score scenario_D_request demo_db_graded.
Proof.
  split; [reflexivity|].
  exact (last_override_wins
           {| ur_responseId := "r1"; ur_score := 3; ur_userId := "u1";
              ur_errors := [] |}
           scenario_D_request demo_db_graded demo_response demo_exam
           eq_refl eq_refl eq_refl eq_refl eq_refl).
Defined.

(** ** What the reply to a submission shows *)

(** X6: in the reply to a successful submission, each element of the answers
    array is a stored answer row of the new response, shown with its
    question; when that question exists the element carries the question's
    stored correct answer (null when none is configured), whatever the type
    of the question and whether or not the answer was right. *)
Theorem reply_shows_correct_answers (req : SubmitRequest) (db : DB) :
  status (fst (submitResponse req db)) = 201 ->
  Forall
    (fun element =>
       exists a,
         In a (db_answers (snd (submitResponse req db))) /\
         a_responseId a = fresh_id (db_nextId db) /\
         get_field "questionId" element = Some (JStr (a_questionId a)) /\
         get_field "answer" element = Some (JStr (a_answer a)) /\
         forall q,
           find_question_by_id db (a_questionId a) = Some q ->
           get_field "question" element ≫= get_field "correctAnswer"
           = Some (JOptStr (q_correctAnswer q)))
    (returned_answers (fst (submitResponse req db))).
Proof.
  intros Hcreated.
  destruct (submitResponse_created_inv req db Hcreated)
    as (Hvalid & [exam Hexam] & [mail Hmail]).
  rewrite (submitResponse_returned_answers req db exam mail Hvalid Hexam Hmail).
  apply Forall_forall. intros element Hin. apply list_elem_of_In in Hin.
  apply in_map_iff in Hin as [a [<- Ha]].
  unfold answers_of in Ha. apply filter_In in Ha as [Ha Hid].
  apply String.eqb_eq in Hid.
  exists a. split; [exact Ha|]. split; [exact Hid|].
  split; [reflexivity|]. split; [reflexivity|].
  intros q Hq. unfold answer_json, find_question_by_id.
  rewrite (proj1 (proj2 (submitResponse_frame req db))).
  unfold find_question_by_id in Hq. cbn. rewrite Hq. reflexivity.
Qed.

Lemma reply_shows_correct_answers_witness :
  status (fst (submitResponse
                 (demo_request [{| questionId := "q1"; answer := "C" |}])
                 demo_db)) = 201 /\
  Forall
    (fun element =>
       exists a,
         get_field "questionId" element = Some (JStr (a_questionId a)) /\
         forall q,
           find_question_by_id demo_db (a_questionId a) = Some q ->
           get_field "question" element ≫= get_field "correctAnswer"
           = Some (JOptStr (q_correctAnswer q)))
    (returned_answers
       (fst (submitResponse
               (demo_request [{| questionId := "q1"; answer := "C" |}])
               demo_db))).
Proof.
  split; [reflexivity|].
  eapply Forall_impl;
    [exact (reply_shows_correct_answers
              (demo_request [{| questionId := "q1"; answer := "C" |}])
              demo_db eq_refl)|].
  intros element (a & _ & _ & Hid & _ & Hq). exists a. now split.
Defined.

(** ** Order and repetition in the submitted answers *)

Lemma find_answer_app l1 l2 id :
  find_answer (l1 ++ l2) id
  = match find_answer l1 id with
    | Some a => Some a
    | None => find_answer l2 id
    end.
Proof.
  unfold find_answer. induction l1 as [|a l1 IH]; cbn; [reflexivity|].
  now destruct (String.eqb (questionId a) id).
Qed.

Lemma find_answer_Some answers id a :
  find_answer answers id = Some a -> In a answers /\ questionId a = id.
Proof.
  unfold find_answer. intros H. apply find_some in H as [Hin Heq].
  split; [exact Hin | now apply String.eqb_eq].
Qed.

Lemma find_answer_None answers id :
  find_answer answers id = None <->
  forall a, In a answers -> questionId a <> id.
Proof.
  unfold find_answer. split.
  - intros H a Hin. apply String.eqb_neq. now apply (find_none _ _ H).
  - intros H. destruct (List.find _ answers) as [a|] eqn:Hf; [|reflexivity].
    apply find_some in Hf as [Hin Heq]. apply String.eqb_eq in Heq.
    now destruct (H a Hin).
Qed.

Lemma grade_same_answers questions answers1 answers2 :
  (forall id, find_answer answers1 id = find_answer answers2 id) ->
  grade questions answers1 = grade questions answers2.
Proof.
  intros Hfind. unfold grade. apply grade_loop_ext.
  apply Forall_forall. intros q _. apply Hfind.
Qed.

(** X7: when a submission answers a question more than once, only the first
    of these answers counts: taking a later answer to the same question out
    of the submission changes nothing in the result of grading. *)
Theorem only_first_answer_counts
  (questions : list Question) (l1 l2 l3 : list SubmittedAnswer)
  (a b : SubmittedAnswer) :
  questionId b = questionId a ->
  grade questions (l1 ++ a :: l2 ++ b :: l3)
  = grade questions (l1 ++ a :: l2 ++ l3).
Proof.
  intros Hsame. apply grade_same_answers. intros id.
  rewrite !(find_answer_app l1). destruct (find_answer l1 id); [reflexivity|].
  change (a :: l2 ++ b :: l3) with ([a] ++ (l2 ++ b :: l3)).
  change (a :: l2 ++ l3) with ([a] ++ (l2 ++ l3)).
  rewrite !(find_answer_app [a]).
  destruct (find_answer [a] id) as [x|] eqn:Ha; [reflexivity|].
  apply find_answer_drop. rewrite Hsame.
  apply (proj1 (find_answer_None [a] id) Ha). now left.
Qed.

Lemma only_first_answer_counts_witness :
  grade [demo_q1; demo_q2]
    ([] ++ {| questionId := "q1"; answer := "B" |}
        :: [] ++ {| questionId := "q1"; answer := "C" |} :: [])
  = grade [demo_q1; demo_q2]
      ([] ++ {| questionId := "q1"; answer := "B" |} :: [] ++ []).
Proof.
  exact (only_first_answer_counts [demo_q1; demo_q2] [] [] []
           {| questionId := "q1"; answer := "B" |}
           {| questionId := "q1"; answer := "C" |} eq_refl).
Defined.

Lemma find_answer_Permutation answers answers' id :
  NoDup (map questionId answers) ->
  answers ≡ₚ answers' ->
  find_answer answers' id = find_answer answers id.
Proof.
  intros Hnd Hperm.
  destruct (find_answer answers id) as [a|] eqn:Hf.
  - apply find_answer_Some in Hf as [Hin Hid].
    apply find_answer_unique; [| |exact Hid].
    + assert (Hids : map questionId answers ≡ₚ map questionId answers')
        by now apply Permutation_map.
      now rewrite <- Hids.
    + eapply Permutation_in; [exact Hperm | exact Hin].
  - apply find_answer_None. intros a Hin.
    apply (proj1 (find_answer_None answers id) Hf).
    eapply Permutation_in; [symmetry; exact Hperm | exact Hin].
Qed.

(** X8: when no question is answered twice, the order in which the
    submission lists its answers does not matter: any rearrangement of the
    answers is graded to the same score, totalPoints and records. *)
Theorem answer_order_is_irrelevant
  (questions : list Question) (answers answers' : list SubmittedAnswer) :
  NoDup (map questionId answers) ->
  answers ≡ₚ answers' ->
  grade questions answers' = grade questions answers.
Proof.
  intros Hnd Hperm. apply grade_same_answers. intros id.
  now apply find_answer_Permutation.
Qed.

Lemma answer_order_is_irrelevant_witness :
  NoDup (map questionId
           [{| questionId := "q1"; answer := "B" |};
            {| questionId := "q2"; answer := "free text" |}]) /\
  grade [demo_q1; demo_q2]
    [{| questionId := "q2"; answer := "free text" |};
     {| questionId := "q1"; answer := "B" |}]
  = grade [demo_q1; demo_q2]
      [{| questionId := "q1"; answer := "B" |};
       {| questionId := "q2"; answer := "free text" |}].
Proof.
  assert (H : NoDup (map questionId
                       [{| questionId := "q1"; answer := "B" |};
                        {| questionId := "q2"; answer := "free text" |}])).
  { cbn. apply NoDup_cons. split; [|apply NoDup_singleton].
    intros Hin. apply list_elem_of_In in Hin. cbn in Hin.
    destruct Hin as [Hin|[]]. discriminate. }
  split; [exact H|].
  apply (answer_order_is_irrelevant [demo_q1; demo_q2] _ _ H).
  apply perm_swap.
Defined.

(** ** Order of the questions *)

Lemma grade_step_split answers st q :
  score (grade_step answers st q) = score st + earned answers q /\
  processedAnswers (grade_step answers st q)
  = processedAnswers st ++ emitted answers q.
Proof.
  unfold earned, emitted, grade_step.
  destruct (find_answer answers (q_id q)) as [a|]; cbn.
  - destruct (is_objective q).
    + destruct (truthy _ && strict_eq _ _); cbn; split; (lia || reflexivity).
    + destruct (is_subjective q); cbn; split; (lia || reflexivity).
  - split; [lia | now rewrite app_nil_r].
Qed.

Lemma grade_loop_closed answers questions : forall st,
  score (grade_loop answers questions st)
  = score st + sum_earned answers questions /\
  processedAnswers (grade_loop answers questions st)
  = processedAnswers st ++ flat_map (emitted answers) questions.
Proof.
  induction questions as [|q rest IH]; intros st; cbn [sum_earned flat_map].
  - cbn. split; [lia | now rewrite app_nil_r].
  - rewrite grade_loop_cons.
    destruct (IH (grade_step answers st q)) as [-> ->].
    destruct (grade_step_split answers st q) as [-> ->].
    split; [lia | now rewrite app_assoc].
Qed.

Lemma sum_earned_Permutation answers l1 l2 :
  l1 ≡ₚ l2 -> sum_earned answers l1 = sum_earned answers l2.
Proof. induction 1; cbn; lia. Qed.

(** X9: the score is the sum, over the questions, of what each question
    earns on its own (nothing or its points), so that the order in which the
    store delivers the questions has no influence on score and totalPoints:
    two arrangements of the same questions give the same score and the same
    totalPoints, and the same records up to their order. *)
Theorem question_order_is_irrelevant
  (questions questions' : list Question) (answers : list SubmittedAnswer) :
  questions ≡ₚ questions' ->
  score (grade questions answers) = sum_earned answers questions /\
  Forall (fun q => earned answers q = 0 \/ earned answers q = q_points q)
    questions /\
  score (grade questions' answers) = score (grade questions answers) /\
  totalPoints (grade questions' answers)
  = totalPoints (grade questions answers) /\
  processedAnswers (grade questions' answers)
  ≡ₚ processedAnswers (grade questions answers).
Proof.
  intros Hperm. unfold grade.
  destruct (grade_loop_closed answers questions grade_init) as [Hs Hp].
  destruct (grade_loop_closed answers questions' grade_init) as [Hs' Hp'].
  split; [rewrite Hs; cbn; lia|].
  split.
  { apply Forall_forall. intros q _. unfold earned.
    destruct (grade_step_score answers grade_init q) as [E|E];
      rewrite E; cbn; [now left | right; lia]. }
  split; [rewrite Hs, Hs'; now rewrite (sum_earned_Permutation _ _ _ Hperm)|].
  split.
  { rewrite !grade_loop_totalPoints.
    now rewrite (sum_points_Permutation _ _ Hperm). }
  rewrite Hp, Hp'. cbn. symmetry. now apply Permutation_flat_map.
Qed.

Lemma question_order_is_irrelevant_witness :
  [demo_q1; demo_q2] ≡ₚ [demo_q2; demo_q1] /\
  score (grade [demo_q2; demo_q1] (sr_answers scenario_A_request))
  = score (grade [demo_q1; demo_q2] (sr_answers scenario_A_request)).
Proof.
  assert (H : [demo_q1; demo_q2] ≡ₚ [demo_q2; demo_q1]) by apply perm_swap.
  split; [exact H|].
  exact (proj1 (proj2 (proj2 (question_order_is_irrelevant
                                [demo_q1; demo_q2] [demo_q2; demo_q1]
                                (sr_answers scenario_A_request) H)))).
Defined.

(** ** Creating an exam *)

#[global] Instance order_le_trans : Transitive order_le.
Proof. intros a b c. unfold order_le. lia. Qed.

Lemma question_row_Some examId first index q row :
  question_row examId first index q = Some row ->
  row_of examId q row /\
  q_id row = fresh_id (first + N.of_nat index) /\
  q_order row = Z.of_nat index + 1.
Proof.
  unfold question_row, row_of.
  destruct (qi_type q); [|discriminate].
  destruct (qi_question q); [|discriminate].
  destruct (stored_options (qi_options q)); [|discriminate].
  cbn. intros [= <-]. cbn. tauto.
Qed.

Lemma created_rows_shape examId first (inputs : list QuestionInput) :
  forall k rows,
    mapM (fun row => row)
      (imap (fun i => question_row examId first (k + i)) inputs) = Some rows ->
    Forall2 (row_of examId) inputs rows /\
    map q_order rows
    = map (fun i => Z.of_nat i + 1) (seq k (length inputs)) /\
    map q_id rows
    = map (fun i => fresh_id (first + N.of_nat i)) (seq k (length inputs)).
Proof.
  induction inputs as [|q rest IH]; intros k rows Hrows.
  - cbn in Hrows. injection Hrows as <-. repeat split. constructor.
  - rewrite imap_cons in Hrows. cbn in Hrows.
    rewrite Nat.add_0_r in Hrows.
    destruct (question_row examId first k q) as [row|] eqn:Hrow;
      [|discriminate].
    cbn in Hrows.
    destruct (mapM (fun row => row)
                (imap ((fun i => question_row examId first (k + i)) ∘ S) rest))
      as [rows'|] eqn:Hrows'; [|discriminate].
    cbn in Hrows. injection Hrows as <-.
    rewrite (imap_ext _ (fun i => question_row examId first (S k + i)))
      in Hrows'
      by (intros i x _; cbn; now rewrite Nat.add_succ_r).
    destruct (IH (S k) rows' Hrows') as (Hrel & Hord & Hids).
    destruct (question_row_Some _ _ _ _ _ Hrow) as (Hq & Hid & Ho).
    cbn [length seq map]. rewrite Hord, Hids, Hid, Ho.
    split; [now constructor | now split].
Qed.

Lemma question_row_None examId first index q :
  question_row examId first index q = None <-> unstorable q.
Proof.
  unfold question_row, unstorable.
  destruct (qi_type q); cbn; [|tauto].
  destruct (qi_question q); cbn; [|tauto].
  destruct (qi_options q) as [[text|items]|]; cbn.
  - split; [discriminate|]. intros [H|[H|[items H]]]; discriminate.
  - split; [eauto|reflexivity].
  - split; [discriminate|]. intros [H|[H|[items H]]]; discriminate.
Qed.

Lemma unstorable_sanitized q :
  unstorable (sanitize_question q) <-> unstorable q.
Proof.
  unfold unstorable. cbn. destruct (qi_question q); cbn; [|tauto].
  split; (intros [H|[H|H]]; [now left | discriminate | right; now right]).
Qed.

Lemma createExam_outcome req db :
  (fst (createExam req db) = 400 /\ xr_errors req <> [] /\
   snd (createExam req db) = db) \/
  (fst (createExam req db) = 500 /\ xr_errors req = [] /\
   Exists unstorable (default [] (xr_questions req)) /\
   snd (createExam req db) = db) \/
  (fst (createExam req db) = 201 /\ xr_errors req = [] /\
   Forall (fun q => ~ unstorable q) (default [] (xr_questions req)) /\
   exists rows,
     mapM (fun row => row)
       (imap (fun i => question_row (fresh_id (db_nextId db))
                         (db_nextId db + 1) (0 + i))
          (default [] (xr_questions req))) = Some rows /\
     snd (createExam req db)
     = {| db_exams :=
            db_exams db ++
            [{| e_id := fresh_id (db_nextId db);
                e_title := xr_title req;
                e_description := xr_description req;
                e_timeLimit := xr_timeLimit req;
                e_shareLink := "s" +:+ pretty (db_nextId db);
                e_isActive := true;
                e_authorId := xr_userId req |}];
          db_questions := db_questions db ++ rows;
          db_responses := db_responses db;
          db_answers := db_answers db;
          db_nextId := db_nextId db + 1 + N.of_nat (length rows);
          db_now := db_now db |}).
Proof.
  unfold createExam.
  destruct (xr_errors req) as [|e errors]; [|left; now cbn].
  cbn [e_id].
  destruct (mapM _ _) as [rows|] eqn:Hrows.
  - right; right. cbn. split; [reflexivity|]. split; [reflexivity|].
    split; [|exists rows; split; reflexivity].
    apply Forall_forall. intros q Hq Hbad.
    apply list_elem_of_lookup in Hq as [i Hi].
    apply (question_row_None (fresh_id (db_nextId db)) (db_nextId db + 1) i)
      in Hbad.
    assert (Hnone : mapM (fun row => row)
                      (imap (question_row (fresh_id (db_nextId db))
                               (db_nextId db + 1))
                         (default [] (xr_questions req))) = None).
    { apply mapM_None. apply Exists_exists. exists None.
      split; [|reflexivity].
      apply list_elem_of_lookup. exists i.
      now rewrite list_lookup_imap, Hi, <- Hbad. }
    congruence.
  - right; left. cbn. split; [reflexivity|]. split; [reflexivity|].
    split; [|reflexivity].
    apply mapM_None in Hrows. apply Exists_exists in Hrows as [o [Hin Ho]].
    apply list_elem_of_lookup in Hin as [i Hi].
    rewrite list_lookup_imap in Hi.
    destruct (default [] (xr_questions req) !! i) as [q|] eqn:Hq;
      [|discriminate].
    cbn in Hi. injection Hi as <-.
    apply Exists_exists. exists q. split.
    + apply list_elem_of_lookup. eauto.
    + now apply question_row_None in Ho.
Qed.

(** X10: creating an exam is all or nothing.  The reply is 400 (validation),
    500 or 201, and on 400 and 500 the store is left as it was.  It is 500
    exactly when the request passes validation with a question that lacks
    its type or its text, or whose options are an array, as the create-exam
    page posts them for a multiple-choice question.  On 201 one exam is
    added: active, owned by the acting user, with a row for each submitted
    question in the same order, carrying order 1, 2, ..., the type and the
    trimmed text of the question, null for absent or empty options and for
    an absent or empty correct answer, and points from 1 to 100 (1 when none
    are given).  Responses and answers are never touched. *)
Theorem exam_creation_all_or_nothing (req : ExamRequest) (db : DB) :
  let code := fst (post_exam req db) in
  let db' := snd (post_exam req db) in
  (code = 400 \/ code = 500 \/ code = 201) /\
  (code <> 201 -> db' = db) /\
  (code = 500 <->
   xr_errors (examValidation req) = [] /\
   Exists unstorable (default [] (xr_questions req))) /\
  db_responses db' = db_responses db /\
  db_answers db' = db_answers db /\
  (code = 201 ->
   exists newExam rows,
     db_exams db' = db_exams db ++ [newExam] /\
     db_questions db' = db_questions db ++ rows /\
     e_id newExam = fresh_id (db_nextId db) /\
     e_isActive newExam = true /\
     e_authorId newExam = xr_userId req /\
     e_title newExam = trim (xr_title req) /\
     Forall2 (row_of (e_id newExam))
       (map sanitize_question (default [] (xr_questions req))) rows /\
     map q_order rows = map (fun i => Z.of_nat i + 1) (seq 0 (length rows)) /\
     Forall (fun row => 1 <= q_points row <= 100) rows).
Proof.
  unfold post_exam. cbv zeta.
  set (req' := examValidation req).
  assert (Hqs : default [] (xr_questions req')
                = map sanitize_question (default [] (xr_questions req))).
  { subst req'. cbn. now destruct (xr_questions req). }
  assert (Hbad_iff : Exists unstorable (default [] (xr_questions req')) <->
                     Exists unstorable (default [] (xr_questions req))).
  { rewrite Hqs, Exists_fmap. split; intros Hex;
      (eapply Exists_impl; [exact Hex|]); intros q Hq;
      now apply unstorable_sanitized. }
  destruct (createExam_outcome req' db)
    as [(Hc & Herr & Hdb)|[(Hc & Hvalid & Hbad & Hdb)|
        (Hc & Hvalid & Hgood & rows & Hrows & Hdb)]];
    rewrite Hc, Hdb.
  - split; [now left|]. split; [reflexivity|]. split.
    { split; [discriminate|]. now intros [Hvalid _]. }
    split; [reflexivity|]. split; [reflexivity | discriminate].
  - split; [right; now left|]. split; [reflexivity|]. split.
    { split; [|reflexivity]. intros _. split; [exact Hvalid|].
      now apply Hbad_iff. }
    split; [reflexivity|]. split; [reflexivity | discriminate].
  - cbn [db_responses db_answers db_exams db_questions].
    split; [right; now right|]. split; [intros Hne; now destruct Hne|].
    split.
    { split; [discriminate|]. intros [_ Hbad]. apply Hbad_iff in Hbad.
      apply Exists_exists in Hbad as [q [Hin Hq]].
      rewrite Forall_forall in Hgood. now destruct (Hgood q Hin). }
    split; [reflexivity|]. split; [reflexivity|].
    intros _. eexists. exists rows.
    split; [reflexivity|]. split; [reflexivity|].
    cbn [e_id e_isActive e_authorId e_title].
    split; [reflexivity|]. split; [reflexivity|]. split; [reflexivity|].
    split; [reflexivity|].
    destruct (created_rows_shape _ _ _ _ _ Hrows) as (Hrel & Hord & _).
    rewrite Hqs in Hrel.
    assert (Hlen : length rows = length (default [] (xr_questions req'))).
    { rewrite Hqs. symmetry. exact (Forall2_length _ _ _ Hrel). }
    split; [exact Hrel|]. split; [now rewrite Hlen|].
    eapply (created_rows_in_range _ (fun i => question_row _ _ (0 + i)));
      [|exact Hrows|].
    + intros i q row Hq. now apply question_row_points in Hq.
    + now apply examValidation_points.
Qed.

(** The request of the create-exam page for a multiple-choice question
    passes validation and is answered 500, with nothing stored: the array of
    options is no value of the TEXT column. *)
Example page_multiple_choice_is_answered_500 :
  xr_errors (examValidation page_exam_request) = [] /\
  post_exam page_exam_request empty_db = (500, empty_db).
Proof. split; reflexivity. Qed.

Lemma NoDup_map_eq {A B} (f : A -> B) (l : list A) x y :
  NoDup (map f l) -> In x l -> In y l -> f x = f y -> x = y.
Proof.
  induction l as [|a l IH]; cbn; [contradiction|].
  intros Hnd Hx Hy Heq. apply NoDup_cons in Hnd as [Hfresh Hnd].
  destruct Hx as [->|Hx], Hy as [->|Hy]; auto.
  - exfalso. apply Hfresh. rewrite Heq. apply list_elem_of_In.
    now apply in_map.
  - exfalso. apply Hfresh. rewrite <- Heq. apply list_elem_of_In.
    now apply in_map.
Qed.

(** Sorting changes nothing in a list that is in ascending order of [order]
    with no value repeated. *)
Lemma merge_sort_sorted rows :
  Sorted order_le rows -> NoDup (map q_order rows) ->
  merge_sort order_le rows = rows.
Proof.
  intros Hsorted Hnd.
  apply (Sorted_unique_strong order_le).
  - intros x1 x2 H1 H2 H12 H21.
    apply (NoDup_map_eq q_order rows); [exact Hnd| |now apply list_elem_of_In|].
    + apply list_elem_of_In.
      now rewrite <- (merge_sort_Permutation order_le rows).
    + unfold order_le in *. lia.
  - apply (Sorted_merge_sort order_le).
  - exact Hsorted.
  - apply merge_sort_Permutation.
Qed.

Lemma orders_from_sorted k n :
  Sorted Z.le (map (fun i => Z.of_nat i + 1) (seq k n)) /\
  NoDup (map (fun i => Z.of_nat i + 1) (seq k n)).
Proof.
  split.
  - revert k. induction n as [|n IH]; intros k; cbn; constructor.
    + apply IH.
    + destruct n; cbn; constructor. lia.
  - apply NoDup_fmap_2; [|apply NoDup_seq].
    intros i j Hij. lia.
Qed.

Lemma filter_none {A} (f : A -> bool) l :
  Forall (fun x => f x = false) l -> List.filter f l = [].
Proof.
  induction 1 as [|x l Hx _ IH]; cbn; [reflexivity|]. now rewrite Hx.
Qed.

Lemma filter_all {A} (f : A -> bool) l :
  Forall (fun x => f x = true) l -> List.filter f l = l.
Proof.
  induction 1 as [|x l Hx _ IH]; cbn; [reflexivity|]. now rewrite Hx, IH.
Qed.

Lemma Sorted_by_order rows :
  Sorted Z.le (map q_order rows) -> Sorted order_le rows.
Proof.
  induction rows as [|a rows IH]; cbn; intros H; constructor.
  - apply IH. now inversion H.
  - inversion H as [|? ? _ Hhd]; subst.
    destruct rows as [|b rows]; constructor. now inversion Hhd.
Qed.

Lemma find_appended_exam (exams : list Exam) (e : Exam) :
  Forall (fun x => e_shareLink x <> e_shareLink e) exams ->
  e_isActive e = true ->
  List.find
    (fun x => String.eqb (e_shareLink x) (e_shareLink e) && e_isActive x)
    (exams ++ [e]) = Some e.
Proof.
  intros Hlinks Hactive.
  induction Hlinks as [|x l Hx _ IH]; cbn [app List.find].
  - now rewrite String.eqb_refl, Hactive.
  - apply String.eqb_neq in Hx. now rewrite Hx.
Qed.

Lemma exam_questions_appended db' exam old rows :
  db_questions db' = old ++ rows ->
  Forall (fun q => q_examId q <> e_id exam) old ->
  Forall (fun q => q_examId q = e_id exam) rows ->
  Sorted order_le rows -> NoDup (map q_order rows) ->
  exam_questions db' exam = rows.
Proof.
  intros Hqs Hold Hnew Hsorted Hnd. unfold exam_questions, questions_of.
  rewrite Hqs, List.filter_app, filter_none, filter_all, app_nil_l.
  - now apply merge_sort_sorted.
  - eapply Forall_impl; [exact Hnew|]. intros q ->. apply String.eqb_refl.
  - eapply Forall_impl; [exact Hold|]. intros q Hq. now apply String.eqb_neq.
Qed.

(** X11: a newly created exam is open under its share link and its
    questions are walked in the order in which the tutor entered them.  On a
    store where the generated key and share link are not yet in use, after a
    201 reply the share link names the new exam, the questions that a
    submission is graded against are the created rows in entry order, and the
    records that grading emits follow that order. *)
Theorem created_exam_is_graded_in_entry_order (req : ExamRequest) (db : DB) :
  fst (post_exam req db) = 201 ->
  Forall (fun q => q_examId q <> fresh_id (db_nextId db)) (db_questions db) ->
  Forall (fun e => e_shareLink e <> "s" +:+ pretty (db_nextId db))
    (db_exams db) ->
  let db' := snd (post_exam req db) in
  exists newExam rows,
    find_exam_by_shareLink db' ("s" +:+ pretty (db_nextId db)) = Some newExam /\
    db_questions db' = db_questions db ++ rows /\
    exam_questions db' newExam = rows /\
    forall answers,
      map p_questionId (processedAnswers (grade (exam_questions db' newExam)
                                            answers))
      = map q_id (List.filter (answered answers) rows).
Proof.
  unfold post_exam. intros Hcode Hkeys Hlinks. cbv zeta.
  set (req' := examValidation req) in *.
  destruct (createExam_outcome req' db)
    as [(Hc & _)|[(Hc & _)|(_ & _ & _ & rows & Hrows & Hdb)]];
    [congruence | congruence |].
  rewrite Hdb. clear Hdb Hcode.
  destruct (created_rows_shape _ _ _ _ _ Hrows) as (Hrel & Hord & _).
  pose (newExam :=
          {| e_id := fresh_id (db_nextId db);
             e_title := xr_title req';
             e_description := xr_description req';
             e_timeLimit := xr_timeLimit req';
             e_shareLink := "s" +:+ pretty (db_nextId db);
             e_isActive := true;
             e_authorId := xr_userId req' |}).
  exists newExam, rows.
  split.
  { exact (find_appended_exam (db_exams db) newExam Hlinks eq_refl). }
  split; [reflexivity|].
  assert (Hqs : forall db',
             db_questions db' = db_questions db ++ rows ->
             exam_questions db' newExam = rows).
  { intros db' Hdb'.
    apply (exam_questions_appended db' newExam (db_questions db) rows Hdb').
    - exact Hkeys.
    - clear -Hrel. induction Hrel as [|q row l l' Hq _ IH]; constructor; auto.
      now destruct Hq as (_ & _ & _ & _ & _ & ->).
    - apply Sorted_by_order. rewrite Hord. apply orders_from_sorted.
    - rewrite Hord. apply orders_from_sorted. }
  split; [now apply Hqs|].
  intros answers. rewrite Hqs by reflexivity.
  apply (grade_loop_processed_ids answers rows grade_init).
Qed.

Lemma created_exam_is_graded_in_entry_order_witness :
  fst (post_exam first_exam_request empty_db) = 201 /\
  exists newExam rows,
    find_exam_by_shareLink (snd (post_exam first_exam_request empty_db)) "s0"
    = Some newExam /\
    exam_questions (snd (post_exam first_exam_request empty_db)) newExam
    = rows /\
    map q_order rows = [1; 2].
Proof.
  split; [reflexivity|].
  destruct (created_exam_is_graded_in_entry_order first_exam_request empty_db
              eq_refl (Forall_nil_2 _) (Forall_nil_2 _))
    as (newExam & rows & Hfind & _ & Hqs & _).
  exists newExam, rows. split; [exact Hfind|]. split; [exact Hqs|].
  change (find_exam_by_shareLink (snd (post_exam first_exam_request empty_db))
            "s0" = Some newExam) in Hfind.
  vm_compute in Hfind. injection Hfind as <-.
  rewrite <- Hqs. reflexivity.
Defined.

(** ** The public view of an exam and the exam page *)

Lemma public_question_id q :
  json_string (get_field "id" (public_question_json q)) = q_id q.
Proof. reflexivity. Qed.

Lemma public_question_fields q :
  field_names (public_question_json q)
  = ["id"; "type"; "question"; "options"; "points"; "order"] /\
  get_field "correctAnswer" (public_question_json q) = None.
Proof. split; reflexivity. Qed.

(** X12: the exam that a student is shown never carries a correct answer.
    getPublicExam replies 200 exactly when the share link names an active
    exam, and 404 otherwise; each element of the questions array it sends has
    the fields id, type, question, options, points and order and no
    correctAnswer field; the array lists the questions of the exam in
    ascending order of their order column. *)
Theorem public_exam_hides_correct_answers (shareLink : string) (db : DB) :
  let reply := getPublicExam shareLink db in
  (pe_status reply = 200 <-> is_Some (find_exam_by_shareLink db shareLink)) /\
  (pe_status reply = 404 <-> find_exam_by_shareLink db shareLink = None) /\
  (pe_status reply = 200 ->
   exists exam,
     In exam (db_exams db) /\ e_shareLink exam = shareLink /\
     e_isActive exam = true /\
     map (fun question => json_string (get_field "id" question))
       (pe_questions reply)
     = map q_id (exam_questions db exam) /\
     Sorted order_le (exam_questions db exam)) /\
  Forall
    (fun question =>
       field_names question
       = ["id"; "type"; "question"; "options"; "points"; "order"] /\
       get_field "correctAnswer" question = None)
    (pe_questions reply).
Proof.
  unfold getPublicExam. cbv zeta.
  destruct (find_exam_by_shareLink db shareLink) as [exam|] eqn:Hexam;
    cbn [pe_status pe_questions].
  - split; [split; eauto|]. split; [split; discriminate|]. split.
    + intros _. exists exam.
      unfold find_exam_by_shareLink in Hexam.
      apply find_some in Hexam as [Hin Hok].
      apply andb_true_iff in Hok as [Hlink Hactive].
      apply String.eqb_eq in Hlink.
      split; [exact Hin|]. split; [exact Hlink|]. split; [exact Hactive|].
      split; [|apply exam_questions_Sorted].
      rewrite map_map. apply map_ext. intros q. apply public_question_id.
    + apply Forall_forall. intros question Hin.
      apply list_elem_of_In, in_map_iff in Hin as [q [<- _]].
      apply public_question_fields.
  - split; [split; [discriminate | intros [x Hx]; discriminate]|].
    split; [split; reflexivity|]. split; [discriminate | constructor].
Qed.

(** X13: a submission made from the exam page is all or nothing.  The page
    posts one answer for each question of the exam it fetched, the empty
    string standing for a question left blank, and the endpoint refuses the
    whole submission (400, nothing stored) as soon as one question is left
    blank or holds white space only.  It is accepted exactly when the exam
    has a question, every question has a key and a text that is not blank,
    the name typed, if any, passes its check, and the address typed, if any,
    passes isEmail and is not one that normalizeEmail answers with false;
    then every question of the exam gets its record. *)
Theorem exam_page_submission `{EmailValidator}
  (shareLink : string) (answers : gmap string string) (db : DB) (exam : Exam) :
  shareLink <> "" ->
  find_exam_by_shareLink db shareLink = Some exam ->
  let questions := exam_questions db exam in
  let req :=
    submitExam shareLink (pe_questions (getPublicExam shareLink db)) answers in
  (status (fst (post_submit req db)) = 201 <->
   (forall n, answers !! "studentName" = Some n ->
              (1 <= String.length (trim n))%nat /\
              (String.length (trim n) <= 100)%nat) /\
   (forall e, answers !! "studentEmail" = Some e ->
              isEmail e = true /\ is_Some (normalizeEmail e)) /\
   questions <> [] /\
   Forall (fun q => q_id q <> "" /\
                    trim (default "" (answers !! q_id q)) <> "") questions) /\
  (Exists (fun q => trim (default "" (answers !! q_id q)) = "") questions ->
   status (fst (post_submit req db)) = 400 /\
   snd (post_submit req db) = db) /\
  (status (fst (post_submit req db)) = 201 ->
   map p_questionId
     (processedAnswers
        (grade questions (map sanitize_answer (sr_answers req))))
   = map q_id questions).
Proof.
  intros Hlink Hexam questions req.
  assert (Hanswers :
            sr_answers req
            = map (fun q => {| questionId := q_id q;
                               answer := default "" (answers !! q_id q) |})
                questions).
  { subst req questions. unfold submitExam, getPublicExam. rewrite Hexam.
    cbn [sr_answers pe_questions]. rewrite map_map. reflexivity. }
  assert (Hfresh : sr_errors req = []) by reflexivity.
  pose proof (validation_passes_iff req Hfresh) as Hpass.
  assert (Htyped :
            (forall f, sr_studentEmail req = Some f ->
                       isEmail (toString f) = true) <->
            (forall e, answers !! "studentEmail" = Some e ->
                       isEmail e = true)).
  { change (sr_studentEmail req)
      with (EmailText <$> answers !! "studentEmail").
    destruct (answers !! "studentEmail") as [e|]; cbn; split.
    - intros He ? [= <-]. now apply (He (EmailText e)).
    - intros He ? [= <-]. now apply He.
    - discriminate.
    - discriminate. }
  assert (Hshape :
            sr_errors (submitResponseValidation (shareLinkValidation req)) = []
            <->
            (forall n, answers !! "studentName" = Some n ->
                       (1 <= String.length (trim n))%nat /\
                       (String.length (trim n) <= 100)%nat) /\
            (forall e, answers !! "studentEmail" = Some e ->
                       isEmail e = true) /\
            questions <> [] /\
            Forall (fun q => q_id q <> "" /\
                             trim (default "" (answers !! q_id q)) <> "")
              questions).
  { rewrite Hpass, Htyped, Hanswers, Forall_map. cbn [questionId answer].
    change (sr_shareLink req) with shareLink.
    change (sr_studentName req) with (answers !! "studentName").
    assert (Hne : map (fun q => {| questionId := q_id q;
                                   answer := default "" (answers !! q_id q) |})
                    questions <> [] <-> questions <> []).
    { destruct questions; cbn; split; congruence. }
    rewrite Hne. tauto. }
  unfold post_submit.
  set (req' := submitResponseValidation (shareLinkValidation req)) in *.
  assert (Hexam' : find_exam_by_shareLink db (sr_shareLink req') = Some exam)
    by exact Hexam.
  assert (Hfalse : sr_studentEmail req' = Some EmailFalse <->
                   exists e, answers !! "studentEmail" = Some e /\
                             normalizeEmail e = None).
  { subst req'.
    cbn [submitResponseValidation shareLinkValidation sr_studentEmail].
    rewrite sanitize_email_False.
    change (sr_studentEmail req)
      with (EmailText <$> answers !! "studentEmail").
    destruct (answers !! "studentEmail") as [e|]; cbn; split.
    - intros (f & [= <-] & Hn). eauto.
    - intros (e' & [= <-] & Hn). eauto.
    - now intros (f & Hf & _).
    - now intros (e' & He' & _). }
  split; [|split].
  - split.
    + intros Hcreated.
      destruct (submitResponse_outcome req' db)
        as [(Hc & _)|[(Hc & _)|[(Hc & _)|(_ & Hvalid & _ & Hmail)]]];
        [congruence | congruence | congruence |].
      apply Hshape in Hvalid as (Hn & He & Hq & Hall).
      split; [exact Hn|]. split; [|now split].
      intros e Hin. split; [now apply He|].
      destruct (normalizeEmail e) eqn:Hnone; [eauto|].
      destruct Hmail. apply Hfalse. eauto.
    + intros (Hn & He & Hq & Hall).
      assert (Hmail : is_Some (email_column (sr_studentEmail req'))).
      { apply email_column_Some. intros Hf.
        apply Hfalse in Hf as (e & Hin & Hnone).
        destruct (He e Hin) as [_ [t Ht]]. congruence. }
      destruct Hmail as [mail Hmail].
      apply (submitResponse_status req' db exam mail);
        [|exact Hexam' | exact Hmail].
      apply Hshape. split; [exact Hn|]. split; [|now split].
      intros e Hin. now apply He.
  - intros Hblank.
    assert (Hinvalid :
              sr_errors req' = [] -> False).
    { intros Hvalid. apply Hshape in Hvalid as (_ & _ & _ & Hall).
      apply Exists_exists in Hblank as [q [Hin Hq]].
      rewrite Forall_forall in Hall. now destruct (Hall q Hin). }
    destruct (submitResponse_outcome req' db)
      as [(H400 & _ & Hdb)|[(_ & _ & Hnone & _)|
          [(_ & Hvalid & _)|(_ & Hvalid & _)]]].
    + now split.
    + congruence.
    + now destruct (Hinvalid Hvalid).
    + now destruct (Hinvalid Hvalid).
  - intros _.
    unfold grade. rewrite grade_loop_processed_ids.
    cbn [grade_init processedAnswers map app].
    rewrite filter_all; [reflexivity|].
    apply Forall_forall. intros q Hin. apply list_elem_of_In in Hin.
    rewrite Hanswers.
    unfold answered. apply existsb_exists.
    exists (sanitize_answer
              {| questionId := q_id q;
                 answer := default "" (answers !! q_id q) |}).
    split; [|apply String.eqb_refl].
    apply in_map. apply in_map_iff. exists q. now split.
Qed.

Lemma exam_page_submission_witness :
  "s1" <> "" /\
  find_exam_by_shareLink demo_db "s1" = Some demo_exam /\
  status
    (fst (@post_submit lax_email
            (submitExam "s1" (pe_questions (getPublicExam "s1" demo_db))
               {[ "q1" := "B" ]}) demo_db)) = 400.
Proof.
  split; [discriminate|]. split; [reflexivity|].
  apply (@exam_page_submission lax_email "s1" {[ "q1" := "B" ]} demo_db
           demo_exam ltac:(discriminate) eq_refl).
  apply Exists_exists. exists demo_q2. split.
  - apply list_elem_of_In. vm_compute. right. now left.
  - reflexivity.
Defined.

(** ** Updating and deleting an exam *)

Lemma updateExam_outcome req db :
  (fst (updateExam req db) = 400 /\ ux_errors req <> [] /\
   snd (updateExam req db) = db) \/
  (fst (updateExam req db) = 404 /\ ux_errors req = [] /\
   find_exam_of_author db (ux_id req) (ux_userId req) = None /\
   snd (updateExam req db) = db) \/
  (fst (updateExam req db) = 200 /\ ux_errors req = [] /\
   is_Some (find_exam_of_author db (ux_id req) (ux_userId req)) /\
   snd (updateExam req db)
   = {| db_exams :=
          map (fun e => if String.eqb (e_id e) (ux_id req)
                        then update_exam_row req e else e) (db_exams db);
        db_questions := db_questions db;
        db_responses := db_responses db;
        db_answers := db_answers db;
        db_nextId := db_nextId db;
        db_now := db_now db |}).
Proof.
  unfold updateExam.
  destruct (ux_errors req) as [|e errors]; [|left; now cbn].
  destruct (find_exam_of_author db (ux_id req) (ux_userId req)) as [exam|].
  - right; right. cbn. eauto.
  - right; left. now cbn.
Qed.

Lemma find_exam_of_author_Some db id user exam :
  find_exam_of_author db id user = Some exam ->
  In exam (db_exams db) /\ e_id exam = id /\ e_authorId exam = user.
Proof.
  unfold find_exam_of_author. intros H. apply find_some in H as [Hin Hok].
  apply andb_true_iff in Hok as [Hid Huser].
  apply String.eqb_eq in Hid, Huser. auto.
Qed.


Lemma find_exam_by_shareLink_None db link :
  find_exam_by_shareLink db link = None <->
  forall e, In e (db_exams db) -> e_shareLink e = link -> e_isActive e = false.
Proof.
  unfold find_exam_by_shareLink. split.
  - intros H e Hin Hlink. apply (find_none _ _ H) in Hin.
    apply andb_false_iff in Hin as [Hne|Hact]; [|exact Hact].
    apply String.eqb_neq in Hne. congruence.
  - intros H. destruct (List.find _ _) as [e|] eqn:Hf; [|reflexivity].
    apply find_some in Hf as [Hin Hok].
    apply andb_true_iff in Hok as [Hlink Hact].
    apply String.eqb_eq in Hlink. rewrite (H e Hin Hlink) in Hact.
    discriminate.
Qed.

(** X15: taking an exam out of service closes it.  When share links are
    unique, after an update that sets isActive to false on an exam, the public
    view of its share link is the 404 one and no submission to that share link
    is accepted or stored. *)
Theorem deactivated_exam_is_closed `{EmailValidator}
  (req : UpdateExamRequest) (db : DB) (exam : Exam) :
  fst (put_exam req db) = 200 ->
  ux_isActive req = Some false ->
  NoDup (map e_shareLink (db_exams db)) ->
  In exam (db_exams db) ->
  e_id exam = ux_id req ->
  let db' := snd (put_exam req db) in
  pe_status (getPublicExam (e_shareLink exam) db') = 404 /\
  forall submission,
    sr_shareLink submission = e_shareLink exam ->
    status (fst (post_submit submission db')) <> 201 /\
    snd (post_submit submission db') = db'.
Proof.
  unfold put_exam. intros Hcode Hoff Hlinks Hin Hid. cbv zeta.
  set (req' := updateExamValidation req) in *.
  destruct (updateExam_outcome req' db)
    as [(Hc & _)|[(Hc & _)|(_ & _ & _ & Hdb)]]; [congruence | congruence |].
  rewrite Hdb. clear Hdb Hcode.
  set (db' := {| db_exams := _ |}).
  assert (Hclosed : find_exam_by_shareLink db' (e_shareLink exam) = None).
  { apply find_exam_by_shareLink_None. intros e' He' Hlink'.
    subst db'. cbn [db_exams] in He'.
    apply in_map_iff in He' as [e [<- He]].
    assert (Hlink : e_shareLink e = e_shareLink exam).
    { rewrite <- Hlink'. now destruct (String.eqb (e_id e) (ux_id req')). }
    assert (e = exam) as ->
      by (apply (NoDup_map_eq e_shareLink (db_exams db)); auto).
    change (ux_id req') with (ux_id req). rewrite Hid, String.eqb_refl.
    cbn. change (ux_isActive req') with (ux_isActive req). now rewrite Hoff. }
  split.
  - unfold getPublicExam. now rewrite Hclosed.
  - intros submission Hlink. unfold post_submit.
    set (submission' :=
           submitResponseValidation (shareLinkValidation submission)).
    destruct (submitResponse_outcome submission' db')
      as [(H400 & _ & Hsame)|[(H404 & _ & _ & Hsame)|
          [(H500 & _ & _ & _ & Hsame)|(_ & _ & [e He] & _)]]].
    + split; [congruence | exact Hsame].
    + split; [congruence | exact Hsame].
    + split; [congruence | exact Hsame].
    + change (sr_shareLink submission') with (sr_shareLink submission) in He.
      rewrite Hlink, Hclosed in He. discriminate.
Qed.

Lemma deactivated_exam_is_closed_witness :
  fst (put_exam close_demo_exam demo_db) = 200 /\
  NoDup (map e_shareLink (db_exams demo_db)) /\
  In demo_exam (db_exams demo_db) /\
  pe_status (getPublicExam "s1" (snd (put_exam close_demo_exam demo_db)))
  = 404.
Proof.
  assert (Hnd : NoDup (map e_shareLink (db_exams demo_db)))
    by apply NoDup_singleton.
  assert (Hin : In demo_exam (db_exams demo_db)) by now left.
  split; [reflexivity|]. split; [exact Hnd|]. split; [exact Hin|].
  exact (proj1 (@deactivated_exam_is_closed lax_email close_demo_exam demo_db
                  demo_exam eq_refl eq_refl Hnd Hin eq_refl)).
Defined.

Lemma deleteExam_outcome req db :
  (fst (deleteExam req db) = 404 /\
   find_exam_of_author db (dx_id req) (dx_userId req) = None /\
   snd (deleteExam req db) = db) \/
  (fst (deleteExam req db) = 200 /\
   is_Some (find_exam_of_author db (dx_id req) (dx_userId req)) /\
   snd (deleteExam req db)
   = {| db_exams :=
          List.filter (fun e => negb (String.eqb (e_id e) (dx_id req)))
            (db_exams db);
        db_questions :=
          List.filter (fun q => negb (String.eqb (q_examId q) (dx_id req)))
            (db_questions db);
        db_responses :=
          filter (fun kr => r_examId (snd kr) <> dx_id req) (db_responses db);
        db_answers :=
          List.filter (answer_survives db (dx_id req)) (db_answers db);
        db_nextId := db_nextId db;
        db_now := db_now db |}).
Proof.
  unfold deleteExam.
  destruct (find_exam_of_author db (dx_id req) (dx_userId req)) as [exam|].
  - right. cbn. eauto.
  - left. now cbn.
Qed.

Lemma negb_eqb_true (a b : string) : negb (String.eqb a b) = true <-> a <> b.
Proof. rewrite negb_true_iff. apply String.eqb_neq. Qed.

Lemma answer_survives_iff db examId a :
  answer_survives db examId a = true <->
  (forall q, In q (db_questions db) -> q_id q = a_questionId a ->
             q_examId q <> examId) /\
  (forall r, db_responses db !! a_responseId a = Some r ->
             r_examId r <> examId).
Proof.
  unfold answer_survives. rewrite andb_true_iff, negb_true_iff.
  rewrite <- not_true_iff_false, existsb_exists.
  split.
  - intros [Hq Hr]. split.
    + intros q Hin Hid Hexam. apply Hq. exists q. split; [exact Hin|].
      apply andb_true_iff. split; now apply String.eqb_eq.
    + intros r Hlookup. rewrite Hlookup in Hr. now apply negb_eqb_true.
  - intros [Hq Hr]. split.
    + intros [q [Hin Hok]]. apply andb_true_iff in Hok as [Hid Hexam].
      apply String.eqb_eq in Hid, Hexam. now apply (Hq q Hin Hid).
    + destruct (db_responses db !! a_responseId a) as [r|]; [|reflexivity].
      apply negb_eqb_true. now apply Hr.
Qed.

(** X16: deleting an exam is reserved to its author and takes with the exam
    everything that hangs on it, and nothing else.  The reply is 404, with the
    store left as it was, when no exam with that key belongs to the acting
    user, and 200 otherwise.  After a 200 no exam, question or response of
    that key is left; the exams, questions and responses of other exams are
    all still there, unchanged; and an answer row is kept exactly when it is
    the answer to no question of the deleted exam and belongs to no response
    of the deleted exam. *)
Theorem exam_deletion_cascades (req : DeleteExamRequest) (db : DB) :
  let code := fst (deleteExam req db) in
  let db' := snd (deleteExam req db) in
  (code = 404 \/ code = 200) /\
  (code = 404 <->
   find_exam_of_author db (dx_id req) (dx_userId req) = None) /\
  (code = 404 -> db' = db) /\
  (code = 200 ->
   (forall e, In e (db_exams db') <->
              In e (db_exams db) /\ e_id e <> dx_id req) /\
   (forall q, In q (db_questions db') <->
              In q (db_questions db) /\ q_examId q <> dx_id req) /\
   (forall k r, db_responses db' !! k = Some r <->
                db_responses db !! k = Some r /\ r_examId r <> dx_id req) /\
   (forall a, In a (db_answers db') <->
              In a (db_answers db) /\
              (forall q, In q (db_questions db) ->
                         q_id q = a_questionId a ->
                         q_examId q <> dx_id req) /\
              (forall r, db_responses db !! a_responseId a = Some r ->
                         r_examId r <> dx_id req))).
Proof.
  cbv zeta.
  destruct (deleteExam_outcome req db)
    as [(Hc & Hnone & Hdb)|(Hc & [exam Hexam] & Hdb)]; rewrite Hc, Hdb.
  - split; [now left|]. split; [tauto|]. split; [reflexivity | discriminate].
  - cbn [db_exams db_questions db_responses db_answers].
    split; [now right|].
    split; [split; [discriminate | rewrite Hexam; discriminate]|].
    split; [discriminate|]. intros _.
    split; [intros e; now rewrite filter_In, negb_eqb_true|].
    split; [intros q; now rewrite filter_In, negb_eqb_true|].
    split; [intros k r; apply map_lookup_filter_Some|].
    intros a. now rewrite filter_In, answer_survives_iff.
Qed.

(** ** References between the tables *)

Lemma references_same_tables db db' :
  db_exams db' = db_exams db -> db_questions db' = db_questions db ->
  db_responses db' = db_responses db -> db_answers db' = db_answers db ->
  references_ok db -> references_ok db'.
Proof.
  unfold references_ok, has_exam, has_question.
  intros -> -> -> ->. tauto.
Qed.

Lemma post_exam_references req db :
  references_ok db -> references_ok (snd (post_exam req db)).
Proof.
  intros Hok. unfold post_exam.
  destruct (createExam_outcome (examValidation req) db)
    as [(_ & _ & Hdb)|[(_ & _ & _ & Hdb)|(_ & _ & _ & rows & Hrows & Hdb)]];
    rewrite Hdb; [exact Hok | exact Hok |].
  destruct (created_rows_shape _ _ _ _ _ Hrows) as (Hrel & _ & _).
  destruct Hok as (Hq & Hr & Ha).
  unfold references_ok, has_exam, has_question.
  cbn [db_exams db_questions db_responses db_answers].
  split; [|split].
  - intros q Hin. apply in_app_or in Hin as [Hin|Hin].
    + destruct (Hq q Hin) as [e [He Hid]]. exists e.
      split; [apply in_or_app; now left | exact Hid].
    + eexists. split; [apply in_or_app; right; now left|]. cbn.
      clear -Hrel Hin. induction Hrel as [|x row l l' Hx _ IH];
        [contradiction|].
      destruct Hin as [<-|Hin]; [|now apply IH].
      now destruct Hx as (_ & _ & _ & _ & _ & ->).
  - intros k r Hk. destruct (Hr k r Hk) as [e [He Hid]]. exists e.
    split; [apply in_or_app; now left | exact Hid].
  - intros a Hin. destruct (Ha a Hin) as [[q [Hq' Hid]] Hresp].
    split; [|exact Hresp]. exists q.
    split; [apply in_or_app; now left | exact Hid].
Qed.

Lemma find_exam_by_shareLink_In db link exam :
  find_exam_by_shareLink db link = Some exam -> In exam (db_exams db).
Proof.
  unfold find_exam_by_shareLink. intros H. now apply find_some in H.
Qed.

Lemma submitResponse_references req db :
  references_ok db -> references_ok (snd (submitResponse req db)).
Proof.
  intros Hok.
  destruct (submitResponse_outcome req db)
    as [(_ & _ & Hdb)|[(_ & _ & _ & Hdb)|
        [(_ & _ & _ & _ & Hdb)|(_ & Hvalid & [exam Hexam] & Hmail)]]];
    [now rewrite Hdb | now rewrite Hdb | now rewrite Hdb |].
  apply email_column_Some in Hmail as [mail Hmail].
  destruct (submitResponse_frame req db) as (Hexams & Hquestions & _ & Hother).
  pose proof (submitResponse_rows req db exam mail Hvalid Hexam Hmail)
    as Hrows.
  pose proof (submitResponse_stored req db exam mail Hvalid Hexam Hmail)
    as Hstored.
  destruct Hok as (Hq & Hr & Ha).
  unfold references_ok, has_exam, has_question.
  rewrite Hexams, Hquestions.
  split; [exact Hq|]. split.
  - intros k r Hk.
    destruct (decide (k = fresh_id (db_nextId db))) as [->|Hne].
    + rewrite Hstored in Hk. injection Hk as <-. cbn [r_examId].
      exists exam. split; [|reflexivity].
      now apply (find_exam_by_shareLink_In db (sr_shareLink req)).
    + rewrite Hother in Hk by exact Hne. now apply (Hr k r).
  - intros a Hin. rewrite Hrows in Hin. apply in_app_or in Hin as [Hin|Hin].
    + destruct (Ha a Hin) as [Hquest [r Hresp]]. split; [exact Hquest|].
      destruct (decide (a_responseId a = fresh_id (db_nextId db))) as [Heq|Hne].
      * rewrite Heq, Hstored. eauto.
      * rewrite Hother by exact Hne. eauto.
    + split.
      * apply (in_map a_questionId) in Hin.
        rewrite createMany_questionId in Hin. unfold answersData in Hin.
        rewrite map_map in Hin. cbn in Hin.
        change (map (fun x => p_questionId x) ?l) with (map p_questionId l)
          in Hin.
        unfold grade in Hin. rewrite grade_loop_processed_ids in Hin.
        cbn [grade_init processedAnswers map app] in Hin.
        apply in_map_iff in Hin as [q [Hid Hq']].
        apply filter_In in Hq' as [Hq' _].
        exists q. split; [|exact Hid].
        apply list_elem_of_In in Hq'.
        rewrite exam_questions_Permutation in Hq'.
        apply list_elem_of_In in Hq'. unfold questions_of in Hq'.
        now apply filter_In in Hq'.
      * apply (in_map a_responseId) in Hin.
        rewrite createMany_responseId in Hin. unfold answersData in Hin.
        rewrite map_map in Hin. cbn in Hin.
        apply in_map_iff in Hin as [p [Hp _]].
        rewrite <- Hp, Hstored. eauto.
Qed.

Lemma updateResponseScore_references req db :
  references_ok db -> references_ok (snd (updateResponseScore req db)).
Proof.
  intros Hok. unfold updateResponseScore.
  destruct (db_responses db !! ur_responseId req) as [response|] eqn:Hresp;
    [|exact Hok].
  destruct (find_exam_by_id db (r_examId response)) as [exam|]; [|exact Hok].
  destruct (negb _); [exact Hok|].
  destruct Hok as (Hq & Hr & Ha).
  unfold references_ok, has_exam, has_question.
  cbn [snd db_exams db_questions db_responses db_answers].
  split; [exact Hq|]. split.
  - intros k r Hk.
    destruct (decide (k = ur_responseId req)) as [->|Hne].
    + rewrite lookup_insert_eq in Hk. injection Hk as <-.
      cbn [set_score r_examId]. now apply (Hr _ _ Hresp).
    + rewrite lookup_insert_ne in Hk by congruence. now apply (Hr k r).
  - intros a Hin. destruct (Ha a Hin) as [Hquest Hsome].
    split; [exact Hquest|]. apply lookup_insert_is_Some.
    destruct (decide (ur_responseId req = a_responseId a)); auto.
Qed.

Lemma updateExam_references req db :
  references_ok db -> references_ok (snd (updateExam req db)).
Proof.
  intros Hok.
  destruct (updateExam_outcome req db)
    as [(_ & _ & Hdb)|[(_ & _ & _ & Hdb)|(_ & _ & _ & Hdb)]];
    rewrite Hdb; [exact Hok | exact Hok |].
  assert (Hkeep : forall id, has_exam db id ->
             exists e,
               In e (map (fun e => if String.eqb (e_id e) (ux_id req)
                                   then update_exam_row req e else e)
                       (db_exams db)) /\ e_id e = id).
  { intros id [e [He Hid]]. eexists. split; [apply in_map; exact He|].
    now destruct (String.eqb (e_id e) (ux_id req)). }
  destruct Hok as (Hq & Hr & Ha).
  unfold references_ok, has_exam, has_question.
  cbn [db_exams db_questions db_responses db_answers].
  split; [intros q Hin; now apply Hkeep, Hq|].
  split; [intros k r Hk; now apply Hkeep, (Hr k r)|].
  exact Ha.
Qed.

Lemma deleteExam_references req db :
  references_ok db -> references_ok (snd (deleteExam req db)).
Proof.
  intros Hok.
  destruct (deleteExam_outcome req db) as [(_ & _ & Hdb)|(_ & _ & Hdb)];
    rewrite Hdb; [exact Hok|].
  destruct Hok as (Hq & Hr & Ha).
  assert (Hkeep : forall id, id <> dx_id req -> has_exam db id ->
             exists e,
               In e (List.filter
                       (fun e => negb (String.eqb (e_id e) (dx_id req)))
                       (db_exams db)) /\ e_id e = id).
  { intros id Hne [e [He Hid]]. exists e. split; [|exact Hid].
    apply filter_In. split; [exact He|]. apply negb_eqb_true. congruence. }
  unfold references_ok, has_exam, has_question.
  cbn [db_exams db_questions db_responses db_answers].
  split; [|split].
  - intros q Hin. apply filter_In in Hin as [Hin Hne].
    apply negb_eqb_true in Hne. apply Hkeep; [exact Hne | now apply Hq].
  - intros k r Hk. apply map_lookup_filter_Some in Hk as [Hk Hne].
    apply Hkeep; [exact Hne | now apply (Hr k r)].
  - intros a Hin. apply filter_In in Hin as [Hin Hs].
    apply answer_survives_iff in Hs as [Hsq Hsr].
    destruct (Ha a Hin) as [[q [Hq' Hid]] [r Hresp]]. split.
    + exists q. split; [|exact Hid]. apply filter_In. split; [exact Hq'|].
      apply negb_eqb_true. now apply Hsq.
    + exists r. apply map_lookup_filter_Some. split; [exact Hresp|].
      now apply Hsr.
Qed.

(** X17: no handler leaves a dangling reference.  On a store where every
    question and response points to an existing exam and every answer to an
    existing question and an existing response, creating an exam, submitting
    a response, overriding a score, updating an exam and deleting an exam
    each leave a store with the same property, whatever the request and
    whatever the reply. *)
Theorem handlers_keep_references `{EmailValidator} (db : DB) :
  references_ok db ->
  (forall req, references_ok (snd (post_exam req db))) /\
  (forall req, references_ok (snd (post_submit req db))) /\
  (forall req, references_ok (snd (put_score req db))) /\
  (forall req, references_ok (snd (put_exam req db))) /\
  (forall req, references_ok (snd (deleteExam req db))).
Proof.
  intros Hok.
  split; [intros req; now apply post_exam_references|].
  split; [intros req; now apply submitResponse_references|].
  split; [intros req; now apply updateResponseScore_references|].
  split; [intros req; now apply updateExam_references|].
  intros req. now apply deleteExam_references.
Qed.

Lemma handlers_keep_references_witness :
  references_ok empty_db /\
  references_ok (snd (post_exam first_exam_request empty_db)).
Proof.
  assert (H : references_ok empty_db).
  { split; [intros q []|]. split; [intros k r Hk; discriminate | intros a []]. }
  split; [exact H|].
  exact (proj1 (@handlers_keep_references lax_email empty_db H)
           first_exam_request).
Defined.

(** ** Listing the responses of an exam *)

#[global] Instance newer_first_total : Total newer_first.
Proof. intros a b. unfold newer_first. apply String.leb_total. Qed.

Lemma In_firstn {A} n (l : list A) x : In x (firstn n l) -> In x l.
Proof.
  revert l. induction n as [|n IH]; intros [|y l]; cbn; try contradiction.
  intros [->|H]; [now left | right; now apply IH].
Qed.

Lemma In_skipn {A} n (l : list A) x : In x (skipn n l) -> In x l.
Proof.
  revert l. induction n as [|n IH]; intros [|y l]; cbn; auto.
Qed.

Lemma In_paginate {A} skip take (l l' : list A) x :
  paginate skip take l = Some l' -> In x l' -> In x l.
Proof.
  unfold paginate. destruct (skip <? 0); [discriminate|].
  destruct (0 <=? take); intros [= <-] Hin.
  - now apply In_firstn, In_skipn in Hin.
  - apply in_rev in Hin. apply In_firstn, In_skipn in Hin.
    now apply in_rev.
Qed.

Lemma In_responses_of db examId k r :
  In (k, r) (responses_of db examId) <->
  db_responses db !! k = Some r /\ r_examId r = examId.
Proof.
  unfold responses_of. rewrite <- list_elem_of_In.
  rewrite (merge_sort_Permutation newer_first).
  rewrite list_elem_of_In, filter_In, <- list_elem_of_In.
  rewrite elem_of_map_to_list. cbn. now rewrite String.eqb_eq.
Qed.

Lemma getExamResponses_cases req db :
  (find_exam_of_author db (gr_examId req) (gr_userId req) = None /\
   getExamResponses req db = failure 404 "Exam not found") \/
  (is_Some (find_exam_of_author db (gr_examId req) (gr_userId req)) /\
   getExamResponses req db = failure 500 "Internal server error") \/
  (is_Some (find_exam_of_author db (gr_examId req) (gr_userId req)) /\
   exists page limit responses,
     query_number (gr_page req) 1 = Some page /\
     query_number (gr_limit req) 10 = Some limit /\
     paginate ((page - 1) * limit) limit (responses_of db (gr_examId req))
     = Some responses /\
     status (getExamResponses req db) = 200 /\
     returned_responses (getExamResponses req db)
     = map (fun kr => response_json true db (fst kr) (snd kr)) responses /\
     (data_field "pagination" (getExamResponses req db) ≫= get_field "total")
     = Some (JInt (Z.of_nat (length (responses_of db (gr_examId req)))))).
Proof.
  unfold getExamResponses.
  destruct (find_exam_of_author db (gr_examId req) (gr_userId req)) as [exam|];
    [|now left].
  right.
  destruct (query_number (gr_page req) 1) as [page|]; [|left; eauto].
  destruct (query_number (gr_limit req) 10) as [limit|]; [|left; eauto].
  destruct (paginate _ _ _) as [responses|] eqn:Hpage; [|left; eauto].
  right. split; [eauto|]. exists page, limit, responses.
  repeat split; auto.
Qed.

(** X18: the listing of an exam's responses is for its author and shows that
    exam only.  The reply is 404 exactly when no exam with that key belongs
    to the acting user, whatever the query; and every element of the
    responses array of a reply is a stored response of the exam asked for. *)
Theorem responses_listing_is_scoped (req : ResponsesRequest) (db : DB) :
  let res := getExamResponses req db in
  (status res = 404 <->
   find_exam_of_author db (gr_examId req) (gr_userId req) = None) /\
  (status res = 200 \/ status res = 404 \/ status res = 500) /\
  (status res = 200 ->
   exists exam,
     In exam (db_exams db) /\ e_id exam = gr_examId req /\
     e_authorId exam = gr_userId req) /\
  Forall
    (fun element =>
       exists k r,
         db_responses db !! k = Some r /\ r_examId r = gr_examId req /\
         element = response_json true db k r)
    (returned_responses res).
Proof.
  cbv zeta.
  destruct (getExamResponses_cases req db)
    as [[Hnone ->]|[[[exam Hexam] ->]|
        [[exam Hexam] (page & limit & responses & _ & _ & Hpage & Hst & Hret & _)]]].
  - split; [tauto|]. split; [right; now left|]. split; [discriminate|].
    constructor.
  - split; [split; [discriminate | rewrite Hexam; discriminate]|].
    split; [right; now right|]. split; [discriminate | constructor].
  - rewrite Hst, Hret.
    split; [split; [discriminate | rewrite Hexam; discriminate]|].
    split; [now left|].
    split; [intros _; exists exam; now apply find_exam_of_author_Some|].
    apply Forall_forall. intros element Hin.
    apply list_elem_of_In, in_map_iff in Hin as [[k r] [<- Hin]].
    apply (In_paginate _ _ _ _ _ Hpage) in Hin.
    apply In_responses_of in Hin as [Hk Hid].
    exists k, r. now repeat split.
Qed.

Lemma paginate_page {A} (p l : Z) (xs : list A) :
  1 <= p -> 1 <= l ->
  paginate ((p - 1) * l) l xs
  = Some (firstn (Z.to_nat l) (skipn (Z.to_nat (p - 1) * Z.to_nat l) xs)).
Proof.
  intros Hp Hl. unfold paginate.
  assert (Hskip : ((p - 1) * l <? 0) = false) by (apply Z.ltb_ge; nia).
  assert (Htake : (0 <=? l) = true) by (apply Z.leb_le; lia).
  rewrite Hskip, Htake. do 3 f_equal.
  rewrite Z2Nat.inj_mul by lia. reflexivity.
Qed.

Lemma getExamResponses_page (req : ResponsesRequest) (db : DB) (p l : Z) :
  is_Some (find_exam_of_author db (gr_examId req) (gr_userId req)) ->
  query_number (gr_page req) 1 = Some p ->
  query_number (gr_limit req) 10 = Some l ->
  1 <= p -> 1 <= l ->
  status (getExamResponses req db) = 200 /\
  returned_responses (getExamResponses req db)
  = map (fun kr => response_json true db (fst kr) (snd kr))
      (firstn (Z.to_nat l)
         (skipn (Z.to_nat (p - 1) * Z.to_nat l)
            (responses_of db (gr_examId req)))) /\
  (data_field "pagination" (getExamResponses req db) ≫= get_field "total")
  = Some (JInt (Z.of_nat (length (responses_of db (gr_examId req))))).
Proof.
  intros [exam Hexam] Hp Hl Hp1 Hl1.
  destruct (getExamResponses_cases req db)
    as [[Hnone _]|[[_ Hfail]|
        [_ (page & limit & responses & Hp' & Hl' & Hpage & Hst & Hret & Htot)]]].
  - congruence.
  - exfalso. unfold getExamResponses in Hfail.
    rewrite Hexam, Hp, Hl, (paginate_page p l _ Hp1 Hl1) in Hfail.
    discriminate.
  - rewrite Hp in Hp'. rewrite Hl in Hl'.
    injection Hp' as <-. injection Hl' as <-.
    rewrite (paginate_page p l _ Hp1 Hl1) in Hpage. injection Hpage as <-.
    now repeat split.
Qed.

(** X19: for a query whose page and limit read as integers p >= 1 and
    l >= 1, the listing replies 200 with page p of the exam's responses,
    newest first: the l responses that follow the first (p - 1) * l, or as
    many as are left.  It never returns more than l responses, and the total
    it reports is the number of responses of the exam. *)
Theorem responses_listing_page
  (req : ResponsesRequest) (db : DB) (p l : Z) :
  is_Some (find_exam_of_author db (gr_examId req) (gr_userId req)) ->
  query_number (gr_page req) 1 = Some p ->
  query_number (gr_limit req) 10 = Some l ->
  1 <= p -> 1 <= l ->
  let all := responses_of db (gr_examId req) in
  let res := getExamResponses req db in
  status res = 200 /\
  returned_responses res
  = map (fun kr => response_json true db (fst kr) (snd kr))
      (firstn (Z.to_nat l) (skipn (Z.to_nat (p - 1) * Z.to_nat l) all)) /\
  Z.of_nat (length (returned_responses res)) <= l /\
  Sorted newer_first all /\
  (data_field "pagination" res ≫= get_field "total")
  = Some (JInt (Z.of_nat (length all))).
Proof.
  intros Hexam Hp Hl Hp1 Hl1. cbv zeta.
  destruct (getExamResponses_page req db p l Hexam Hp Hl Hp1 Hl1)
    as (Hst & Hret & Htot).
  split; [exact Hst|]. split; [exact Hret|].
  split; [|split; [apply (Sorted_merge_sort newer_first) | exact Htot]].
  rewrite Hret, length_map, length_firstn. lia.
Qed.

Lemma responses_listing_page_witness :
  is_Some (find_exam_of_author demo_db_three "e1" "u1") /\
  query_number (gr_page second_page_request) 1 = Some 2 /\
  query_number (gr_limit second_page_request) 10 = Some 2 /\
  status (getExamResponses second_page_request demo_db_three) = 200 /\
  Z.of_nat (length (returned_responses
                      (getExamResponses second_page_request demo_db_three)))
  <= 2.
Proof.
  assert (H : is_Some (find_exam_of_author demo_db_three "e1" "u1"))
    by (now exists demo_exam).
  destruct (responses_listing_page second_page_request demo_db_three 2 2
              H eq_refl eq_refl ltac:(lia) ltac:(lia))
    as (Hst & _ & Hlen & _).
  split; [exact H|]. split; [reflexivity|]. split; [reflexivity|].
  split; [exact Hst | exact Hlen].
Defined.

Lemma blocks_cover {A} (l : nat) : forall (n : nat) (xs : list A),
  (length xs <= n * l)%nat ->
  flat_map (fun i => firstn l (skipn (i * l) xs)) (seq 0 n) = xs.
Proof.
  induction n as [|n IH]; intros xs Hlen.
  - destruct xs; [reflexivity | cbn in Hlen; lia].
  - cbn [seq flat_map]. rewrite <- seq_shift, flat_map_concat_map, map_map.
    rewrite <- flat_map_concat_map. cbn [Nat.mul skipn].
    rewrite (flat_map_ext _ (fun i => firstn l (skipn (i * l) (skipn l xs)))).
    + rewrite IH; [apply firstn_skipn|]. rewrite length_skipn. nia.
    + intros i. rewrite skipn_skipn. do 2 f_equal. lia.
Qed.

(** X20: the pages of the listing cover the responses of the exam, each
    once.  For a limit that reads as l >= 1 and queries whose page reads 1,
    2, ..., n, with n pages enough for all the responses, the responses
    arrays of the replies, put end to end, are the responses of the exam,
    newest first. *)
Theorem responses_pages_cover
  (db : DB) (examId user limit : string) (pages : list string) (l : Z)
  (n : nat) :
  is_Some (find_exam_of_author db examId user) ->
  parseInt limit = Some l -> 1 <= l ->
  Forall2 (fun page i => parseInt page = Some (Z.of_nat i + 1))
    pages (seq 0 n) ->
  (length (responses_of db examId) <= n * Z.to_nat l)%nat ->
  flat_map
    (fun page =>
       returned_responses
         (getExamResponses
            {| gr_examId := examId; gr_page := Some page;
               gr_limit := Some limit; gr_userId := user |} db))
    pages
  = map (fun kr => response_json true db (fst kr) (snd kr))
      (responses_of db examId).
Proof.
  intros Hexam Hl Hl1 Hpages Hlen.
  rewrite <- (blocks_cover (Z.to_nat l) n (responses_of db examId) Hlen) at 1.
  induction Hpages as [|page i pages' is' Hpage _ IH]; [reflexivity|].
  cbn [flat_map]. rewrite map_app, IH. f_equal.
  pose proof (getExamResponses_page
                {| gr_examId := examId; gr_page := Some page;
                   gr_limit := Some limit; gr_userId := user |}
                db (Z.of_nat i + 1) l Hexam Hpage Hl ltac:(lia) Hl1)
    as (_ & Hret & _).
  cbn [gr_examId] in Hret. rewrite Hret.
  replace (Z.to_nat (Z.of_nat i + 1 - 1)) with i by lia. reflexivity.
Qed.

Lemma responses_pages_cover_witness :
  flat_map
    (fun page =>
       returned_responses
         (getExamResponses
            {| gr_examId := "e1"; gr_page := Some page;
               gr_limit := Some "2"; gr_userId := "u1" |} demo_db_three))
    ["1"; "2"]
  = map (fun kr => response_json true demo_db_three (fst kr) (snd kr))
      (responses_of demo_db_three "e1").
Proof.
  apply (responses_pages_cover demo_db_three "e1" "u1" "2" ["1"; "2"] 2 2).
  - now exists demo_exam.
  - reflexivity.
  - lia.
  - repeat constructor.
  - vm_compute. lia.
Defined.

(** ** Signing in with Google *)

Lemma same_account_refl u : same_account u u.
Proof. now repeat split. Qed.

Lemma same_account_link g a u : same_account u (link_google g a u).
Proof. now repeat split. Qed.

Lemma find_user_by_email_None st email :
  find_user_by_email st email = None ->
  forall u, In u (us_users st) -> u_email u <> email.
Proof.
  unfold find_user_by_email. intros H u Hin.
  apply String.eqb_neq. now apply (find_none _ _ H).
Qed.

Lemma find_user_by_googleId_None st g :
  find_user_by_googleId st g = None ->
  forall u, In u (us_users st) -> u_googleId u <> Some g.
Proof.
  unfold find_user_by_googleId. intros H u Hin Hg.
  apply (find_none _ _ H) in Hin. rewrite Hg, String.eqb_refl in Hin.
  discriminate.
Qed.

Lemma googleVerify_cases profile st :
  (exists user,
      find_user_by_googleId st (pf_id profile) = Some user /\
      googleVerify profile st = (Some user, st)) \/
  (find_user_by_googleId st (pf_id profile) = None /\
   googleVerify profile st = (None, st)) \/
  (exists email rest existingUser photos,
      find_user_by_googleId st (pf_id profile) = None /\
      pf_emails profile = Some (email :: rest) /\
      find_user_by_email st email = Some existingUser /\
      pf_photos profile = Some photos /\
      googleVerify profile st
      = (Some (link_google (pf_id profile) (head photos) existingUser),
         {| us_users :=
              map (fun u => if String.eqb (u_id u) (u_id existingUser)
                            then link_google (pf_id profile) (head photos) u
                            else u) (us_users st);
            us_nextId := us_nextId st |})) \/
  (exists email rest photos,
      find_user_by_googleId st (pf_id profile) = None /\
      pf_emails profile = Some (email :: rest) /\
      find_user_by_email st email = None /\
      pf_photos profile = Some photos /\
      googleVerify profile st
      = (Some {| u_id := fresh_id (us_nextId st);
                 u_email := email;
                 u_name := pf_displayName profile;
                 u_password := None;
                 u_role := "STUDENT";
                 u_isEmailVerified := true;
                 u_emailVerificationToken := None;
                 u_emailVerificationExpires := None;
                 u_googleId := Some (pf_id profile);
                 u_avatar := head photos;
                 u_provider := Some "google" |},
         {| us_users :=
              us_users st ++
              [{| u_id := fresh_id (us_nextId st);
                  u_email := email;
                  u_name := pf_displayName profile;
                  u_password := None;
                  u_role := "STUDENT";
                  u_isEmailVerified := true;
                  u_emailVerificationToken := None;
                  u_emailVerificationExpires := None;
                  u_googleId := Some (pf_id profile);
                  u_avatar := head photos;
                  u_provider := Some "google" |}];
            us_nextId := us_nextId st + 1 |})).
Proof.
  unfold googleVerify.
  destruct (find_user_by_googleId st (pf_id profile)) as [user|];
    [left; eauto|].
  right.
  destruct (pf_emails profile) as [[|email rest]|]; [now left| |now left].
  destruct (find_user_by_email st email) as [existingUser|] eqn:Hmail.
  - destruct (pf_photos profile) as [photos|]; [|now left].
    right; left. exists email, rest, existingUser, photos. auto.
  - destruct (pf_photos profile) as [photos|]; [|now left].
    right; right. exists email, rest, photos. auto.
Qed.

(** X21: what a Google sign-in never does.  Whatever the profile, no account
    is removed and an account keeps its key, e-mail address, name, password
    and role (an account that is linked keeps them too); at most one account
    is added, and only when neither the Google id nor the first e-mail
    address of the profile is known; the account added has the role STUDENT,
    no password, and is marked verified; and when e-mail addresses were
    unique they still are. *)
Theorem google_sign_in_frame (profile : Profile) (st : UserStore) :
  let st' := snd (googleVerify profile st) in
  (exists kept added,
      us_users st' = kept ++ added /\
      Forall2 same_account (us_users st) kept /\
      (added = [] \/
       exists user,
         added = [user] /\
         fst (googleVerify profile st) = Some user /\
         find_user_by_googleId st (pf_id profile) = None /\
         (forall u, In u (us_users st) -> u_email u <> u_email user) /\
         u_role user = "STUDENT" /\ u_password user = None /\
         u_isEmailVerified user = true /\
         u_googleId user = Some (pf_id profile))) /\
  (NoDup (map u_email (us_users st)) ->
   NoDup (map u_email (us_users st'))).
Proof.
  cbv zeta.
  assert (Hrefl : forall l, Forall2 same_account l l).
  { induction l; constructor; auto using same_account_refl. }
  destruct (googleVerify_cases profile st)
    as [(user & _ & ->)|[(_ & ->)|
        [(email & rest & existing & photos & _ & _ & _ & _ & ->)|
         (email & rest & photos & Hg & _ & Hmail & _ & ->)]]];
    cbn [fst snd us_users].
  - split; [|auto]. exists (us_users st), [].
    rewrite app_nil_r. split; [reflexivity|]. split; [apply Hrefl | now left].
  - split; [|auto]. exists (us_users st), [].
    rewrite app_nil_r. split; [reflexivity|]. split; [apply Hrefl | now left].
  - split.
    + eexists. exists []. rewrite app_nil_r. split; [reflexivity|].
      split; [|now left].
      induction (us_users st) as [|u l IH]; cbn [map]; constructor; auto.
      destruct (String.eqb (u_id u) (u_id existing));
        [apply same_account_link | apply same_account_refl].
    + intros Hnd.
      assert (Hsame : map u_email
                        (map (fun u => if String.eqb (u_id u) (u_id existing)
                                       then link_google (pf_id profile)
                                              (head photos) u
                                       else u) (us_users st))
                      = map u_email (us_users st)).
      { rewrite map_map. apply map_ext. intros u.
        now destruct (String.eqb (u_id u) (u_id existing)). }
      now rewrite Hsame.
  - split.
    + exists (us_users st). eexists. split; [reflexivity|].
      split; [apply Hrefl|]. right. eexists. split; [reflexivity|].
      split; [reflexivity|]. split; [exact Hg|]. split.
      * intros u Hin. cbn. now apply (find_user_by_email_None st email).
      * now repeat split.
    + intros Hnd. rewrite map_app. cbn [map].
      apply NoDup_app. split; [exact Hnd|]. split; [|apply NoDup_singleton].
      intros e He Hnew. apply list_elem_of_In in He, Hnew.
      destruct Hnew as [<-|[]].
      apply in_map_iff in He as [u [Hue Hin]].
      now apply (find_user_by_email_None st email Hmail u Hin).
Qed.

Lemma find_first_match {A} (f : A -> bool) (l : list A) x :
  In x l -> f x = true ->
  (forall y, In y l -> f y = true -> y = x) ->
  List.find f l = Some x.
Proof.
  intros Hin Hx Huniq.
  destruct (List.find f l) as [y|] eqn:Hf.
  - apply find_some in Hf as [Hy Hfy]. f_equal. now apply Huniq.
  - now rewrite (find_none _ _ Hf x Hin) in Hx.
Qed.

(** X22: signing in a second time changes nothing.  When keys are unique
    among the accounts, a sign-in that hands over a user leaves a store on
    which the same profile signs in to the same user, with the store
    unchanged: no second account, no second change. *)
Theorem second_sign_in_changes_nothing
  (profile : Profile) (st : UserStore) (user : User) :
  NoDup (map u_id (us_users st)) ->
  fst (googleVerify profile st) = Some user ->
  googleVerify profile (snd (googleVerify profile st))
  = (Some user, snd (googleVerify profile st)).
Proof.
  intros Hids Huser.
  assert (Hknown : forall st1 u,
             find_user_by_googleId st1 (pf_id profile) = Some u ->
             googleVerify profile st1 = (Some u, st1)).
  { intros st1 u Hu. unfold googleVerify. now rewrite Hu. }
  destruct (googleVerify_cases profile st)
    as [(u & Hg & Heq)|[(_ & Heq)|
        [(email & rest & existing & photos & Hg & _ & Hmail & _ & Heq)|
         (email & rest & photos & Hg & _ & Hmail & _ & Heq)]]];
    rewrite Heq in Huser |- *; cbn [fst snd] in *.
  - injection Huser as <-. now apply Hknown.
  - discriminate.
  - injection Huser as <-. apply Hknown.
    unfold find_user_by_email in Hmail. apply find_some in Hmail as [Hin _].
    unfold find_user_by_googleId. cbn [us_users].
    apply find_first_match.
    + apply in_map_iff. exists existing. split; [|exact Hin].
      now rewrite String.eqb_refl.
    + cbn. apply String.eqb_refl.
    + intros y Hy Hgy. apply in_map_iff in Hy as [u [<- Hu]].
      destruct (String.eqb (u_id u) (u_id existing)) eqn:Hid.
      * apply String.eqb_eq in Hid.
        now rewrite (NoDup_map_eq u_id (us_users st) u existing Hids Hu Hin Hid).
      * exfalso.
        destruct (u_googleId u) as [g|] eqn:Hgu; [|discriminate].
        apply String.eqb_eq in Hgy. subst g.
        now apply (find_user_by_googleId_None st (pf_id profile) Hg u Hu).
  - injection Huser as <-. apply Hknown.
    unfold find_user_by_googleId. cbn [us_users].
    apply find_first_match.
    + apply in_or_app. right. now left.
    + cbn. apply String.eqb_refl.
    + intros y Hy Hgy. apply in_app_or in Hy as [Hy|[<-|[]]]; [|reflexivity].
      exfalso.
      destruct (u_googleId y) as [g|] eqn:Hgu; [|discriminate].
      apply String.eqb_eq in Hgy. subst g.
      now apply (find_user_by_googleId_None st (pf_id profile) Hg y Hy).
Qed.

Lemma second_sign_in_changes_nothing_witness :
  NoDup (map u_id (us_users demo_users)) /\
  fst (googleVerify demo_profile demo_users)
  = Some (link_google "g-1" None demo_tutor) /\
  googleVerify demo_profile (snd (googleVerify demo_profile demo_users))
  = (Some (link_google "g-1" None demo_tutor),
     snd (googleVerify demo_profile demo_users)).
Proof.
  assert (H : NoDup (map u_id (us_users demo_users)))
    by apply NoDup_singleton.
  split; [exact H|]. split; [reflexivity|].
  exact (second_sign_in_changes_nothing demo_profile demo_users
           (link_google "g-1" None demo_tutor) H eq_refl).
Defined.

(** X23: the session gives back the account it was opened for, without its
    secrets.  When keys are unique among the accounts, the user read back
    from the key that serializeUser put in the session is the stored account:
    its key, name, e-mail address, role, avatar, provider and verified flag,
    and no other field (neither the password nor the Google id); an unknown
    key reads back as null. *)
Theorem session_round_trip (st : UserStore) (user : User) :
  NoDup (map u_id (us_users st)) ->
  In user (us_users st) ->
  deserializeUser (serializeUser user) st
  = JObj [("id", JStr (u_id user));
          ("name", JStr (u_name user));
          ("email", JStr (u_email user));
          ("role", JStr (u_role user));
          ("avatar", JOptStr (u_avatar user));
          ("provider", JOptStr (u_provider user));
          ("isEmailVerified", JBool (u_isEmailVerified user))] /\
  get_field "password" (deserializeUser (serializeUser user) st) = None /\
  get_field "googleId" (deserializeUser (serializeUser user) st) = None /\
  (forall id,
      (forall u, In u (us_users st) -> u_id u <> id) ->
      deserializeUser id st = JNull).
Proof.
  intros Hids Hin.
  assert (Hfind : find_user_by_id st (serializeUser user) = Some user).
  { unfold find_user_by_id, serializeUser. apply find_first_match.
    - exact Hin.
    - apply String.eqb_refl.
    - intros y Hy Hid. apply String.eqb_eq in Hid.
      now apply (NoDup_map_eq u_id (us_users st)). }
  unfold deserializeUser. rewrite Hfind.
  split; [reflexivity|]. split; [reflexivity|]. split; [reflexivity|].
  intros id Hnone. unfold find_user_by_id.
  destruct (List.find _ _) as [u|] eqn:Hf; [|reflexivity].
  apply find_some in Hf as [Hu Hid]. apply String.eqb_eq in Hid.
  now destruct (Hnone u Hu).
Qed.

Lemma session_round_trip_witness :
  NoDup (map u_id (us_users demo_users)) /\
  In demo_tutor (us_users demo_users) /\
  get_field "password" (deserializeUser (serializeUser demo_tutor) demo_users)
  = None.
Proof.
  assert (H : NoDup (map u_id (us_users demo_users)))
    by apply NoDup_singleton.
  assert (Hin : In demo_tutor (us_users demo_users)) by now left.
  split; [exact H|]. split; [exact Hin|].
  exact (proj1 (proj2 (session_round_trip demo_users demo_tutor H Hin))).
Defined.
